(** * PdfEditor: a shallow embedding of the interactive PDF text editor

    The development follows the React component [PdfEditor]: text
    extraction, the text-run update, the point-to-screen conversion, the
    annotation gestures and their replay, page navigation, zoom, the drop
    handler and the export loop.

    Conventions of the embedding.
    - A JavaScript number is an exact rational ([Q]); NaN and the
      infinities are not represented, and no rounding is performed.  A
      division whose divisor may be zero is only reasoned about under an
      explicit non-zero hypothesis.
    - A JavaScript string is the list of its UTF-16 code units.
    - The component state ([useState] cells and [useRef] cells) is one
      record; an event handler is a computation in a state-and-exception
      monad and runs to completion ([await] points are not interleaved
      with other handlers).  A state setter called with a value writes
      its cell at once; an updater function that reads a ref cell is
      applied where React runs it, after the handler has returned.
    - The external libraries (the parser/rasterizer and the document
      builder) are represented by the data they hand back. *)

From Stdlib Require Import ZArith QArith Qabs Qminmax Qround.
From Stdlib Require Import List String Ascii Bool Lia Lqa DecimalString.
From Stdlib Require Import DecimalPos DecimalZ.
Import ListNotations.

Local Open Scope Q_scope.

(* ------------------------------------------------------------------ *)
(** ** JavaScript values *)

Module Js.

Definition code_unit := N.
Definition jsstring := list code_unit.

(** A string literal of the source. *)
Definition lit (s : string) : jsstring :=
  List.map N_of_ascii (list_ascii_of_string s).

(** [`${n}`] for an integer. *)
Definition decimal (z : Z) : jsstring :=
  lit (NilZero.string_of_int (Z.to_int z)).

Definition code_unit_eqb (a b : code_unit) : bool := N.eqb a b.

(** [a === b] on strings. *)
Fixpoint str_eqb (a b : jsstring) : bool :=
  match a, b with
  | [], [] => true
  | x :: a', y :: b' => code_unit_eqb x y && str_eqb a' b'
  | _, _ => false
  end.

(** ECMAScript WhiteSpace and LineTerminator code points, the ones
    [String.prototype.trim] strips. *)
Definition is_whitespace (c : code_unit) : bool :=
  ((9 <=? c) && (c <=? 13) || (c =? 32) || (c =? 160) || (c =? 5760)
   || (8192 <=? c) && (c <=? 8202)
   || (c =? 8232) || (c =? 8233) || (c =? 8239) || (c =? 8287)
   || (c =? 12288) || (c =? 65279))%N.

Fixpoint trimStart (s : jsstring) : jsstring :=
  match s with
  | [] => []
  | c :: rest => if is_whitespace c then trimStart rest else s
  end.

Definition trimEnd (s : jsstring) : jsstring :=
  rev (trimStart (rev s)).

Definition trim (s : jsstring) : jsstring := trimEnd (trimStart s).

(** Truthiness of a string: non-empty. *)
Definition str_truthy (s : jsstring) : bool :=
  match s with [] => false | _ :: _ => true end.

(** Truthiness of a (finite) number: non-zero. *)
Definition num_truthy (q : Q) : bool := negb (Qeq_bool q 0).

(** [a || b] where [a] is a number. *)
Definition num_or (a b : Q) : Q := if num_truthy a then a else b.

(** [a || b] where [a] may be [undefined]. *)
Definition opt_num_or (a : option Q) (b : Q) : Q :=
  match a with
  | Some q => num_or q b
  | None => b
  end.

Definition opt_str_or (a : option jsstring) (b : jsstring) : jsstring :=
  match a with
  | Some s => if str_truthy s then s else b
  | None => b
  end.

(** [Math.round]: the nearest integer, ties towards plus infinity. *)
Definition math_round (q : Q) : Q := inject_Z (Qfloor (q + (1 # 2))).

Definition math_abs (q : Q) : Q := Qabs q.
Definition math_max (a b : Q) : Q := Qmax a b.
Definition math_min (a b : Q) : Q := Qmin a b.

(** [arr[i]] read as a number in a context where [undefined] and [0]
    behave alike ([Math.abs(undefined)] is NaN, which is falsy like 0,
    and [undefined || 0] is 0). *)
Definition index_or_zero (arr : list Q) (i : nat) : Q := nth i arr 0.

End Js.

Import Js.

(* ------------------------------------------------------------------ *)
(** ** Data model of the component *)

Record Color := mkColor { r : Q; g : Q; b : Q }.

Module TextItem.
Record t := mk {
  id : jsstring;
  text : jsstring;
  x : Q;
  y : Q;
  width : Q;
  height : Q;
  fontSize : Q;
  fontName : jsstring;
  color : Color;
  rotation : Q;
  pageIndex : Z;
  pageWidth : Q;   (* original page width in points *)
  pageHeight : Q;  (* original page height in points *)
}.

(** [{ ...item, text: newText }] *)
Definition with_text (item : t) (newText : jsstring) : t :=
  mk (id item) newText (x item) (y item) (width item) (height item)
     (fontSize item) (fontName item) (color item) (rotation item)
     (pageIndex item) (pageWidth item) (pageHeight item).
End TextItem.

Inductive AnnotationType := Draw | HighlightMark | RectangleMark | CircleMark.

Record Point := mkPoint { px : Q; py : Q }.

Module Annotation.
Record t := mk {
  id : jsstring;
  type : AnnotationType;
  path : list Point;
  color : jsstring;
  pageIndex : Z;
}.
End Annotation.

Inductive EditingMode := ViewMode | EditMode | AnnotateMode.

Inductive Tool :=
  PointerTool | TextTool | HighlightTool | RectangleTool | CircleTool.

(* ------------------------------------------------------------------ *)
(** ** What the parser hands back *)

(** The [color] property of a text-content item, by the cases the source
    distinguishes: an array of channels in the 0-1 range (non-empty; an
    empty array would give NaN), an object taken as it is, or any other
    truthy value. *)
Inductive RawColor :=
| ColorArray (c0 : Q) (rest : list Q)
| ColorObject (c : Color)
| ColorOther.

Module RawItem.
(** An entry of [textContent.items]; every property may be absent
    (marked-content entries carry neither [str] nor [transform]). *)
Record t := mk {
  str : option jsstring;
  transform : option (list Q);
  width : option Q;
  height : option Q;
  fontName : option jsstring;
  color : option RawColor;
}.
End RawItem.

Module PdfPage.
(** A page as the parser presents it: its viewport at scale 1 and its
    text content. *)
Record t := mk {
  viewportWidth : Q;
  viewportHeight : Q;
  items : list RawItem.t;
}.
End PdfPage.

(** [PDFDocumentProxy]: [numPages] is the length. *)
Definition PdfDoc := list PdfPage.t.

(* ------------------------------------------------------------------ *)
(** ** extractTextFromPdf *)

Module Extract.

Definition fontSizeOf (transform : list Q) (itemHeight : option Q) : Q :=
  num_or (math_abs (index_or_zero transform 0))
    (num_or (math_abs (index_or_zero transform 3))
       (opt_num_or itemHeight 12)).

Definition colorOf (c : option RawColor) : Color :=
  match c with
  | Some (ColorArray c0 rest) =>
      mkColor (math_round (c0 * 255))
        (match rest with
         | c1 :: _ => math_round (c1 * 255)
         | [] => 0
         end)
        (match rest with
         | _ :: c2 :: _ => math_round (c2 * 255)
         | _ => 0
         end)
  | Some (ColorObject c) => c
  | Some ColorOther => mkColor 0 0 0
  | None => mkColor 0 0 0
  end.

Definition itemId (pageNum index : nat) : jsstring :=
  lit "text-" ++ decimal (Z.of_nat pageNum) ++ lit "-"
    ++ decimal (Z.of_nat index).

(** The body of the [forEach] callback: [None] when the guard
    [item.str && item.transform] fails and nothing is pushed. *)
Definition extractItem (pageNum : nat) (viewportWidth viewportHeight : Q)
    (index : nat) (item : RawItem.t) : option TextItem.t :=
  match RawItem.str item, RawItem.transform item with
  | Some str, Some transform =>
      if str_truthy str then
        let fontSize := fontSizeOf transform (RawItem.height item) in
        let x := num_or (index_or_zero transform 4) 0 in
        let y := num_or (index_or_zero transform 5) 0 in
        let width :=
          opt_num_or (RawItem.width item)
            (inject_Z (Z.of_nat (List.length str)) * fontSize * (6 # 10)) in
        let height := opt_num_or (RawItem.height item) fontSize in
        let color := colorOf (RawItem.color item) in
        let pdfY := viewportHeight - y in
        Some (TextItem.mk (itemId pageNum index) str x pdfY width height
                fontSize (opt_str_or (RawItem.fontName item) (lit "Helvetica"))
                color 0 (Z.of_nat pageNum - 1)
                viewportWidth viewportHeight)
      else None
  | _, _ => None
  end.

(** [textContent.items.forEach((item, index) => ...)], from [index]. *)
Fixpoint extractItemsFrom (pageNum : nat) (vw vh : Q) (index : nat)
    (items : list RawItem.t) : list TextItem.t :=
  match items with
  | [] => []
  | item :: rest =>
      match extractItem pageNum vw vh index item with
      | Some run => run :: extractItemsFrom pageNum vw vh (S index) rest
      | None => extractItemsFrom pageNum vw vh (S index) rest
      end
  end.

Definition extractPage (pageNum : nat) (page : PdfPage.t) : list TextItem.t :=
  extractItemsFrom pageNum (PdfPage.viewportWidth page)
    (PdfPage.viewportHeight page) 0 (PdfPage.items page).

(** The loop [for (pageNum = 1; pageNum <= pdf.numPages; pageNum++)],
    from [pageNum]. *)
Fixpoint extractPagesFrom (pageNum : nat) (pages : list PdfPage.t)
    : list TextItem.t :=
  match pages with
  | [] => []
  | page :: rest =>
      extractPage pageNum page ++ extractPagesFrom (S pageNum) rest
  end.

Definition extractTextFromPdf (pdf : PdfDoc) : list TextItem.t :=
  extractPagesFrom 1 pdf.

End Extract.

(* ------------------------------------------------------------------ *)
(** ** Component state *)

Module File.
(** A dropped [File].  [parsed] is what [pdfjsLib.getDocument] resolves
    to on its bytes ([None]: the promise rejects); [libPages] is the
    list of page sizes [PDFDocument.load] yields ([None]: it rejects). *)
Record t := mk {
  name : jsstring;
  type : jsstring;
  size : Z;
  parsed : option PdfDoc;
  libPages : option (list (Q * Q));
}.
End File.

Module Toast.
Inductive variant := Default | Destructive.
Record t := mk {
  title : jsstring;
  description : jsstring;
  kind : variant;
}.
End Toast.

(** Drawing calls received by a 2D canvas context since it was last
    cleared.  The radius of an arc is kept as its square
    ([Math.sqrt] leaves the rationals). *)
Inductive CanvasOp :=
| PageRaster (pageNum : Z) (scale : Q)
| FillRect (fillStyle : jsstring) (x y w h : Q)
| StrokeRect (strokeStyle : jsstring) (lineWidth : Q) (x y w h : Q)
| StrokePath (strokeStyle : jsstring) (lineWidth alpha : Q) (pts : list Point)
| StrokeArc (strokeStyle : jsstring) (lineWidth : Q) (cx cy radiusSquared : Q).

Module Canvas.
(** An [HTMLCanvasElement]: integer dimensions, the position of its
    bounding client rectangle, and what was drawn on it. *)
Record t := mk {
  width : Z;
  height : Z;
  left : Q;
  top : Q;
  ops : list CanvasOp;
}.

(** Web IDL conversion of a number to [unsigned long]: truncate, then
    reduce modulo 2^32. *)
Definition to_unsigned_long (q : Q) : Z :=
  (if Qle_bool 0 q then Qfloor q else Qceiling q) mod 2 ^ 32.

(** Reflection of an [unsigned long] attribute: a value above
    2147483647 falls back to the attribute's default. *)
Definition reflect_dimension (default : Z) (q : Q) : Z :=
  let v := to_unsigned_long q in
  if (v >? 2147483647)%Z then default else v.

(** [canvas.height = h; canvas.width = w]; assigning a dimension
    clears the bitmap. *)
Definition resize (c : t) (w h : Q) : t :=
  mk (reflect_dimension 300 w) (reflect_dimension 150 h)
     (left c) (top c) [].

Definition draw (c : t) (new_ops : list CanvasOp) : t :=
  mk (width c) (height c) (left c) (top c) (ops c ++ new_ops).

End Canvas.

Module Container.
Record t := mk { clientWidth : Z; clientHeight : Z }.
End Container.

Module Viewport.
(** [page.getViewport({ scale })] of an unrotated page. *)
Record t := mk { width : Q; height : Q; scale : Q }.

Definition of_page (page : PdfPage.t) (scale : Q) : t :=
  mk (PdfPage.viewportWidth page * scale)
     (PdfPage.viewportHeight page * scale) scale.
End Viewport.

Module St.
Record t := mk {
  (* useState *)
  file : option File.t;
  pdfDoc : option PdfDoc;
  currentPage : Z;
  totalPages : Z;
  scale : Q;
  textItems : list TextItem.t;
  (* the array is typed [Annotation[]], but a non-null assertion lets
     [null] into it: an entry is an annotation or [null] *)
  annotations : list (option Annotation.t);
  editingMode : EditingMode;
  selectedTool : Tool;
  isProcessing : bool;
  progress : Q;
  currentViewport : option Viewport.t;
  (* useRef *)
  canvasRef : option Canvas.t;
  containerRef : option Container.t;
  annotationCanvasRef : option Canvas.t;
  isDrawingRef : bool;
  currentAnnotationRef : option Annotation.t;
  (* calls of [toast], oldest first *)
  toasts : list Toast.t;
}.

(** The state of a freshly mounted component, given its DOM nodes. *)
Definition initial (canvas annotationCanvas : option Canvas.t)
    (container : option Container.t) : t :=
  mk None None 1 0 (3 # 2) [] [] ViewMode PointerTool false 0 None
     canvas container annotationCanvas false None [].

Definition setFile v s :=
  mk v (pdfDoc s) (currentPage s) (totalPages s) (scale s) (textItems s)
     (annotations s) (editingMode s) (selectedTool s) (isProcessing s)
     (progress s) (currentViewport s) (canvasRef s) (containerRef s)
     (annotationCanvasRef s) (isDrawingRef s) (currentAnnotationRef s)
     (toasts s).
Definition setPdfDoc v s :=
  mk (file s) v (currentPage s) (totalPages s) (scale s) (textItems s)
     (annotations s) (editingMode s) (selectedTool s) (isProcessing s)
     (progress s) (currentViewport s) (canvasRef s) (containerRef s)
     (annotationCanvasRef s) (isDrawingRef s) (currentAnnotationRef s)
     (toasts s).
Definition setCurrentPage v s :=
  mk (file s) (pdfDoc s) v (totalPages s) (scale s) (textItems s)
     (annotations s) (editingMode s) (selectedTool s) (isProcessing s)
     (progress s) (currentViewport s) (canvasRef s) (containerRef s)
     (annotationCanvasRef s) (isDrawingRef s) (currentAnnotationRef s)
     (toasts s).
Definition setTotalPages v s :=
  mk (file s) (pdfDoc s) (currentPage s) v (scale s) (textItems s)
     (annotations s) (editingMode s) (selectedTool s) (isProcessing s)
     (progress s) (currentViewport s) (canvasRef s) (containerRef s)
     (annotationCanvasRef s) (isDrawingRef s) (currentAnnotationRef s)
     (toasts s).
Definition setScale v s :=
  mk (file s) (pdfDoc s) (currentPage s) (totalPages s) v (textItems s)
     (annotations s) (editingMode s) (selectedTool s) (isProcessing s)
     (progress s) (currentViewport s) (canvasRef s) (containerRef s)
     (annotationCanvasRef s) (isDrawingRef s) (currentAnnotationRef s)
     (toasts s).
Definition setTextItems v s :=
  mk (file s) (pdfDoc s) (currentPage s) (totalPages s) (scale s) v
     (annotations s) (editingMode s) (selectedTool s) (isProcessing s)
     (progress s) (currentViewport s) (canvasRef s) (containerRef s)
     (annotationCanvasRef s) (isDrawingRef s) (currentAnnotationRef s)
     (toasts s).
Definition setAnnotations v s :=
  mk (file s) (pdfDoc s) (currentPage s) (totalPages s) (scale s)
     (textItems s) v (editingMode s) (selectedTool s) (isProcessing s)
     (progress s) (currentViewport s) (canvasRef s) (containerRef s)
     (annotationCanvasRef s) (isDrawingRef s) (currentAnnotationRef s)
     (toasts s).
Definition setEditingMode v s :=
  mk (file s) (pdfDoc s) (currentPage s) (totalPages s) (scale s)
     (textItems s) (annotations s) v (selectedTool s) (isProcessing s)
     (progress s) (currentViewport s) (canvasRef s) (containerRef s)
     (annotationCanvasRef s) (isDrawingRef s) (currentAnnotationRef s)
     (toasts s).
Definition setSelectedTool v s :=
  mk (file s) (pdfDoc s) (currentPage s) (totalPages s) (scale s)
     (textItems s) (annotations s) (editingMode s) v (isProcessing s)
     (progress s) (currentViewport s) (canvasRef s) (containerRef s)
     (annotationCanvasRef s) (isDrawingRef s) (currentAnnotationRef s)
     (toasts s).
Definition setIsProcessing v s :=
  mk (file s) (pdfDoc s) (currentPage s) (totalPages s) (scale s)
     (textItems s) (annotations s) (editingMode s) (selectedTool s) v
     (progress s) (currentViewport s) (canvasRef s) (containerRef s)
     (annotationCanvasRef s) (isDrawingRef s) (currentAnnotationRef s)
     (toasts s).
Definition setProgress v s :=
  mk (file s) (pdfDoc s) (currentPage s) (totalPages s) (scale s)
     (textItems s) (annotations s) (editingMode s) (selectedTool s)
     (isProcessing s) v (currentViewport s) (canvasRef s) (containerRef s)
     (annotationCanvasRef s) (isDrawingRef s) (currentAnnotationRef s)
     (toasts s).
Definition setCurrentViewport v s :=
  mk (file s) (pdfDoc s) (currentPage s) (totalPages s) (scale s)
     (textItems s) (annotations s) (editingMode s) (selectedTool s)
     (isProcessing s) (progress s) v (canvasRef s) (containerRef s)
     (annotationCanvasRef s) (isDrawingRef s) (currentAnnotationRef s)
     (toasts s).
Definition setCanvas v s :=
  mk (file s) (pdfDoc s) (currentPage s) (totalPages s) (scale s)
     (textItems s) (annotations s) (editingMode s) (selectedTool s)
     (isProcessing s) (progress s) (currentViewport s) v (containerRef s)
     (annotationCanvasRef s) (isDrawingRef s) (currentAnnotationRef s)
     (toasts s).
Definition setContainer v s :=
  mk (file s) (pdfDoc s) (currentPage s) (totalPages s) (scale s)
     (textItems s) (annotations s) (editingMode s) (selectedTool s)
     (isProcessing s) (progress s) (currentViewport s) (canvasRef s) v
     (annotationCanvasRef s) (isDrawingRef s) (currentAnnotationRef s)
     (toasts s).
Definition setAnnotationCanvas v s :=
  mk (file s) (pdfDoc s) (currentPage s) (totalPages s) (scale s)
     (textItems s) (annotations s) (editingMode s) (selectedTool s)
     (isProcessing s) (progress s) (currentViewport s) (canvasRef s)
     (containerRef s) v (isDrawingRef s) (currentAnnotationRef s)
     (toasts s).
Definition setIsDrawing v s :=
  mk (file s) (pdfDoc s) (currentPage s) (totalPages s) (scale s)
     (textItems s) (annotations s) (editingMode s) (selectedTool s)
     (isProcessing s) (progress s) (currentViewport s) (canvasRef s)
     (containerRef s) (annotationCanvasRef s) v (currentAnnotationRef s)
     (toasts s).
Definition setCurrentAnnotation v s :=
  mk (file s) (pdfDoc s) (currentPage s) (totalPages s) (scale s)
     (textItems s) (annotations s) (editingMode s) (selectedTool s)
     (isProcessing s) (progress s) (currentViewport s) (canvasRef s)
     (containerRef s) (annotationCanvasRef s) (isDrawingRef s) v
     (toasts s).
Definition pushToast v s :=
  mk (file s) (pdfDoc s) (currentPage s) (totalPages s) (scale s)
     (textItems s) (annotations s) (editingMode s) (selectedTool s)
     (isProcessing s) (progress s) (currentViewport s) (canvasRef s)
     (containerRef s) (annotationCanvasRef s) (isDrawingRef s)
     (currentAnnotationRef s) (toasts s ++ [v]).
End St.

(* ------------------------------------------------------------------ *)
(** ** Handlers as computations: state plus exceptions *)

(** The error taxonomy of the specification.  Exceptions of the
    external libraries are classified along it: a rejected parse or load
    is [UnreadableDocument], a rejected [getPage] is [OutOfRange], a
    failing [drawText] or [embedFont] is [DrawFailure], a failing [save]
    is [SerializationFailed].  [TypeError] is the error of the language
    itself: reading a property of [null]. *)
Inductive Exn :=
| UnreadableDocument
| OutOfRange
| NotFound
| DrawFailure
| SerializationFailed
| TypeError.

Inductive Completion (A : Type) :=
| Normal (a : A)
| Abrupt (e : Exn).
Arguments Normal {A} a.
Arguments Abrupt {A} e.

(** A handler body: it reads and writes the component state and either
    returns or throws; writes made before a throw persist. *)
Definition M (A : Type) := St.t -> Completion A * St.t.

Definition ret {A} (a : A) : M A := fun s => (Normal a, s).

Definition bind {A B} (m : M A) (k : A -> M B) : M B :=
  fun s =>
    match m s with
    | (Normal a, s') => k a s'
    | (Abrupt e, s') => (Abrupt e, s')
    end.

Definition throw {A} (e : Exn) : M A := fun s => (Abrupt e, s).

(** [try { body } catch (error) { handler }] *)
Definition try_catch {A} (body : M A) (handler : Exn -> M A) : M A :=
  fun s =>
    match body s with
    | (Normal a, s') => (Normal a, s')
    | (Abrupt e, s') => handler e s'
    end.

Definition get : M St.t := fun s => (Normal s, s).
Definition modify (f : St.t -> St.t) : M unit := fun s => (Normal tt, f s).

(** [await promise] for a promise that resolves to [Some] or rejects. *)
Definition await {A} (e : Exn) (result : option A) : M A :=
  match result with
  | Some a => ret a
  | None => throw e
  end.

(** An expression that yields a value or throws [e]. *)
Definition valueOrThrow {A} (e : Exn) (result : option A) : M A :=
  match result with
  | Some a => ret a
  | None => throw e
  end.

Declare Scope handler_scope.
Delimit Scope handler_scope with handler.
Notation "x <- m ;; k" := (bind m (fun x => k))
  (at level 61, m at next level, right associativity) : handler_scope.
Notation "m ;; k" := (bind m (fun _ => k))
  (at level 61, right associativity) : handler_scope.
Local Open Scope handler_scope.

Definition toast (title description : string) (kind : Toast.variant) : M unit :=
  modify (St.pushToast (Toast.mk (lit title) (lit description) kind)).

(** The state a handler leaves behind. *)
Definition exec {A} (m : M A) (s : St.t) : St.t := snd (m s).
(** How a handler completes. *)
Definition outcome {A} (m : M A) (s : St.t) : Completion A := fst (m s).

(* ------------------------------------------------------------------ *)
(** ** Text runs: update, per-page filter, screen conversion *)

Module TextModel.

(** [prev.map((item) => item.id === id ? { ...item, text: newText } : item)] *)
Definition updateItems (id newText : jsstring) (prev : list TextItem.t)
    : list TextItem.t :=
  List.map (fun item =>
              if str_eqb (TextItem.id item) id
              then TextItem.with_text item newText
              else item) prev.

Definition updateTextItem (id newText : jsstring) : M unit :=
  modify (fun s => St.setTextItems (updateItems id newText (St.textItems s)) s).

Definition itemsForPage (pageIndex : Z) (items : list TextItem.t)
    : list TextItem.t :=
  List.filter (fun item => (TextItem.pageIndex item =? pageIndex)%Z) items.

Definition getTextItemsForPage (s : St.t) (pageIndex : Z) : list TextItem.t :=
  itemsForPage pageIndex (St.textItems s).

End TextModel.

Module Coords.

Record ScreenCoords := mkScreen {
  sx : Q;
  sy : Q;
  swidth : Q;
  sheight : Q;
}.

Definition screenX (item : TextItem.t) (canvas : Canvas.t) : Q :=
  (TextItem.x item / TextItem.pageWidth item) * inject_Z (Canvas.width canvas).

Definition screenY (item : TextItem.t) (canvas : Canvas.t) : Q :=
  (TextItem.y item / TextItem.pageHeight item) * inject_Z (Canvas.height canvas).

Definition screenWidth (item : TextItem.t) (canvas : Canvas.t) : Q :=
  (TextItem.width item / TextItem.pageWidth item) * inject_Z (Canvas.width canvas).

Definition screenHeight (item : TextItem.t) (canvas : Canvas.t) : Q :=
  (TextItem.height item / TextItem.pageHeight item)
  * inject_Z (Canvas.height canvas).

(** [null] when the canvas is not mounted or no viewport is stored.
    [canvasRef] is the live ref cell, [currentViewport] the state value
    the calling closure captured. *)
Definition convertPdfToScreenCoords (canvasRef : option Canvas.t)
    (currentViewport : option Viewport.t) (textItem : TextItem.t)
    : option ScreenCoords :=
  match canvasRef, currentViewport with
  | Some canvas, Some _ =>
      Some (mkScreen (screenX textItem canvas) (screenY textItem canvas)
              (math_max (screenWidth textItem canvas) 30)
              (math_max (screenHeight textItem canvas) 15))
  | _, _ => None
  end.

End Coords.

(* ------------------------------------------------------------------ *)
(** ** Annotations: gestures and replay *)

Module Annot.

Record MouseEvent := mkMouse { clientX : Q; clientY : Q }.

Definition typeOfTool (tool : Tool) : AnnotationType :=
  match tool with
  | TextTool => Draw
  | HighlightTool => HighlightMark
  | RectangleTool => RectangleMark
  | CircleTool => CircleMark
  | PointerTool => Draw (* unreachable: the handler returns first *)
  end.

Definition colorOfTool (tool : Tool) : jsstring :=
  match tool with
  | HighlightTool => lit "#ffff00"
  | _ => lit "#ff0000"
  end.

(** The point a mouse event designates on the annotation canvas:
    [e.clientX - rect.left], [e.clientY - rect.top]. *)
Definition canvasPoint (e : MouseEvent) (canvas : Canvas.t) : Point :=
  mkPoint (clientX e - Canvas.left canvas) (clientY e - Canvas.top canvas).

(** [now] is the value of [Date.now()]. *)
Definition handleAnnotationStart (e : MouseEvent) (now : Z) : M unit :=
  s <- get ;;
  match St.selectedTool s, St.annotationCanvasRef s with
  | PointerTool, _ => ret tt
  | _, None => ret tt
  | tool, Some canvas =>
      modify (St.setIsDrawing true) ;;
      modify (St.setCurrentAnnotation
                (Some (Annotation.mk
                         (lit "annotation-" ++ decimal now)
                         (typeOfTool tool)
                         [canvasPoint e canvas]
                         (colorOfTool tool)
                         (St.currentPage s - 1))))
  end.

Definition pushPoint (a : Annotation.t) (p : Point) : Annotation.t :=
  Annotation.mk (Annotation.id a) (Annotation.type a)
    (Annotation.path a ++ [p]) (Annotation.color a) (Annotation.pageIndex a).

Definition lineWidthOf (ty : AnnotationType) : Q :=
  match ty with HighlightMark => 15 | _ => 2 end.

Definition firstPoint (path : list Point) : Point :=
  List.hd (mkPoint 0 0) path.

Definition lastPoint (path : list Point) : Point :=
  List.last path (mkPoint 0 0).

(** What [pageAnnotations.forEach] draws for one committed annotation:
    the stored path coordinates are handed to the context as they are. *)
Definition drawAnnotation (a : Annotation.t) : list CanvasOp :=
  let path := Annotation.path a in
  let colour := Annotation.color a in
  let lw := lineWidthOf (Annotation.type a) in
  match Annotation.type a with
  | Draw =>
      if (1 <? List.length path)%nat
      then [StrokePath colour lw 1 path] else []
  | HighlightMark =>
      if (1 <? List.length path)%nat
      then [StrokePath colour lw (3 # 10) path] else []
  | RectangleMark =>
      if (2 <=? List.length path)%nat
      then
        let start := firstPoint path in
        let finish := lastPoint path in
        [StrokeRect colour lw (px start) (py start)
           (px finish - px start) (py finish - py start)]
      else []
  | CircleMark =>
      if (2 <=? List.length path)%nat
      then
        let start := firstPoint path in
        let finish := lastPoint path in
        [StrokeArc colour lw (px start) (py start)
           ((px finish - px start) * (px finish - px start)
            + (py finish - py start) * (py finish - py start))]
      else []
  end.

(** The in-progress annotation, drawn last while a gesture is active. *)
Definition drawCurrent (s : St.t) : list CanvasOp :=
  match St.isDrawingRef s, St.currentAnnotationRef s with
  | true, Some cur =>
      if (1 <? List.length (Annotation.path cur))%nat
      then [StrokePath (Annotation.color cur)
              (lineWidthOf (Annotation.type cur))
              (match Annotation.type cur with
               | HighlightMark => 3 # 10
               | _ => 1
               end)
              (Annotation.path cur)]
      else []
  | _, _ => []
  end.

(** [annotations.filter((a) => a.pageIndex === pageIndex)].  The
    callback is applied to every entry; on a [null] entry the read of
    [a.pageIndex] throws and there is no result ([None]). *)
Fixpoint annotationsForPage (pageIndex : Z) (l : list (option Annotation.t))
    : option (list Annotation.t) :=
  match l with
  | [] => Some []
  | None :: _ => None
  | Some a :: rest =>
      match annotationsForPage pageIndex rest with
      | Some kept =>
          Some (if (Annotation.pageIndex a =? pageIndex)%Z
                then a :: kept else kept)
      | None => None
      end
  end.

(** The annotation canvas takes the size of the page canvas and is
    cleared; then the committed annotations of the page are selected
    (which throws on a [null] entry) and drawn; when the page has none
    the function returns before the in-progress one is drawn. *)
Definition renderAnnotations (pageIndex : Z) : M unit :=
  s <- get ;;
  match St.annotationCanvasRef s, St.canvasRef s with
  | Some canvas, Some pageCanvas =>
      let sized :=
        Canvas.mk (Canvas.width pageCanvas) (Canvas.height pageCanvas)
          (Canvas.left canvas) (Canvas.top canvas) [] in
      modify (St.setAnnotationCanvas (Some sized)) ;;
      pageAnnotations <-
        valueOrThrow TypeError
          (annotationsForPage pageIndex (St.annotations s)) ;;
      match pageAnnotations with
      | [] => ret tt
      | _ :: _ =>
          modify (St.setAnnotationCanvas
                    (Some (Canvas.draw sized
                             (List.flat_map drawAnnotation pageAnnotations
                              ++ drawCurrent s))))
      end
  | _, _ => ret tt
  end.

Definition handleAnnotationMove (e : MouseEvent) : M unit :=
  s <- get ;;
  match St.isDrawingRef s, St.annotationCanvasRef s, St.currentAnnotationRef s with
  | true, Some canvas, Some cur =>
      modify (St.setCurrentAnnotation
                (Some (pushPoint cur (canvasPoint e canvas)))) ;;
      renderAnnotations (St.currentPage s - 1)
  | _, _, _ => ret tt
  end.

(** The updater [(prev) => [...prev, currentAnnotationRef.current!]]
    handed to [setAnnotations]: it reads the ref cell at the moment
    React runs it. *)
Definition appendCurrent (s : St.t) : St.t :=
  St.setAnnotations (St.annotations s ++ [St.currentAnnotationRef s]) s.

(** [setAnnotations] only queues its updater; React runs the queue once
    the handler has returned, that is after the handler has cleared the
    ref cell and the drawing flag. *)
Definition handleAnnotationEnd : M unit :=
  s <- get ;;
  match St.isDrawingRef s, St.currentAnnotationRef s with
  | true, Some _ =>
      modify (St.setCurrentAnnotation None) ;;
      modify (St.setIsDrawing false) ;;
      modify appendCurrent
  | _, _ => modify (St.setIsDrawing false)
  end.

End Annot.

(* ------------------------------------------------------------------ *)
(** ** Rendering a page *)

Module Render.

(** [pdfDoc.getPage(pageNum)]: pages are numbered from 1; the promise
    rejects for any other number. *)
Definition getPage (pdf : PdfDoc) (pageNum : Z) : option PdfPage.t :=
  if (1 <=? pageNum)%Z then nth_error pdf (Z.to_nat (pageNum - 1)) else None.

Definition coverRect (c : Coords.ScreenCoords) : CanvasOp :=
  let padding := 3 in
  FillRect (lit "#ffffff")
    (Coords.sx c - padding) (Coords.sy c - padding)
    (Coords.swidth c + padding * 2) (Coords.sheight c + padding * 2).

(** [snap] holds the [useState] values the closure captured when the
    component last rendered; ref cells are read from the live state. *)
Definition coverOriginalText (snap : St.t) (pageIndex : Z) : M unit :=
  s <- get ;;
  match St.canvasRef s, St.currentViewport snap, St.editingMode snap with
  | Some canvas, Some _, EditMode =>
      match TextModel.getTextItemsForPage snap pageIndex with
      | [] => ret tt
      | pageTextItems =>
          modify (St.setCanvas
                    (Some (Canvas.draw canvas
                             (List.flat_map
                                (fun textItem =>
                                   match Coords.convertPdfToScreenCoords
                                           (St.canvasRef s)
                                           (St.currentViewport snap) textItem with
                                   | Some c => [coverRect c]
                                   | None => []
                                   end) pageTextItems))))
      end
  | _, _, _ => ret tt
  end.

(** The state read at entry is the closure's snapshot of [pdfDoc],
    [scale], [currentPage] and [editingMode].  A rejected [getPage] is
    caught by the enclosing handler, which only logs. *)
Definition renderPage (pageNum : Z) : M unit :=
  s <- get ;;
  match St.pdfDoc s, St.canvasRef s with
  | Some pdf, Some canvas =>
      try_catch
        (page <- await OutOfRange (getPage pdf pageNum) ;;
         let viewport := Viewport.of_page page (St.scale s) in
         modify (St.setCanvas
                   (Some (Canvas.resize canvas (Viewport.width viewport)
                            (Viewport.height viewport)))) ;;
         (if (pageNum =? St.currentPage s)%Z
          then modify (St.setCurrentViewport (Some viewport))
          else ret tt) ;;
         modify (fun s' =>
                   match St.canvasRef s' with
                   | Some c =>
                       St.setCanvas
                         (Some (Canvas.draw c [PageRaster pageNum (St.scale s)])) s'
                   | None => s'
                   end) ;;
         (if (pageNum =? St.currentPage s)%Z
          then match St.editingMode s with
               | EditMode => coverOriginalText s (pageNum - 1)
               | _ => ret tt
               end
          else ret tt) ;;
         (if (pageNum =? St.currentPage s)%Z
          then Annot.renderAnnotations (pageNum - 1)
          else ret tt))
        (fun _ => ret tt)
  | _, _ => ret tt
  end.

(** The first [useEffect]: its guard and whether its dependency list
    [[pdfDoc, currentPage, scale, editingMode, textItems]] differs
    between two renders. *)
Definition renderGuard (s : St.t) : bool :=
  match St.pdfDoc s with
  | Some _ => negb (St.currentPage s =? 0)%Z
  | None => false
  end.

Definition renderDepsChanged (old new : St.t) : Prop :=
  St.pdfDoc old <> St.pdfDoc new
  \/ St.currentPage old <> St.currentPage new
  \/ ~ (St.scale old == St.scale new)
  \/ St.editingMode old <> St.editingMode new
  \/ St.textItems old <> St.textItems new.

(** A re-render of the page is requested after the update [old -> new]. *)
Definition renderRequested (old new : St.t) : Prop :=
  renderDepsChanged old new /\ renderGuard new = true.

(** Both effects of the component, run after a render: the second one
    ([renderAnnotations], synchronous) completes while the first one
    ([renderPage]) is still waiting for its page.  The second effect
    calls [renderAnnotations] outside any [try]: an exception escapes
    the effect, React unmounts the component, and the page render that
    was waiting finds no canvas to draw on. *)
Definition runEffects : M unit :=
  s <- get ;;
  if renderGuard s then
    Annot.renderAnnotations (St.currentPage s - 1) ;;
    renderPage (St.currentPage s)
  else ret tt.

End Render.

(* ------------------------------------------------------------------ *)
(** ** Document session: load, navigation, zoom, mode *)

Module Session.

Definition extractTextFromPdf (pdf : PdfDoc) : M unit :=
  modify (St.setTextItems (Extract.extractTextFromPdf pdf)).

Definition numPages (pdf : PdfDoc) : Z := Z.of_nat (List.length pdf).

Definition loadPdf (pdfFile : File.t) : M unit :=
  try_catch
    (modify (St.setIsProcessing true) ;;
     modify (St.setProgress 10) ;;
     pdf <- await UnreadableDocument (File.parsed pdfFile) ;;
     modify (St.setPdfDoc (Some pdf)) ;;
     modify (St.setTotalPages (numPages pdf)) ;;
     modify (St.setCurrentPage 1) ;;
     modify (St.setTextItems []) ;;
     modify (St.setAnnotations []) ;;
     modify (St.setScale (3 # 2)) ;;
     modify (St.setProgress 50) ;;
     extractTextFromPdf pdf ;;
     modify (St.setProgress 100) ;;
     modify (St.setIsProcessing false) ;;
     modify (St.pushToast
               (Toast.mk (lit "PDF loaded")
                  (lit "Successfully loaded " ++ decimal (numPages pdf)
                     ++ lit " page(s)")
                  Toast.Default)))
    (fun _ =>
       toast "Error" "Failed to load PDF. Please try again." Toast.Destructive ;;
       modify (St.setIsProcessing false)).

Definition maxFileSize : Z := 50 * 1024 * 1024.

Definition onDrop (acceptedFiles : list File.t) : M unit :=
  match acceptedFiles with
  | pdfFile :: _ =>
      if negb (str_eqb (File.type pdfFile) (lit "application/pdf")) then
        toast "Invalid file" "Please upload a PDF file" Toast.Destructive
      else if (File.size pdfFile >? maxFileSize)%Z then
        toast "File too large" "Please upload a PDF smaller than 50MB"
          Toast.Destructive
      else
        modify (St.setFile (Some pdfFile)) ;;
        loadPdf pdfFile
  | [] => ret tt
  end.

(** The "New PDF" button. *)
Definition handleNewPdf : M unit :=
  modify (St.setFile None) ;;
  modify (St.setPdfDoc None) ;;
  modify (St.setTextItems []) ;;
  modify (St.setAnnotations []).

(** *** Page navigation *)

(** [onClick] of "Previous": [setCurrentPage((prev) => Math.max(1, prev - 1))]. *)
Definition handlePrevious : M unit :=
  modify (fun s => St.setCurrentPage (Z.max 1 (St.currentPage s - 1)) s).

(** [onClick] of "Next":
    [setCurrentPage((prev) => Math.min(totalPages, prev + 1))]. *)
Definition handleNext : M unit :=
  s <- get ;;
  modify (fun s' =>
            St.setCurrentPage (Z.min (St.totalPages s) (St.currentPage s' + 1)) s').

Definition previousDisabled (s : St.t) : bool := (St.currentPage s =? 1)%Z.
Definition nextDisabled (s : St.t) : bool :=
  (St.currentPage s =? St.totalPages s)%Z.

(** A click on a button: a disabled button does not fire its handler. *)
Definition click (disabled : St.t -> bool) (handler : M unit) : M unit :=
  s <- get ;;
  if disabled s then ret tt else handler.

Definition clickPrevious : M unit := click previousDisabled handlePrevious.
Definition clickNext : M unit := click nextDisabled handleNext.

(** The page numbers of the sidebar:
    [Array.from({ length: totalPages }, (_, i) => i + 1)]. *)
Definition sidebarPages (s : St.t) : list Z :=
  List.map (fun i => Z.of_nat i + 1)%Z (List.seq 0 (Z.to_nat (St.totalPages s))).

(** [onClick] of the sidebar button of [pageNum]. *)
Definition handleSidebarPage (pageNum : Z) : M unit :=
  modify (St.setCurrentPage pageNum).

(** A click on the [k]-th sidebar button, if the sidebar has one. *)
Definition clickSidebar (k : nat) : M unit :=
  s <- get ;;
  match nth_error (sidebarPages s) k with
  | Some pageNum => handleSidebarPage pageNum
  | None => ret tt
  end.

(** *** Zoom *)

Definition handleZoomIn : M unit :=
  modify (fun s => St.setScale (math_min (St.scale s + (1 # 4)) 3) s).

Definition handleZoomOut : M unit :=
  modify (fun s => St.setScale (math_max (St.scale s - (1 # 4)) (1 # 2)) s).

Definition handleFitToWidth : M unit :=
  s <- get ;;
  match St.containerRef s, St.canvasRef s with
  | Some container, Some canvas =>
      let containerWidth := inject_Z (Container.clientWidth container - 100) in
      let canvasWidth := inject_Z (Canvas.width canvas) / St.scale s in
      modify (St.setScale (containerWidth / canvasWidth))
  | _, _ => ret tt
  end.

Definition handleFitToScreen : M unit :=
  s <- get ;;
  match St.containerRef s, St.canvasRef s with
  | Some container, Some canvas =>
      let containerWidth := inject_Z (Container.clientWidth container - 100) in
      let containerHeight := inject_Z (Container.clientHeight container - 100) in
      let canvasWidth := inject_Z (Canvas.width canvas) / St.scale s in
      let canvasHeight := inject_Z (Canvas.height canvas) / St.scale s in
      let scaleX := containerWidth / canvasWidth in
      let scaleY := containerHeight / canvasHeight in
      modify (St.setScale (math_min scaleX scaleY))
  | _, _ => ret tt
  end.

(** *** Mode buttons *)

Definition handleViewMode : M unit := modify (St.setEditingMode ViewMode).

Definition handleEditMode : M unit :=
  modify (St.setEditingMode EditMode) ;;
  modify (St.setSelectedTool PointerTool).

Definition handleAnnotateMode : M unit :=
  modify (St.setEditingMode AnnotateMode) ;;
  modify (St.setSelectedTool HighlightTool).

Definition handleSelectTool (tool : Tool) : M unit :=
  modify (St.setSelectedTool tool).

End Session.

(* ------------------------------------------------------------------ *)
(** ** exportPdf *)

Module PdfExport.

(** Operators appended to a page of the document under construction. *)
Inductive LibOp :=
| DrawRectangle (x y width height : Q) (color borderColor : Color)
    (borderWidth : Q)
| DrawText (text : jsstring) (x y size : Q) (color : Color)
    (font : option jsstring).

Module LibPage.
Record t := mk { width : Q; height : Q; ops : list LibOp }.
End LibPage.

Definition rgb (r g b : Q) : Color := mkColor r g b.

Definition is_rectangle (op : LibOp) : bool :=
  match op with
  | DrawRectangle _ _ _ _ _ _ _ => true
  | DrawText _ _ _ _ _ _ => false
  end.

Definition is_text (op : LibOp) : bool := negb (is_rectangle op).

(** The cover rectangle of a run on a page of height [height]. *)
Definition coverRectangle (height : Q) (textItem : TextItem.t) : LibOp :=
  let textBottom := height - TextItem.y textItem - TextItem.height textItem in
  let padding := 2 in
  DrawRectangle (TextItem.x textItem - padding) (textBottom - padding)
    (TextItem.width textItem + padding * 2)
    (TextItem.height textItem + padding * 2)
    (rgb 1 1 1) (rgb 1 1 1) 0.

Definition channel (v : Q) : Q := math_min 1 (math_max 0 (v / 255)).

Definition textColor (textItem : TextItem.t) : Color :=
  let c := TextItem.color textItem in
  rgb (channel (r c)) (channel (g c)) (channel (b c)).

Definition textOp (height : Q) (font : option jsstring) (textItem : TextItem.t)
    : LibOp :=
  let yPos := height - TextItem.y textItem in
  DrawText (TextItem.text textItem) (TextItem.x textItem) yPos
    (TextItem.fontSize textItem) (textColor textItem) font.

(** [textItem.text.trim()] as a condition. *)
Definition hasVisibleText (textItem : TextItem.t) : bool :=
  str_truthy (trim (TextItem.text textItem)).

Section WithLibrary.

(** Whether the document builder accepts the first attempt (embed
    Helvetica, then [drawText] with it) and the second one
    ([drawText] with no font given) for a run; a throwing call
    appends nothing.  [saveSucceeds]: whether [save] resolves. *)
Variable primaryDraws : TextItem.t -> bool.
Variable fallbackDraws : TextItem.t -> bool.
Variable saveSucceeds : bool.

(** The [try]/[catch] chain of the second loop for one run. *)
Definition drawRun (height : Q) (textItem : TextItem.t) : list LibOp :=
  if hasVisibleText textItem then
    if primaryDraws textItem then
      [textOp height (Some (lit "Helvetica")) textItem]
    else if fallbackDraws textItem then
      [textOp height None textItem]
    else []
  else [].

(** What one iteration of the page loop appends to the page: the
    first [for ... of] loop, then the second. *)
Definition pageOps (height : Q) (pageTextItems : list TextItem.t)
    : list LibOp :=
  List.map (coverRectangle height) pageTextItems
  ++ List.flat_map (drawRun height) pageTextItems.

Definition exportPage (textItems : list TextItem.t) (pageIndex : Z)
    (size : Q * Q) : LibPage.t :=
  let pageTextItems := TextModel.itemsForPage pageIndex textItems in
  LibPage.mk (fst size) (snd size) (pageOps (snd size) pageTextItems).

(** The page loop from [pageIndex], over the remaining pages. *)
Fixpoint exportPagesFrom (textItems : list TextItem.t) (pageCount : Z)
    (pageIndex : Z) (sizes : list (Q * Q)) : M (list LibPage.t) :=
  match sizes with
  | [] => ret []
  | size :: rest =>
      let page := exportPage textItems pageIndex size in
      modify (St.setProgress
                (20 + (inject_Z (pageIndex + 1) / inject_Z pageCount) * 60)) ;;
      pages <- exportPagesFrom textItems pageCount (pageIndex + 1) rest ;;
      ret (page :: pages)
  end.

(** The handler; it returns the pages of the downloaded document, or
    [None] when nothing is downloaded.  The state read at entry is
    the closure's snapshot of [file], [pdfDoc] and [textItems]. *)
Definition exportPdf : M (option (list LibPage.t)) :=
  s <- get ;;
  match St.file s, St.pdfDoc s with
  | Some file, Some _ =>
      try_catch
        (modify (St.setIsProcessing true) ;;
         modify (St.setProgress 0) ;;
         sizes <- await UnreadableDocument (File.libPages file) ;;
         modify (St.setProgress 20) ;;
         pages <- exportPagesFrom (St.textItems s)
                    (Z.of_nat (List.length sizes)) 0 sizes ;;
         modify (St.setProgress 80) ;;
         (if saveSucceeds then ret tt else throw SerializationFailed) ;;
         modify (St.setProgress 100) ;;
         toast "Success!" "PDF exported successfully" Toast.Default ;;
         modify (St.setIsProcessing false) ;;
         ret (Some pages))
        (fun _ =>
           toast "Error" "Failed to export PDF. Please try again."
             Toast.Destructive ;;
           modify (St.setIsProcessing false) ;;
           ret None)
  | _, _ =>
      toast "No PDF loaded" "Please upload a PDF first" Toast.Destructive ;;
      ret None
  end.

End WithLibrary.

End PdfExport.

(* ------------------------------------------------------------------ *)
(** ** Coordinate conversions as the specification words them *)

Module SpecCoords.

(** Modelled from the spec: the component has no function that turns a
    pixel into a page-relative fraction; the specification defines it
    as [fx = p.x / renderedWidthPx], [fy = p.y / renderedHeightPx]. *)
Definition pixelToFraction (p : Point) (renderedWidthPx renderedHeightPx : Q)
    : Point :=
  mkPoint (px p / renderedWidthPx) (py p / renderedHeightPx).

(** Modelled from the spec: its inverse, which the specification uses
    for annotation replay. *)
Definition fractionToPixel (f : Point) (renderedWidthPx renderedHeightPx : Q)
    : Point :=
  mkPoint (px f * renderedWidthPx) (py f * renderedHeightPx).

(** Modelled from the spec: point to pixel, [px = p.x * scale],
    [py = p.y * scale]. *)
Definition pointToPixel (p : Point) (scale : Q) : Point :=
  mkPoint (px p * scale) (py p * scale).

End SpecCoords.

(* ------------------------------------------------------------------ *)
(** ** Sample documents and sessions *)

Module Sample.

Definition pageCanvas : Canvas.t := Canvas.mk 300 150 0 0 [].
Definition overlayCanvas : Canvas.t := Canvas.mk 300 150 0 0 [].
Definition container : Container.t := Container.mk 1200 800.

(** A freshly mounted component: no file yet, so the editor area and
    its canvases are not in the page. *)
Definition fresh : St.t := St.initial None None None.

(** The editor area appears once a file is set: its nodes are attached
    to the ref cells. *)
Definition mountIn (box : Container.t) (s : St.t) : St.t :=
  St.setCanvas (Some pageCanvas)
    (St.setAnnotationCanvas (Some overlayCanvas)
       (St.setContainer (Some box) s)).

(** A handler followed by the render it causes and the effects of that
    render. *)
Definition after (handler : M unit) (s : St.t) : St.t :=
  exec Render.runEffects (exec handler s).

(** A run "Hello" set in 14 point type at (10, 180) on a 200 x 200 page. *)
Definition hello : RawItem.t :=
  RawItem.mk (Some (lit "Hello")) (Some [14; 0; 0; 14; 10; 180])
    (Some 50) (Some 14) (Some (lit "g_d0_f1")) None.

(** A blank run, as parsers emit between words. *)
Definition blank : RawItem.t :=
  RawItem.mk (Some (lit " ")) (Some [14; 0; 0; 14; 60; 180])
    (Some 4) (Some 14) (Some (lit "g_d0_f1")) None.

(** A marked-content entry: neither string nor matrix. *)
Definition marked : RawItem.t :=
  RawItem.mk None None None None None None.

(** A run stretched vertically: a = 10, d = 12, no size supplied. *)
Definition stretched : RawItem.t :=
  RawItem.mk (Some (lit "Hi")) (Some [10; 0; 0; 12; 50; 100])
    None None None None.

(** A run placed left of and above the page. *)
Definition offPage : RawItem.t :=
  RawItem.mk (Some (lit "stray")) (Some [12; 0; 0; 12; -5; 900])
    (Some 30) (Some 12) None None.

Definition page1 : PdfPage.t := PdfPage.mk 200 200 [hello; marked; blank].
Definition page2 : PdfPage.t := PdfPage.mk 200 200 [stretched].
Definition page3 : PdfPage.t := PdfPage.mk 200 200 [].

Definition threePages : PdfDoc := [page1; page2; page3].

Definition threePageFile : File.t :=
  File.mk (lit "report.pdf") (lit "application/pdf") 48213
    (Some threePages) (Some [(200, 200); (200, 200); (200, 200)]).

Definition pngFile : File.t :=
  File.mk (lit "photo.png") (lit "image/png") 1024 None None.

Definition hugeFile : File.t :=
  File.mk (lit "scan.pdf") (lit "application/pdf") (50 * 1024 * 1024 + 1)
    (Some threePages) (Some [(200, 200); (200, 200); (200, 200)]).

(** The session after dropping [threePageFile] and the first render. *)
Definition loaded : St.t :=
  exec Render.runEffects
    (mountIn container (exec (Session.onDrop [threePageFile]) fresh)).

(** The same session on its last page. *)
Definition onLastPage : St.t := after (Session.clickSidebar 2) loaded.

End Sample.

(* ------------------------------------------------------------------ *)
(** ** Predicates used in the statements *)

(** Every field of a run other than [text] is the same. *)
Definition sameExceptText (old new : TextItem.t) : Prop :=
  TextItem.id new = TextItem.id old
  /\ TextItem.x new = TextItem.x old
  /\ TextItem.y new = TextItem.y old
  /\ TextItem.width new = TextItem.width old
  /\ TextItem.height new = TextItem.height old
  /\ TextItem.fontSize new = TextItem.fontSize old
  /\ TextItem.fontName new = TextItem.fontName old
  /\ TextItem.color new = TextItem.color old
  /\ TextItem.rotation new = TextItem.rotation old
  /\ TextItem.pageIndex new = TextItem.pageIndex old
  /\ TextItem.pageWidth new = TextItem.pageWidth old
  /\ TextItem.pageHeight new = TextItem.pageHeight old.

(** Some run of the collection carries the identifier. *)
Definition hasRun (id : jsstring) (items : list TextItem.t) : bool :=
  List.existsb (fun item => str_eqb (TextItem.id item) id) items.

(** The four parts of the session a load replaces. *)
Definition sameDocument (s s' : St.t) : Prop :=
  St.file s' = St.file s
  /\ St.pdfDoc s' = St.pdfDoc s
  /\ St.textItems s' = St.textItems s
  /\ St.annotations s' = St.annotations s.

(** The page-navigation controls of the interface. *)
Inductive NavControl :=
| PreviousButton
| NextButton
| SidebarButton (k : nat).

Definition navigate (c : NavControl) : M unit :=
  match c with
  | PreviousButton => Session.clickPrevious
  | NextButton => Session.clickNext
  | SidebarButton k => Session.clickSidebar k
  end.

(** The page a control asks for: the neighbour, kept within
    [1, totalPages], or the page of the sidebar button; a control that
    is absent or disabled asks for the current page. *)
Definition navTarget (c : NavControl) (s : St.t) : Z :=
  match c with
  | PreviousButton => Z.max 1 (St.currentPage s - 1)
  | NextButton => Z.min (St.totalPages s) (St.currentPage s + 1)
  | SidebarButton k =>
      if (Z.of_nat k <? St.totalPages s)%Z then (Z.of_nat k + 1)%Z
      else St.currentPage s
  end.

(** The current page is one of the document's pages (numbered from 1). *)
Definition pageInRange (s : St.t) : Prop :=
  (1 <= St.currentPage s <= St.totalPages s)%Z.

(** The range the zoom buttons keep the scale in. *)
Definition zoomInRange (scale : Q) : Prop := (1 # 2) <= scale /\ scale <= 3.

Module SampleNarrow.
(** The loaded sample session in a container 60 pixels wide. *)
Definition loaded : St.t :=
  exec Render.runEffects
    (Sample.mountIn (Container.mk 60 800)
       (exec (Session.onDrop [Sample.threePageFile]) Sample.fresh)).
End SampleNarrow.

(** A numeric property was supplied with a usable (non-zero) value. *)
Definition provided (o : option Q) (q : Q) : Prop := o = Some q /\ ~ q == 0.

(** A numeric property is absent or zero. *)
Definition notProvided (o : option Q) : Prop :=
  o = None \/ exists q, o = Some q /\ q == 0.

(** The guard [item.str && item.transform]. *)
Definition extractable (item : RawItem.t) : bool :=
  match RawItem.str item, RawItem.transform item with
  | Some str, Some _ => str_truthy str
  | _, _ => false
  end.

(** The entries [a], [d], [e], [f] of the placement matrix of an item
    (0 when the item has none). *)
Definition matrixEntry (item : RawItem.t) (i : nat) : Q :=
  match RawItem.transform item with
  | Some transform => index_or_zero transform i
  | None => 0
  end.

Module SampleStray.
(** A one-page document whose only run lies outside the page. *)
Definition page : PdfPage.t := PdfPage.mk 200 200 [Sample.offPage].
Definition doc : PdfDoc := [page].
End SampleStray.

Module SampleExport.
(** The sample session after the user replaced "Hello" by "Hi" and
    emptied the run of page 2. *)
Definition edited : St.t :=
  exec (TextModel.updateTextItem (lit "text-2-0") (lit "  "))
    (exec (TextModel.updateTextItem (lit "text-1-0") (lit "Hi")) Sample.loaded).

(** A document builder that accepts every call. *)
Definition accepts (run : TextItem.t) : bool := true.

(** The pages of the exported document. *)
Definition pages : list PdfExport.LibPage.t :=
  match outcome (PdfExport.exportPdf accepts accepts true) edited with
  | Normal (Some pages) => pages
  | _ => []
  end.

(** The first page of the exported document. *)
Definition firstPage : PdfExport.LibPage.t :=
List.hd (PdfExport.LibPage.mk 0 0 []) pages.
End SampleExport.

(** What is drawn on the annotation canvas, and how wide it is. *)
Definition overlayOps (s : St.t) : list CanvasOp :=
  match St.annotationCanvasRef s with
  | Some c => Canvas.ops c
  | None => []
  end.

Definition overlayWidth (s : St.t) : Z :=
  match St.annotationCanvasRef s with
  | Some c => Canvas.width c
  | None => 0
  end.

Module SampleZoom.
(** The sample session in annotate mode with the rectangle tool, brought
    to scale 1 (page canvas 200 x 200). *)
Definition atScale1 : St.t :=
  Sample.after (Session.handleSelectTool RectangleTool)
    (Sample.after Session.handleAnnotateMode
       (Sample.after Session.handleZoomOut
          (Sample.after Session.handleZoomOut Sample.loaded))).

(** A drag from the centre of the page, pixel (100, 100), to pixel
    (150, 150); the button is still down. *)
Definition dragged1 : St.t :=
  exec (Annot.handleAnnotationMove (Annot.mkMouse 150 150))
    (exec (Annot.handleAnnotationStart (Annot.mkMouse 100 100) 1700000000000)
       atScale1).

(** The same session zoomed in to scale 2 (page canvas 400 x 400). *)
Definition atScale2 : St.t :=
  Sample.after Session.handleZoomIn
    (Sample.after Session.handleZoomIn
       (Sample.after Session.handleZoomIn
          (Sample.after Session.handleZoomIn atScale1))).

(** The drag through the same places of the page, which are now the
    pixels (200, 200) and (300, 300). *)
Definition dragged2 : St.t :=
  exec (Annot.handleAnnotationMove (Annot.mkMouse 300 300))
    (exec (Annot.handleAnnotationStart (Annot.mkMouse 200 200) 1700000000000)
       atScale2).

(** The path of the gesture in progress. *)
Definition pathInProgress (s : St.t) : option (list Point) :=
  option_map Annotation.path (St.currentAnnotationRef s).
End SampleZoom.

Module SampleRun.
(** The run "Hello" as extracted from the sample document. *)
Definition hello : TextItem.t :=
  TextItem.mk (lit "text-1-0") (lit "Hello") 10 20 50 14 14 (lit "g_d0_f1")
    (mkColor 0 0 0) 0 0 200 200.

Definition canvas : Canvas.t := Canvas.mk 300 300 0 0 [].
Definition viewport : Viewport.t := Viewport.mk 300 300 (3 # 2).
End SampleRun.

(* ------------------------------------------------------------------ *)
(** ** The conversion with rounded operations

    The same expressions as [Coords.screenX], [Coords.screenY] and
    [SpecCoords.pixelToFraction], with the result of each division and
    multiplication passed through a rounding function [fl]. *)

Module Rounded.

Definition screenX (fl : Q -> Q) (item : TextItem.t) (canvas : Canvas.t) : Q :=
  fl (fl (TextItem.x item / TextItem.pageWidth item)
      * inject_Z (Canvas.width canvas)).

Definition screenY (fl : Q -> Q) (item : TextItem.t) (canvas : Canvas.t) : Q :=
  fl (fl (TextItem.y item / TextItem.pageHeight item)
      * inject_Z (Canvas.height canvas)).

Definition pixelToFraction (fl : Q -> Q) (p : Point)
    (renderedWidthPx renderedHeightPx : Q) : Point :=
  mkPoint (fl (px p / renderedWidthPx)) (fl (py p / renderedHeightPx)).

(** The rounding that does nothing: exact arithmetic. *)
Definition exact (q : Q) : Q := q.

End Rounded.

(* ------------------------------------------------------------------ *)
(** ** Further parts of the component *)

(** The code units of the decimal digits. *)
Definition is_digit (c : code_unit) : bool := ((48 <=? c) && (c <=? 57))%N.

(** The identifiers of a collection of runs, in order. *)
Definition runIds (items : list TextItem.t) : list jsstring :=
  List.map TextItem.id items.

(** A colour channel lies in the unit interval. *)
Definition unitInterval (c : Q) : Prop := 0 <= c /\ c <= 1.

Module SampleColour.
(** A run whose colour the parser gives as the array [1, 0, 0.5]. *)
Definition item : RawItem.t :=
  RawItem.mk (Some (lit "Total")) (Some [12; 0; 0; 12; 40; 120])
    (Some 28) (Some 12) None (Some (ColorArray 1 [0; 1 # 2])).

Definition run : TextItem.t :=
  List.hd SampleRun.hello (Extract.extractItemsFrom 1 200 200 0 [item]).
End SampleColour.

(* ------------------------------------------------------------------ *)
(** ** The text overlay of edit mode *)

Module Overlay.

(** One [contentEditable] element: its key, its inline style and its
    text. *)
Record Box := mk {
  key : jsstring;
  left : Q;
  top : Q;
  width : Q;
  minHeight : Q;
  fontSize : Q;
  fontFamily : jsstring;
  color : Color;
  rotate : option Q;
  content : jsstring;
}.

Definition boxOf (s : St.t) (textItem : TextItem.t)
    (screenCoords : Coords.ScreenCoords) : Box :=
  mk (TextItem.id textItem)
     (Coords.sx screenCoords) (Coords.sy screenCoords)
     (Coords.swidth screenCoords) (Coords.sheight screenCoords)
     (TextItem.fontSize textItem * St.scale s * (75 # 100))
     (TextItem.fontName textItem) (TextItem.color textItem)
     (if num_truthy (TextItem.rotation textItem)
      then Some (TextItem.rotation textItem) else None)
     (TextItem.text textItem).

(** The elements rendered under
    [editingMode === "edit" && pdfDoc && currentViewport]: one per run
    of the current page whose conversion is not [null]. *)
Definition textOverlay (s : St.t) : list Box :=
  match St.editingMode s, St.pdfDoc s, St.currentViewport s with
  | EditMode, Some _, Some _ =>
      List.flat_map
        (fun textItem =>
           match Coords.convertPdfToScreenCoords (St.canvasRef s)
                   (St.currentViewport s) textItem with
           | Some screenCoords => [boxOf s textItem screenCoords]
           | None => []
           end)
        (TextModel.getTextItemsForPage s (St.currentPage s - 1))
  | _, _, _ => []
  end.

(** [onBlur]: [updateTextItem(textItem.id, e.currentTarget.textContent || "")]. *)
Definition handleBlur (id : jsstring) (textContent : option jsstring) : M unit :=
  TextModel.updateTextItem id (opt_str_or textContent (lit "")).

End Overlay.

(* ------------------------------------------------------------------ *)
(** ** User events *)

(** The tools of the annotation toolbar. *)
Inductive ToolChoice := ChooseHighlight | ChooseRectangle | ChooseCircle.

Definition toolOfChoice (c : ToolChoice) : Tool :=
  match c with
  | ChooseHighlight => HighlightTool
  | ChooseRectangle => RectangleTool
  | ChooseCircle => CircleTool
  end.

(** What a user can do in the editor, and what React does in between.
    [ExportButton] carries the answers of the document builder (whether
    the primary and the fallback [drawText] succeed on a run, whether
    [save] succeeds); [Rendered] stands for the effects of a render.
    A drop is not among the events: the dropzone takes the place of the
    editor while no file is stored, and a drop starts another session. *)
Inductive Event :=
| Navigate (c : NavControl)
| ZoomInButton
| ZoomOutButton
| FitWidthButton
| FitScreenButton
| ViewButton
| EditTextButton
| AnnotateButton
| ToolButton (c : ToolChoice)
| BlurBox (k : nat) (textContent : option jsstring)
| MouseDown (e : Annot.MouseEvent) (now : Z)
| MouseMove (e : Annot.MouseEvent)
| MouseUp
| MouseLeave
| ExportButton (primaryDraws fallbackDraws : TextItem.t -> bool)
    (saveSucceeds : bool)
| NewPdfButton
| Rendered.

(** An exception that escapes an event handler is reported by React and
    the component stays mounted. *)
Definition reported (handler : M unit) : M unit :=
  try_catch handler (fun _ => ret tt).

(** The handler an event reaches.  The tool buttons and the mouse
    handlers exist only in annotate mode, the overlay boxes only in edit
    mode, and the export button is disabled while an export runs. *)
Definition handlerOf (ev : Event) : M unit :=
  match ev with
  | Navigate c => navigate c
  | ZoomInButton => Session.handleZoomIn
  | ZoomOutButton => Session.handleZoomOut
  | FitWidthButton => Session.handleFitToWidth
  | FitScreenButton => Session.handleFitToScreen
  | ViewButton => Session.handleViewMode
  | EditTextButton => Session.handleEditMode
  | AnnotateButton => Session.handleAnnotateMode
  | ToolButton c =>
      s <- get ;;
      match St.editingMode s with
      | AnnotateMode => Session.handleSelectTool (toolOfChoice c)
      | _ => ret tt
      end
  | BlurBox k textContent =>
      s <- get ;;
      match nth_error (Overlay.textOverlay s) k with
      | Some box => Overlay.handleBlur (Overlay.key box) textContent
      | None => ret tt
      end
  | MouseDown e now =>
      s <- get ;;
      match St.editingMode s with
      | AnnotateMode => Annot.handleAnnotationStart e now
      | _ => ret tt
      end
  | MouseMove e =>
      s <- get ;;
      match St.editingMode s with
      | AnnotateMode => Annot.handleAnnotationMove e
      | _ => ret tt
      end
  | MouseUp | MouseLeave =>
      s <- get ;;
      match St.editingMode s with
      | AnnotateMode => Annot.handleAnnotationEnd
      | _ => ret tt
      end
  | ExportButton primaryDraws fallbackDraws saveSucceeds =>
      s <- get ;;
      if St.isProcessing s then ret tt
      else
        _ <- PdfExport.exportPdf primaryDraws fallbackDraws saveSucceeds ;;
        ret tt
  | NewPdfButton => Session.handleNewPdf
  | Rendered => ret tt
  end.

(** The editor, with all its controls, is displayed while a file is
    stored; the effects run after every render, and an exception that
    escapes them is not caught. *)
Definition dispatch (ev : Event) : M unit :=
  match ev with
  | Rendered => Render.runEffects
  | _ =>
      s <- get ;;
      match St.file s with
      | Some _ => reported (handlerOf ev)
      | None => ret tt
      end
  end.

(** A sequence of events.  It ends with the first exception that
    escapes: the component is unmounted and the events that follow reach
    nothing. *)
Fixpoint run (events : list Event) : M unit :=
  match events with
  | [] => ret tt
  | ev :: rest => dispatch ev ;; run rest
  end.

(** The session after a sequence of events. *)
Definition runEvents (events : list Event) (s : St.t) : St.t :=
  exec (run events) s.

Definition isFit (ev : Event) : bool :=
  match ev with
  | FitWidthButton | FitScreenButton => true
  | _ => false
  end.

(** The state cells that hold the document and the user's work (as
    opposed to the canvases, the viewport, the progress display and the
    toasts) are the same in [s] and [s']. *)
Definition sameData (s s' : St.t) : Prop :=
  St.file s' = St.file s
  /\ St.pdfDoc s' = St.pdfDoc s
  /\ St.currentPage s' = St.currentPage s
  /\ St.totalPages s' = St.totalPages s
  /\ St.scale s' = St.scale s
  /\ St.textItems s' = St.textItems s
  /\ St.annotations s' = St.annotations s
  /\ St.editingMode s' = St.editingMode s
  /\ St.selectedTool s' = St.selectedTool s
  /\ St.isDrawingRef s' = St.isDrawingRef s
  /\ St.currentAnnotationRef s' = St.currentAnnotationRef s.





(** A file the drop handler lets through. *)
Definition acceptable (file : File.t) : Prop :=
  File.type file = lit "application/pdf"
  /\ (File.size file <= 50 * 1024 * 1024)%Z.

Module SampleEdit.
(** The loaded sample in edit mode, and the first box of its overlay. *)
Definition session : St.t := Sample.after Session.handleEditMode Sample.loaded.

Definition box : Overlay.Box :=
  List.hd (Overlay.boxOf session SampleRun.hello (Coords.mkScreen 0 0 0 0))
    (Overlay.textOverlay session).

(** A working session: edit, zoom, navigate, export, and a drag in
    annotate mode. *)
Definition events : list Event :=
  [EditTextButton; Rendered; BlurBox 0 (Some (lit "Hi")); Rendered;
   ZoomInButton; Rendered; Navigate NextButton; Rendered;
   FitWidthButton; Rendered; Navigate (SidebarButton 2); Rendered;
   ExportButton (fun _ => true) (fun _ => true) true; Rendered;
   AnnotateButton; Rendered; ToolButton ChooseRectangle;
   MouseDown (Annot.mkMouse 20 30) 1700000000000;
   MouseMove (Annot.mkMouse 60 80); MouseUp; MouseLeave; Rendered].
End SampleEdit.

(** A computation leaves the document and the user's work alone. *)
Definition keepsData {A} (m : M A) : Prop :=
  forall s, sameData s (snd (m s)).

Module SampleSession.
(** A file the parser rejects. *)
Definition corruptFile : File.t :=
  File.mk (lit "broken.pdf") (lit "application/pdf") 2048 None None.

(** Zooming and drawing, without the fit buttons. *)
Definition zoomEvents : list Event :=
  [ZoomInButton; Rendered; ZoomInButton; ZoomInButton; ZoomInButton;
   ZoomInButton; ZoomInButton; ZoomInButton; Rendered; AnnotateButton;
   MouseDown (Annot.mkMouse 5 5) 1700000000001; MouseUp; ZoomOutButton;
   Navigate NextButton; Rendered].
End SampleSession.

(* ------------------------------------------------------------------ *)
(** ** A whole annotation gesture *)

(** The pointer moves of a drag, in order; each is an event of its
    own. *)
Fixpoint pointerMoves (moves : list Annot.MouseEvent) : M unit :=
  match moves with
  | [] => ret tt
  | e :: rest => reported (Annot.handleAnnotationMove e) ;; pointerMoves rest
  end.

(** Mouse down, the moves, mouse up. *)
Definition gesture (down : Annot.MouseEvent) (now : Z)
    (moves : list Annot.MouseEvent) : M unit :=
  Annot.handleAnnotationStart down now ;;
  pointerMoves moves ;;
  Annot.handleAnnotationEnd.


Module SampleGesture.
(** The session after a whole drag with the rectangle tool: mouse down
    at (100, 100), one move to (150, 150), mouse up. *)
Definition committed : St.t :=
  exec (gesture (Annot.mkMouse 100 100) 1700000000000 [Annot.mkMouse 150 150])
    SampleZoom.atScale1.

End SampleGesture.


(** Everything but the progress display and the toasts is the same. *)
Definition sameButProgress (s s' : St.t) : Prop :=
  sameData s s'
  /\ St.currentViewport s' = St.currentViewport s
  /\ St.canvasRef s' = St.canvasRef s
  /\ St.containerRef s' = St.containerRef s
  /\ St.annotationCanvasRef s' = St.annotationCanvasRef s.

(** The conditions under which export produces a document. *)
Definition exportable (saveSucceeds : bool) (s : St.t) : Prop :=
  exists file sizes,
    St.file s = Some file
    /\ St.pdfDoc s <> None
    /\ File.libPages file = Some sizes
    /\ saveSucceeds = true.

(** The view of a session: page, scale, mode, tool and annotations. *)
Definition withView (page : Z) (scale : Q) (mode : EditingMode) (tool : Tool)
    (annotations : list (option Annotation.t)) (s : St.t) : St.t :=
  St.setAnnotations annotations
    (St.setSelectedTool tool
       (St.setEditingMode mode (St.setScale scale (St.setCurrentPage page s)))).

(** The pages the export loop builds, from page index [pageIndex] on. *)
Fixpoint builtPagesFrom (primaryDraws fallbackDraws : TextItem.t -> bool)
    (textItems : list TextItem.t) (pageIndex : Z) (sizes : list (Q * Q))
    : list PdfExport.LibPage.t :=
  match sizes with
  | [] => []
  | size :: rest =>
      PdfExport.exportPage primaryDraws fallbackDraws textItems pageIndex size
      :: builtPagesFrom primaryDraws fallbackDraws textItems (pageIndex + 1) rest
  end.

(** What export hands to the download, read off the file and the runs. *)
Definition exportResult (primaryDraws fallbackDraws : TextItem.t -> bool)
    (saveSucceeds : bool) (s : St.t) : option (list PdfExport.LibPage.t) :=
  match St.file s, St.pdfDoc s with
  | Some file, Some _ =>
      match File.libPages file with
      | Some sizes =>
          if saveSucceeds
          then Some (builtPagesFrom primaryDraws fallbackDraws
                       (St.textItems s) 0 sizes)
          else None
      | None => None
      end
  | _, _ => None
  end.

(** The state export leaves behind: the display idle again, the last
    progress value, one toast. *)
Definition exportFinalState (saveSucceeds : bool) (s : St.t) : St.t :=
  let failed (progress : Q) :=
    St.setIsProcessing false
      (St.pushToast
         (Toast.mk (lit "Error") (lit "Failed to export PDF. Please try again.")
            Toast.Destructive)
         (St.setProgress progress (St.setIsProcessing true s))) in
  match St.file s, St.pdfDoc s with
  | Some file, Some _ =>
      match File.libPages file with
      | Some _ =>
          if saveSucceeds then
            St.setIsProcessing false
              (St.pushToast
                 (Toast.mk (lit "Success!") (lit "PDF exported successfully")
                    Toast.Default)
                 (St.setProgress 100 (St.setIsProcessing true s)))
          else failed 80
      | None => failed 0
      end
  | _, _ =>
      St.pushToast
        (Toast.mk (lit "No PDF loaded") (lit "Please upload a PDF first")
           Toast.Destructive) s
  end.

(** The same handler [n] times in a row. *)
Fixpoint times (n : nat) (handler : M unit) : M unit :=
  match n with
  | O => ret tt
  | S k => handler ;; times k handler
  end.

(** The size of a page of the exported document. *)
Definition pageSize (page : PdfExport.LibPage.t) : Q * Q :=
  (PdfExport.LibPage.width page, PdfExport.LibPage.height page).

(* ------------------------------------------------------------------ *)
(** ** The name of the downloaded file *)

Module Download.

Fixpoint startsWith (pattern s : jsstring) : bool :=
  match pattern, s with
  | [], _ => true
  | p :: pattern', c :: s' => code_unit_eqb p c && startsWith pattern' s'
  | _ :: _, [] => false
  end.

(** [s.replace(pattern, replacement)] for a string pattern and a
    replacement without [$]: the first occurrence, scanning from the
    left, is replaced; without an occurrence the string is returned as
    it is. *)
Fixpoint replaceFirst (pattern replacement s : jsstring) : jsstring :=
  if startsWith pattern s
  then replacement ++ skipn (List.length pattern) s
  else match s with
       | [] => []
       | c :: rest => c :: replaceFirst pattern replacement rest
       end.

(** [file.name.replace(".pdf", "_edited.pdf")] *)
Definition downloadName (file : File.t) : jsstring :=
  replaceFirst (lit ".pdf") (lit "_edited.pdf") (File.name file).

(** [pattern] occurs in [s] at some position. *)
Fixpoint occursIn (pattern s : jsstring) : bool :=
  startsWith pattern s
  || match s with
     | [] => false
     | _ :: rest => occursIn pattern rest
     end.

End Download.

Module SampleFit.
(** The first page of the sample at scale 3/2: 200 points wide and
    high, on a canvas of 300 x 300 pixels. *)
Definition pageWidth : Q := 200.
Definition pageHeight : Q := 200.
Definition canvas : Canvas.t := Canvas.mk 300 300 0 0 [PageRaster 1 (3 # 2)].
End SampleFit.

(** The code unit of the full stop. *)
Definition fullStop : code_unit := 46%N.

Module SampleDownload.
(** A file whose name has the extension in capitals. *)
Definition capitals : File.t :=
  File.mk (lit "SCAN.PDF") (lit "application/pdf") 2048 None None.
End SampleDownload.

(* ------------------------------------------------------------------ *)
(** * Properties *)

(** ** Strings and numbers *)

Lemma str_eqb_eq (a b : jsstring) : str_eqb a b = true <-> a = b.
Proof.
  revert b; induction a as [|x a IH]; intros [|y b]; simpl; split;
    try congruence; try reflexivity.
  - intros H. apply andb_true_iff in H as [Hxy Hab].
    apply N.eqb_eq in Hxy. apply IH in Hab. congruence.
  - intros H. injection H as -> ->. apply andb_true_iff. split.
    + apply N.eqb_refl.
    + now apply IH.
Qed.

Lemma str_eqb_neq (a b : jsstring) : str_eqb a b = false <-> a <> b.
Proof.
  split.
  - intros H E. apply str_eqb_eq in E. congruence.
  - intros H. destruct (str_eqb a b) eqn:E; [|reflexivity].
    apply str_eqb_eq in E. contradiction.
Qed.

Lemma num_truthy_true (q : Q) : num_truthy q = true <-> ~ q == 0.
Proof.
  unfold num_truthy. rewrite negb_true_iff. split.
  - intros H E. apply Qeq_bool_iff in E. congruence.
  - intros H. destruct (Qeq_bool q 0) eqn:E; [|reflexivity].
    apply Qeq_bool_iff in E. contradiction.
Qed.

Lemma num_truthy_false (q : Q) : num_truthy q = false <-> q == 0.
Proof.
  unfold num_truthy. rewrite negb_false_iff. apply Qeq_bool_iff.
Qed.

Lemma setTextItems_same (s : St.t) : St.setTextItems (St.textItems s) s = s.
Proof. destruct s; reflexivity. Qed.

Lemma setCurrentPage_same (s : St.t) : St.setCurrentPage (St.currentPage s) s = s.
Proof. destruct s; reflexivity. Qed.

(* ------------------------------------------------------------------ *)
(** ** Text-run update *)

Lemma with_text_frame (item : TextItem.t) (newText : jsstring) :
  sameExceptText item (TextItem.with_text item newText).
Proof. unfold sameExceptText; simpl; repeat split. Qed.

Lemma sameExceptText_refl (item : TextItem.t) : sameExceptText item item.
Proof. unfold sameExceptText; repeat split. Qed.

Lemma updateItems_pointwise (id newText : jsstring) (items : list TextItem.t) :
  Forall2 (fun old new =>
             sameExceptText old new
             /\ (TextItem.id old = id -> TextItem.text new = newText)
             /\ (TextItem.id old <> id -> new = old))
    items (TextModel.updateItems id newText items).
Proof.
  induction items as [|item items IH]; simpl; constructor; [|exact IH].
  destruct (str_eqb (TextItem.id item) id) eqn:E.
  - apply str_eqb_eq in E. split; [apply with_text_frame|].
    split; [reflexivity|]. intros H; contradiction.
  - apply str_eqb_neq in E. split; [apply sameExceptText_refl|].
    split; [intros H; contradiction|reflexivity].
Qed.

Lemma updateItems_unknown (id newText : jsstring) (items : list TextItem.t) :
  hasRun id items = false -> TextModel.updateItems id newText items = items.
Proof.
  induction items as [|item items IH]; simpl; [reflexivity|].
  intros H. apply orb_false_iff in H as [Hitem Hrest].
  rewrite Hitem. f_equal. now apply IH.
Qed.

(** C3. For every collection of runs, every identifier and every new
    text, [updateTextItem] returns normally and replaces the collection
    by one of the same length in which each run keeps all its fields
    other than [text] (identifier, origin, size, font, colour, rotation,
    page index, page size), a run with the given identifier carries the
    new text, and a run with another identifier is the very same run;
    no other part of the component state changes. *)
Theorem updateTextItem_changes_only_text :
  forall (id newText : jsstring) (s : St.t),
  exists items',
    TextModel.updateTextItem id newText s
    = (Normal tt, St.setTextItems items' s)
    /\ Forall2 (fun old new =>
                  sameExceptText old new
                  /\ (TextItem.id old = id -> TextItem.text new = newText)
                  /\ (TextItem.id old <> id -> new = old))
         (St.textItems s) items'.
Proof.
  intros id newText s.
  exists (TextModel.updateItems id newText (St.textItems s)).
  split; [reflexivity|apply updateItems_pointwise].
Qed.

(** C4, as stated, fails: on a session whose runs are [text-1-0],
    [text-1-2] and [text-2-0], updating the unknown identifier
    [text-9-9] completes normally instead of raising [NotFound]. *)
Lemma updateTextItem_unknown_id_does_not_fail :
  hasRun (lit "text-9-9") (St.textItems Sample.loaded) = false
  /\ outcome (TextModel.updateTextItem (lit "text-9-9") (lit "x")) Sample.loaded
     <> Abrupt NotFound.
Proof. split; [vm_compute; reflexivity|vm_compute; discriminate]. Qed.

(** C4, amended. When no run carries the identifier, [updateTextItem]
    returns normally (no error is raised) and leaves the whole component
    state, the collection of runs included, as it was. *)
Theorem updateTextItem_unknown_id_is_noop :
  forall (id newText : jsstring) (s : St.t),
    hasRun id (St.textItems s) = false ->
    TextModel.updateTextItem id newText s = (Normal tt, s).
Proof.
  intros id newText s H.
  unfold TextModel.updateTextItem, modify.
  rewrite (updateItems_unknown id newText _ H).
  now rewrite setTextItems_same.
Qed.

Lemma updateTextItem_unknown_id_is_noop_witness :
  TextModel.updateTextItem (lit "text-9-9") (lit "x") Sample.loaded
  = (Normal tt, Sample.loaded).
Proof.
  apply (updateTextItem_unknown_id_is_noop (lit "text-9-9") (lit "x") Sample.loaded).
  vm_compute. reflexivity.
Defined.

(* ------------------------------------------------------------------ *)
(** ** The drop handler *)

(** C10. A dropped file whose type is not [application/pdf], or whose
    size exceeds 50 * 1024 * 1024 bytes, is turned away with a
    destructive toast that is fixed by the failed check alone (the parse
    result of the file is never consulted); the handler returns
    normally and the file, the document handle, the text runs and the
    annotations of the session are exactly as before, as is every other
    state cell. *)
Theorem onDrop_rejects_without_state_change :
  forall (pdfFile : File.t) (others : list File.t) (s : St.t),
    File.type pdfFile <> lit "application/pdf"
    \/ (File.size pdfFile > 50 * 1024 * 1024)%Z ->
    exists t : Toast.t,
      Session.onDrop (pdfFile :: others) s = (Normal tt, St.pushToast t s)
      /\ (t = Toast.mk (lit "Invalid file") (lit "Please upload a PDF file")
                Toast.Destructive
          \/ t = Toast.mk (lit "File too large")
                   (lit "Please upload a PDF smaller than 50MB")
                   Toast.Destructive)
      /\ sameDocument s (exec (Session.onDrop (pdfFile :: others)) s).
Proof.
  intros pdfFile others s H.
  unfold exec, Session.onDrop.
  destruct (str_eqb (File.type pdfFile) (lit "application/pdf")) eqn:Etype;
    simpl negb; cbv iota.
  - apply str_eqb_eq in Etype.
    destruct H as [H|H]; [contradiction|].
    assert (Hsize : (File.size pdfFile >? Session.maxFileSize)%Z = true).
    { apply Z.gtb_lt. unfold Session.maxFileSize. lia. }
    rewrite Hsize. eexists. split; [reflexivity|].
    split; [right; reflexivity|]. repeat split.
  - eexists. split; [reflexivity|].
    split; [left; reflexivity|]. repeat split.
Qed.

Lemma onDrop_rejects_without_state_change_witness :
  exists t : Toast.t,
    Session.onDrop [Sample.hugeFile] Sample.loaded
    = (Normal tt, St.pushToast t Sample.loaded)
    /\ (t = Toast.mk (lit "Invalid file") (lit "Please upload a PDF file")
              Toast.Destructive
        \/ t = Toast.mk (lit "File too large")
                 (lit "Please upload a PDF smaller than 50MB")
                 Toast.Destructive)
    /\ sameDocument Sample.loaded
         (exec (Session.onDrop [Sample.hugeFile]) Sample.loaded).
Proof.
  apply (onDrop_rejects_without_state_change Sample.hugeFile [] Sample.loaded).
  right. vm_compute. reflexivity.
Defined.

(* ------------------------------------------------------------------ *)
(** ** Page navigation *)


Lemma setCurrentPage_requests_render (s : St.t) (p : Z) :
  p <> St.currentPage s -> p <> 0%Z -> St.pdfDoc s <> None ->
  Render.renderRequested s (St.setCurrentPage p s).
Proof.
  intros Hp H0 Hdoc. split.
  - right; left. simpl. congruence.
  - unfold Render.renderGuard. simpl.
    destruct (St.pdfDoc s); [|contradiction].
    apply negb_true_iff. now apply Z.eqb_neq.
Qed.

(** C7, as stated, fails: on the last page of the three-page sample,
    "Next" (which asks for page 4, index 3 outside [0, 3)) completes
    normally and leaves the session as it is; no [OutOfRange] is raised,
    neither by the handler itself nor by the button. *)
Lemma next_past_last_page_does_not_fail :
  St.currentPage Sample.onLastPage = 3%Z
  /\ St.totalPages Sample.onLastPage = 3%Z
  /\ Session.handleNext Sample.onLastPage = (Normal tt, Sample.onLastPage)
  /\ outcome Session.handleNext Sample.onLastPage <> Abrupt OutOfRange
  /\ outcome (navigate NextButton) Sample.onLastPage <> Abrupt OutOfRange.
Proof.
  split; [vm_compute; reflexivity|].
  split; [vm_compute; reflexivity|].
  split; [vm_compute; reflexivity|].
  split; vm_compute; discriminate.
Qed.

Lemma sidebarPages_nth (s : St.t) (k : nat) :
  nth_error (Session.sidebarPages s) k
  = if (Z.of_nat k <? St.totalPages s)%Z then Some (Z.of_nat k + 1)%Z else None.
Proof.
  unfold Session.sidebarPages.
  destruct (Z.of_nat k <? St.totalPages s)%Z eqn:E.
  - apply Z.ltb_lt in E.
    rewrite nth_error_map, nth_error_seq.
    assert (Hk : (k <? Z.to_nat (St.totalPages s))%nat = true).
    { apply Nat.ltb_lt. lia. }
    rewrite Hk. reflexivity.
  - apply Z.ltb_ge in E. apply nth_error_None.
    rewrite length_map, length_seq. lia.
Qed.

(** The handlers clamp on their own, whether or not the buttons are
    disabled at the ends. *)
Lemma handlers_clamp (s : St.t) :
  pageInRange s ->
  Session.handlePrevious s
  = (Normal tt, St.setCurrentPage (Z.max 1 (St.currentPage s - 1)) s)
  /\ Session.handleNext s
     = (Normal tt,
        St.setCurrentPage (Z.min (St.totalPages s) (St.currentPage s + 1)) s)
  /\ (1 <= Z.max 1 (St.currentPage s - 1) <= St.totalPages s)%Z
  /\ (1 <= Z.min (St.totalPages s) (St.currentPage s + 1) <= St.totalPages s)%Z.
Proof.
  intros [Hlo Hhi]. split; [reflexivity|]. split; [reflexivity|]. lia.
Qed.

(** C7, amended. Page navigation never fails.  From a session whose
    current page lies in [1, totalPages] (pages are numbered from 1),
    each navigation control returns normally and changes no state cell
    other than the current page, which becomes max(1, page - 1) for
    Previous, min(totalPages, page + 1) for Next and the page of the
    button for the sidebar; the new page lies within [1, totalPages],
    so a page outside the range cannot be reached.  When the page does
    change and a document is loaded, the render effect is requested. *)
Theorem navigation_stays_in_range :
  forall (c : NavControl) (s : St.t),
    pageInRange s ->
    navigate c s = (Normal tt, St.setCurrentPage (navTarget c s) s)
    /\ (1 <= navTarget c s <= St.totalPages s)%Z
    /\ (navTarget c s <> St.currentPage s -> St.pdfDoc s <> None ->
        Render.renderRequested s (St.setCurrentPage (navTarget c s) s)).
Proof.
  intros c s [Hlo Hhi].
  assert (Hrange : (1 <= navTarget c s <= St.totalPages s)%Z).
  { destruct c as [| |k]; simpl; try lia.
    destruct (Z.of_nat k <? St.totalPages s)%Z eqn:E; [|lia].
    apply Z.ltb_lt in E. lia. }
  split; [|split; [exact Hrange|]].
  - destruct c as [| |k]; simpl.
    + unfold Session.clickPrevious, Session.click, bind, get.
      unfold Session.previousDisabled.
      destruct (St.currentPage s =? 1)%Z eqn:E; [|reflexivity].
      apply Z.eqb_eq in E.
      replace (Z.max 1 (St.currentPage s - 1)) with (St.currentPage s) by lia.
      now rewrite setCurrentPage_same.
    + unfold Session.clickNext, Session.click, bind, get.
      unfold Session.nextDisabled.
      destruct (St.currentPage s =? St.totalPages s)%Z eqn:E; [|reflexivity].
      apply Z.eqb_eq in E.
      replace (Z.min (St.totalPages s) (St.currentPage s + 1))
        with (St.currentPage s) by lia.
      now rewrite setCurrentPage_same.
    + unfold Session.clickSidebar, bind, get. rewrite sidebarPages_nth.
      destruct (Z.of_nat k <? St.totalPages s)%Z; [reflexivity|].
      now rewrite setCurrentPage_same.
  - intros Hp Hdoc. apply setCurrentPage_requests_render; auto. lia.
Qed.

Lemma navigation_stays_in_range_witness :
  navigate PreviousButton Sample.onLastPage
  = (Normal tt,
     St.setCurrentPage (navTarget PreviousButton Sample.onLastPage)
       Sample.onLastPage)
  /\ (1 <= navTarget PreviousButton Sample.onLastPage
      <= St.totalPages Sample.onLastPage)%Z
  /\ (navTarget PreviousButton Sample.onLastPage
      <> St.currentPage Sample.onLastPage ->
      St.pdfDoc Sample.onLastPage <> None ->
      Render.renderRequested Sample.onLastPage
        (St.setCurrentPage (navTarget PreviousButton Sample.onLastPage)
           Sample.onLastPage)).
Proof.
  apply (navigation_stays_in_range PreviousButton Sample.onLastPage).
  unfold pageInRange. vm_compute. split; discriminate.
Defined.

(* ------------------------------------------------------------------ *)
(** ** Zoom *)

(** C8, as stated, fails: "Fit Width" stores the ratio it computes
    without clamping.  In the sample session (page canvas 300 pixels
    wide at scale 3/2) a container 1200 pixels wide gives the scale
    11/2, above the cap of "zoom in", and a container 60 pixels wide
    gives the negative scale -1/5; "fit to screen" does the same. *)
Lemma fit_scale_is_not_clamped :
  St.scale (exec Session.handleFitToWidth Sample.loaded) == 11 # 2
  /\ St.scale (exec Session.handleFitToWidth SampleNarrow.loaded) == - (1 # 5)
  /\ St.scale (exec Session.handleFitToScreen SampleNarrow.loaded) < 0
  /\ ~ zoomInRange (St.scale (exec Session.handleFitToWidth Sample.loaded))
  /\ ~ 0 < St.scale (exec Session.handleFitToWidth SampleNarrow.loaded).
Proof.
  split; [vm_compute; reflexivity|].
  split; [vm_compute; reflexivity|].
  split; [vm_compute; reflexivity|].
  split.
  - intros [_ H]. vm_compute in H. apply H. reflexivity.
  - intros H. vm_compute in H. discriminate.
Qed.

(** C8, amended. The zoom buttons keep the scale in the fixed range
    [1/2, 3]: from a scale in that range, "zoom in" stores
    min(scale + 1/4, 3) and "zoom out" stores max(scale - 1/4, 1/2),
    both again in the range, and nothing else changes.  (The two fit
    operations are left out of the statement.) *)
Theorem zoom_buttons_keep_scale_in_range :
  forall s : St.t,
    zoomInRange (St.scale s) ->
    Session.handleZoomIn s
    = (Normal tt, St.setScale (Qmin (St.scale s + (1 # 4)) 3) s)
    /\ zoomInRange (Qmin (St.scale s + (1 # 4)) 3)
    /\ Session.handleZoomOut s
       = (Normal tt, St.setScale (Qmax (St.scale s - (1 # 4)) (1 # 2)) s)
    /\ zoomInRange (Qmax (St.scale s - (1 # 4)) (1 # 2)).
Proof.
  intros s [Hlo Hhi]. split; [reflexivity|].
  split; [|split; [reflexivity|]]; unfold zoomInRange.
  - destruct (Q.min_spec (St.scale s + (1 # 4)) 3) as [[H1 H2]|[H1 H2]];
      rewrite H2; lra.
  - destruct (Q.max_spec (St.scale s - (1 # 4)) (1 # 2)) as [[H1 H2]|[H1 H2]];
      rewrite H2; lra.
Qed.

Lemma zoom_buttons_keep_scale_in_range_witness :
  Session.handleZoomIn Sample.loaded
  = (Normal tt,
     St.setScale (Qmin (St.scale Sample.loaded + (1 # 4)) 3) Sample.loaded)
  /\ zoomInRange (Qmin (St.scale Sample.loaded + (1 # 4)) 3)
  /\ Session.handleZoomOut Sample.loaded
     = (Normal tt,
        St.setScale (Qmax (St.scale Sample.loaded - (1 # 4)) (1 # 2))
          Sample.loaded)
  /\ zoomInRange (Qmax (St.scale Sample.loaded - (1 # 4)) (1 # 2)).
Proof.
  apply (zoom_buttons_keep_scale_in_range Sample.loaded).
  unfold zoomInRange. vm_compute. split; discriminate.
Defined.

(** The scale of a fresh component and of a freshly loaded document is
    3/2, inside the range. *)
Lemma initial_scale_in_range (c a : option Canvas.t) (k : option Container.t) :
  zoomInRange (St.scale (St.initial c a k)).
Proof. unfold zoomInRange; simpl; lra. Qed.

Lemma loadPdf_scale_in_range (f : File.t) (pdf : PdfDoc) (s : St.t) :
  File.parsed f = Some pdf ->
  St.scale (exec (Session.loadPdf f) s) = 3 # 2.
Proof.
  intros H. unfold exec, Session.loadPdf, try_catch, bind, modify, await.
  simpl. rewrite H. reflexivity.
Qed.

(* ------------------------------------------------------------------ *)
(** ** Extraction *)

Lemma num_or_truthy (a b : Q) : ~ a == 0 -> num_or a b = a.
Proof. intros H. unfold num_or. now rewrite (proj2 (num_truthy_true a) H). Qed.

Lemma num_or_falsy (a b : Q) : a == 0 -> num_or a b = b.
Proof. intros H. unfold num_or. now rewrite (proj2 (num_truthy_false a) H). Qed.

Lemma num_or_zero (a : Q) : num_or a 0 == a.
Proof.
  unfold num_or. destruct (num_truthy a) eqn:E; [reflexivity|].
  apply num_truthy_false in E. now rewrite E.
Qed.

Lemma opt_num_or_provided (o : option Q) (q b : Q) :
  provided o q -> opt_num_or o b = q.
Proof. intros [-> H]. simpl. now apply num_or_truthy. Qed.

Lemma opt_num_or_notProvided (o : option Q) (b : Q) :
  notProvided o -> opt_num_or o b = b.
Proof.
  intros [->|[q [-> H]]]; simpl; [reflexivity|now apply num_or_falsy].
Qed.

Lemma Qabs_zero_iff (q : Q) : Qabs q == 0 <-> q == 0.
Proof.
  split; intros H.
  - revert H. apply Qabs_case; intros; lra.
  - rewrite H. reflexivity.
Qed.

Lemma extractable_inv (item : RawItem.t) :
  extractable item = true ->
  exists c rest transform,
    RawItem.str item = Some (c :: rest)
    /\ RawItem.transform item = Some transform.
Proof.
  unfold extractable.
  destruct (RawItem.str item) as [[|c rest]|];
    destruct (RawItem.transform item) as [transform|]; try discriminate.
  intros _. now exists c, rest, transform.
Qed.

(** C5, as stated, fails: for the run "Hi" with matrix
    [10, 0, 0, 12, 50, 100] the extracted font size is |a| = 10, not
    max(|a|, |d|) = 12. *)
Lemma fontSize_is_not_the_maximum :
  exists run : TextItem.t,
    Extract.extractItem 2 200 200 0 Sample.stretched = Some run
    /\ TextItem.fontSize run == 10
    /\ ~ TextItem.fontSize run
         == Qmax (Qabs (matrixEntry Sample.stretched 0))
                 (Qabs (matrixEntry Sample.stretched 3)).
Proof.
  eexists. split; [reflexivity|]. split; [reflexivity|].
  intros H. vm_compute in H. discriminate.
Qed.

(** C5, amended. For every item with a non-empty string and a
    placement matrix [a, b, c, d, e, f], extraction produces a run whose
    font size is |a| when a is non-zero, otherwise |d| when d is
    non-zero, otherwise the item's height when that is supplied and
    non-zero, otherwise 12; whose width is the supplied (non-zero) width
    or else text.length * fontSize * 0.6; whose height is the supplied
    (non-zero) height or else the font size; and whose colour is
    {0, 0, 0} when the item supplies none. *)
Theorem extractItem_geometry :
  forall (pageNum index : nat) (vw vh : Q) (item : RawItem.t),
    extractable item = true ->
    exists run : TextItem.t,
      Extract.extractItem pageNum vw vh index item = Some run
      /\ RawItem.str item = Some (TextItem.text run)
      /\ (let a := matrixEntry item 0 in
          let d := matrixEntry item 3 in
          let fs := TextItem.fontSize run in
          (~ a == 0 -> fs = Qabs a)
          /\ (a == 0 -> ~ d == 0 -> fs = Qabs d)
          /\ (a == 0 -> d == 0 ->
              forall h, provided (RawItem.height item) h -> fs = h)
          /\ (a == 0 -> d == 0 -> notProvided (RawItem.height item) ->
              fs = 12))
      /\ (forall w, provided (RawItem.width item) w -> TextItem.width run = w)
      /\ (notProvided (RawItem.width item) ->
          TextItem.width run
          = inject_Z (Z.of_nat (List.length (TextItem.text run)))
            * TextItem.fontSize run * (6 # 10))
      /\ (forall h, provided (RawItem.height item) h -> TextItem.height run = h)
      /\ (notProvided (RawItem.height item) ->
          TextItem.height run = TextItem.fontSize run)
      /\ (RawItem.color item = None -> TextItem.color run = mkColor 0 0 0).
Proof.
  intros pageNum index vw vh item Hx.
  destruct (extractable_inv item Hx) as [c [rest [transform [Hstr Htr]]]].
  unfold Extract.extractItem, matrixEntry. rewrite Hstr, Htr. simpl str_truthy.
  cbv iota. eexists. split; [reflexivity|]. simpl.
  split; [reflexivity|].
  split.
  { unfold Extract.fontSizeOf, math_abs. repeat split.
    - intros Ha. apply num_or_truthy. now rewrite Qabs_zero_iff.
    - intros Ha Hd. rewrite num_or_falsy by now rewrite Qabs_zero_iff.
      apply num_or_truthy. now rewrite Qabs_zero_iff.
    - intros Ha Hd h Hh.
      rewrite !num_or_falsy by now rewrite Qabs_zero_iff.
      now apply opt_num_or_provided.
    - intros Ha Hd Hh.
      rewrite !num_or_falsy by now rewrite Qabs_zero_iff.
      now apply opt_num_or_notProvided. }
  split; [intros w Hw; now apply opt_num_or_provided|].
  split; [intros Hw; now apply opt_num_or_notProvided|].
  split; [intros h Hh; now apply opt_num_or_provided|].
  split; [intros Hh; now apply opt_num_or_notProvided|].
  intros Hc. now rewrite Hc.
Qed.

Lemma extractItem_geometry_witness :
  exists run : TextItem.t,
    Extract.extractItem 2 200 200 0 Sample.stretched = Some run
    /\ RawItem.str Sample.stretched = Some (TextItem.text run)
    /\ (let a := matrixEntry Sample.stretched 0 in
        let d := matrixEntry Sample.stretched 3 in
        let fs := TextItem.fontSize run in
        (~ a == 0 -> fs = Qabs a)
        /\ (a == 0 -> ~ d == 0 -> fs = Qabs d)
        /\ (a == 0 -> d == 0 ->
            forall h, provided (RawItem.height Sample.stretched) h -> fs = h)
        /\ (a == 0 -> d == 0 -> notProvided (RawItem.height Sample.stretched) ->
            fs = 12))
    /\ (forall w, provided (RawItem.width Sample.stretched) w ->
        TextItem.width run = w)
    /\ (notProvided (RawItem.width Sample.stretched) ->
        TextItem.width run
        = inject_Z (Z.of_nat (List.length (TextItem.text run)))
          * TextItem.fontSize run * (6 # 10))
    /\ (forall h, provided (RawItem.height Sample.stretched) h ->
        TextItem.height run = h)
    /\ (notProvided (RawItem.height Sample.stretched) ->
        TextItem.height run = TextItem.fontSize run)
    /\ (RawItem.color Sample.stretched = None ->
        TextItem.color run = mkColor 0 0 0).
Proof.
  apply (extractItem_geometry 2 0 200 200 Sample.stretched).
  reflexivity.
Defined.

Lemma extractItem_unusable (pageNum index : nat) (vw vh : Q) (item : RawItem.t) :
  extractable item = false ->
  Extract.extractItem pageNum vw vh index item = None.
Proof.
  unfold extractable, Extract.extractItem.
  destruct (RawItem.str item) as [str|];
    destruct (RawItem.transform item) as [transform|]; try reflexivity.
  now intros ->.
Qed.

Lemma extractItem_usable (pageNum index : nat) (vw vh : Q) (item : RawItem.t) :
  extractable item = true ->
  exists run : TextItem.t,
    Extract.extractItem pageNum vw vh index item = Some run
    /\ TextItem.x run == matrixEntry item 4
    /\ TextItem.y run == vh - matrixEntry item 5
    /\ TextItem.pageIndex run = (Z.of_nat pageNum - 1)%Z
    /\ TextItem.pageWidth run = vw
    /\ TextItem.pageHeight run = vh.
Proof.
  intros Hx.
  destruct (extractable_inv item Hx) as [c [rest [transform [Hstr Htr]]]].
  unfold Extract.extractItem, matrixEntry. rewrite Hstr, Htr. simpl str_truthy.
  cbv iota. eexists. split; [reflexivity|]. simpl.
  split; [apply num_or_zero|].
  split; [now rewrite num_or_zero|].
  repeat split.
Qed.

Lemma extractItemsFrom_app (pageNum : nat) (vw vh : Q)
    (before after : list RawItem.t) (index : nat) :
  Extract.extractItemsFrom pageNum vw vh index (before ++ after)
  = Extract.extractItemsFrom pageNum vw vh index before
    ++ Extract.extractItemsFrom pageNum vw vh (index + List.length before) after.
Proof.
  revert index; induction before as [|item before IH]; intros index; simpl.
  - now rewrite Nat.add_0_r.
  - rewrite IH, Nat.add_succ_comm.
    destruct (Extract.extractItem pageNum vw vh index item); reflexivity.
Qed.

Lemma extractItemsFrom_length (pageNum : nat) (vw vh : Q)
    (items : list RawItem.t) (index : nat) :
  List.length (Extract.extractItemsFrom pageNum vw vh index items)
  = List.length (List.filter extractable items).
Proof.
  revert index; induction items as [|item items IH]; intros index; simpl;
    [reflexivity|].
  destruct (extractable item) eqn:E.
  - destruct (extractItem_usable pageNum index vw vh item E) as [run [-> _]].
    simpl. now rewrite IH.
  - rewrite (extractItem_unusable pageNum index vw vh item E). apply IH.
Qed.

(** C6, as stated, fails: the run "stray", placed at e = -5, f = 900 on
    a 200 x 200 page, is kept with origin (-5, -700), outside
    [0, 200] x [0, 200]. *)
Lemma out_of_range_run_is_kept :
  exists run : TextItem.t,
    Extract.extractTextFromPdf SampleStray.doc = [run]
    /\ TextItem.pageWidth run == 200 /\ TextItem.pageHeight run == 200
    /\ TextItem.x run == - (5) /\ TextItem.y run == - (700)
    /\ ~ (0 <= TextItem.x run /\ TextItem.x run <= TextItem.pageWidth run)
    /\ ~ (0 <= TextItem.y run /\ TextItem.y run <= TextItem.pageHeight run).
Proof.
  eexists. split; [vm_compute; reflexivity|].
  split; [reflexivity|]. split; [reflexivity|].
  split; [reflexivity|]. split; [reflexivity|].
  split; intros [H _]; vm_compute in H; apply H; reflexivity.
Qed.

(** C6, amended. Extraction skips exactly the items that lack a
    non-empty string or a placement matrix, and keeps every other item
    whatever its geometry: a kept run has originX = e and
    originY = pageHeight - f of its matrix, with no range check and no
    clamping.  A skipped item never makes extraction fail and does not
    disturb the runs extracted from the items around it; the number of
    runs of a page is the number of its usable items. *)
Theorem extraction_skips_only_unusable_items :
  forall (pageNum : nat) (vw vh : Q),
    (forall index item,
        extractable item = false ->
        Extract.extractItem pageNum vw vh index item = None)
    /\ (forall index item,
           extractable item = true ->
           exists run : TextItem.t,
             Extract.extractItem pageNum vw vh index item = Some run
             /\ TextItem.x run == matrixEntry item 4
             /\ TextItem.y run == vh - matrixEntry item 5
             /\ TextItem.pageIndex run = (Z.of_nat pageNum - 1)%Z
             /\ TextItem.pageWidth run = vw
             /\ TextItem.pageHeight run = vh)
    /\ (forall index before item after,
           extractable item = false ->
           Extract.extractItemsFrom pageNum vw vh index (before ++ item :: after)
           = Extract.extractItemsFrom pageNum vw vh index before
             ++ Extract.extractItemsFrom pageNum vw vh
                  (S (index + List.length before)) after)
    /\ (forall index items,
           List.length (Extract.extractItemsFrom pageNum vw vh index items)
           = List.length (List.filter extractable items)).
Proof.
  intros pageNum vw vh.
  split; [intros; now apply extractItem_unusable|].
  split; [intros; now apply extractItem_usable|].
  split; [|intros; apply extractItemsFrom_length].
  intros index before item after Hx.
  rewrite extractItemsFrom_app. simpl.
  now rewrite (extractItem_unusable _ _ _ _ _ Hx).
Qed.

(* ------------------------------------------------------------------ *)
(** ** Export *)

Lemma trimStart_nil_iff (s : jsstring) :
  trimStart s = [] <-> Forall (fun c => is_whitespace c = true) s.
Proof.
  induction s as [|c s IH]; simpl.
  - split; [constructor|reflexivity].
  - destruct (is_whitespace c) eqn:E.
    + rewrite IH. split; intros H; [now constructor|now inversion H].
    + split; [discriminate|]. intros H. inversion H. congruence.
Qed.

Lemma trimStart_suffix (s : jsstring) :
  exists skipped, s = skipped ++ trimStart s
                  /\ Forall (fun c => is_whitespace c = true) skipped.
Proof.
  induction s as [|c s [skipped [IH1 IH2]]]; simpl.
  - exists []. split; [reflexivity|constructor].
  - destruct (is_whitespace c) eqn:E.
    + exists (c :: skipped). split; [simpl; now f_equal|now constructor].
    + exists []. split; [reflexivity|constructor].
Qed.

(** A string is non-empty after [trim] exactly when it holds a code unit
    that is not white space. *)
Lemma trim_truthy_iff (s : jsstring) :
  str_truthy (trim s) = true <-> exists c, In c s /\ is_whitespace c = false.
Proof.
  assert (Hnil : trim s = [] <-> Forall (fun c => is_whitespace c = true) s).
  { unfold trim, trimEnd.
    destruct (trimStart_suffix s) as [skipped [Hs Hskipped]].
    split.
    - intros H.
      assert (H' : trimStart (rev (trimStart s)) = []).
      { destruct (trimStart (rev (trimStart s))) as [|c0 l0]; [reflexivity|].
        simpl in H. apply app_eq_nil in H as [_ H]. discriminate. }
      apply trimStart_nil_iff in H'. rewrite Hs.
      apply Forall_app. split; [exact Hskipped|].
      rewrite Forall_forall in *. intros c Hc. apply H'. now apply in_rev in Hc.
    - intros H.
      assert (H' : Forall (fun c => is_whitespace c = true) (rev (trimStart s))).
      { rewrite Forall_forall in *. intros c Hc. apply H.
        rewrite Hs. apply in_or_app. right. now apply in_rev. }
      apply trimStart_nil_iff in H'. now rewrite H'. }
  split.
  - intros H.
    destruct (Forall_Exists_dec (fun c => is_whitespace c = true)
                (fun c => bool_dec (is_whitespace c) true) s) as [Hall|Hex].
    + apply Hnil in Hall. rewrite Hall in H. discriminate H.
    + apply Exists_exists in Hex as [c [Hc Hws]].
      exists c. split; [exact Hc|]. now destruct (is_whitespace c).
  - intros [c [Hc Hws]].
    destruct (str_truthy (trim s)) eqn:E; [reflexivity|].
    assert (Hempty : trim s = []).
    { destruct (trim s); [reflexivity|discriminate]. }
    apply Hnil in Hempty. rewrite Forall_forall in Hempty.
    apply Hempty in Hc. congruence.
Qed.

Section ExportProperties.

Variable primaryDraws : TextItem.t -> bool.
Variable fallbackDraws : TextItem.t -> bool.
Variable saveSucceeds : bool.

Lemma drawRun_texts (height : Q) (runs : list TextItem.t) :
  Forall (fun op => PdfExport.is_text op = true)
    (List.flat_map (PdfExport.drawRun primaryDraws fallbackDraws height) runs).
Proof.
  apply Forall_forall. intros op Hop.
  apply in_flat_map in Hop as [run [_ Hop]].
  unfold PdfExport.drawRun in Hop.
  destruct (PdfExport.hasVisibleText run); [|contradiction].
  destruct (primaryDraws run); [destruct Hop as [<-|[]]; reflexivity|].
  destruct (fallbackDraws run); [destruct Hop as [<-|[]]; reflexivity|].
  contradiction.
Qed.

Lemma coverRectangle_rects (height : Q) (runs : list TextItem.t) :
  Forall (fun op => PdfExport.is_rectangle op = true)
    (List.map (PdfExport.coverRectangle height) runs).
Proof.
  apply Forall_forall. intros op Hop.
  apply in_map_iff in Hop as [run [<- _]]. reflexivity.
Qed.

(** Within the operators of one page, every rectangle comes before
    every text. *)
Lemma pageOps_erase_then_redraw (height : Q) (runs : list TextItem.t)
    (j k : nat) (opj opk : PdfExport.LibOp) :
  nth_error (PdfExport.pageOps primaryDraws fallbackDraws height runs) j
  = Some opj ->
  nth_error (PdfExport.pageOps primaryDraws fallbackDraws height runs) k
  = Some opk ->
  PdfExport.is_rectangle opj = true ->
  PdfExport.is_text opk = true ->
  (j < k)%nat.
Proof.
  unfold PdfExport.pageOps. intros Hj Hk Hrect Htext.
  set (rects := List.map (PdfExport.coverRectangle height) runs) in *.
  assert (Hjlt : (j < List.length rects)%nat).
  { destruct (Nat.lt_ge_cases j (List.length rects)) as [H|H]; [exact H|].
    rewrite nth_error_app2 in Hj by exact H.
    apply nth_error_In in Hj.
    pose proof (drawRun_texts height runs) as Hall.
    rewrite Forall_forall in Hall. apply Hall in Hj.
    unfold PdfExport.is_text in Hj. rewrite Hrect in Hj. discriminate. }
  assert (Hkge : (List.length rects <= k)%nat).
  { destruct (Nat.lt_ge_cases k (List.length rects)) as [H|H]; [|exact H].
    rewrite nth_error_app1 in Hk by exact H.
    apply nth_error_In in Hk.
    pose proof (coverRectangle_rects height runs) as Hall.
    rewrite Forall_forall in Hall. apply Hall in Hk.
    unfold PdfExport.is_text in Htext. rewrite Hk in Htext. discriminate. }
  lia.
Qed.

Lemma pageOps_text_origin (height : Q) (runs : list TextItem.t)
    (op : PdfExport.LibOp) :
  In op (PdfExport.pageOps primaryDraws fallbackDraws height runs) ->
  PdfExport.is_text op = true ->
  exists run font,
    In run runs
    /\ PdfExport.hasVisibleText run = true
    /\ op = PdfExport.textOp height font run.
Proof.
  unfold PdfExport.pageOps. intros Hop Htext.
  apply in_app_or in Hop as [Hop|Hop].
  - pose proof (coverRectangle_rects height runs) as Hall.
    rewrite Forall_forall in Hall. apply Hall in Hop.
    unfold PdfExport.is_text in Htext. rewrite Hop in Htext. discriminate.
  - apply in_flat_map in Hop as [run [Hrun Hop]].
    unfold PdfExport.drawRun in Hop.
    destruct (PdfExport.hasVisibleText run) eqn:Hvis; [|contradiction].
    destruct (primaryDraws run).
    + destruct Hop as [<-|[]]. now exists run, (Some (lit "Helvetica")).
    + destruct (fallbackDraws run); [|contradiction].
      destruct Hop as [<-|[]]. now exists run, None.
Qed.

Lemma pageOps_draws_accepted (height : Q) (runs : list TextItem.t)
    (run : TextItem.t) :
  In run runs ->
  PdfExport.hasVisibleText run = true ->
  primaryDraws run = true \/ fallbackDraws run = true ->
  exists font,
    In (PdfExport.textOp height font run)
       (PdfExport.pageOps primaryDraws fallbackDraws height runs).
Proof.
  intros Hrun Hvis Hok. unfold PdfExport.pageOps.
  destruct (primaryDraws run) eqn:Hp.
  - exists (Some (lit "Helvetica")). apply in_or_app. right.
    apply in_flat_map. exists run. split; [exact Hrun|].
    unfold PdfExport.drawRun. rewrite Hvis, Hp. now left.
  - destruct Hok as [Hok|Hok]; [discriminate|].
    exists None. apply in_or_app. right.
    apply in_flat_map. exists run. split; [exact Hrun|].
    unfold PdfExport.drawRun. rewrite Hvis, Hp, Hok. now left.
Qed.

(** The page loop returns normally, with one exported page per page of
    the document, in order. *)
Lemma exportPagesFrom_pages (textItems : list TextItem.t) (pageCount : Z)
    (sizes : list (Q * Q)) :
  forall (pageIndex : Z) (s : St.t),
  exists (pages : list PdfExport.LibPage.t) (s' : St.t),
    PdfExport.exportPagesFrom primaryDraws fallbackDraws textItems pageCount
      pageIndex sizes s
    = (Normal pages, s')
    /\ List.length pages = List.length sizes
    /\ forall (i : nat) (page : PdfExport.LibPage.t),
        nth_error pages i = Some page ->
        exists size,
          nth_error sizes i = Some size
          /\ page = PdfExport.exportPage primaryDraws fallbackDraws textItems
                      (pageIndex + Z.of_nat i) size.
Proof.
  induction sizes as [|size sizes IH]; intros pageIndex s.
  - exists [], s. split; [reflexivity|]. split; [reflexivity|].
    intros [|i] page H; discriminate.
  - destruct (IH (pageIndex + 1)%Z
                (St.setProgress
                   (20 + inject_Z (pageIndex + 1) / inject_Z pageCount * 60) s))
      as [pages [s' [Hrun [Hlen Hnth]]]].
    cbn [PdfExport.exportPagesFrom].
    unfold bind at 1. unfold modify at 1. unfold bind at 1.
    rewrite Hrun. unfold ret.
    eexists. eexists. split; [reflexivity|].
    split; [simpl; now rewrite Hlen|].
    intros [|i] page H; simpl in H.
    + injection H as <-. exists size. split; [reflexivity|].
      now rewrite Z.add_0_r.
    + destruct (Hnth i page H) as [size' [Hsize' ->]].
      exists size'. split; [exact Hsize'|]. f_equal. lia.
Qed.

End ExportProperties.

Lemma exportPdf_inv (primaryDraws fallbackDraws : TextItem.t -> bool)
    (saveSucceeds : bool) (s : St.t) (pages : list PdfExport.LibPage.t) :
  outcome (PdfExport.exportPdf primaryDraws fallbackDraws saveSucceeds) s
  = Normal (Some pages) ->
  exists file sizes,
    St.file s = Some file
    /\ File.libPages file = Some sizes
    /\ saveSucceeds = true
    /\ List.length pages = List.length sizes
    /\ forall (i : nat) (page : PdfExport.LibPage.t),
        nth_error pages i = Some page ->
        exists size,
          nth_error sizes i = Some size
          /\ page = PdfExport.exportPage primaryDraws fallbackDraws
                      (St.textItems s) (Z.of_nat i) size.
Proof.
  unfold outcome, PdfExport.exportPdf. unfold bind at 1. unfold get at 1.
  destruct (St.file s) as [file|] eqn:Hfile; [|intros H; discriminate H].
  destruct (St.pdfDoc s) as [pdf|]; [|intros H; discriminate H].
  unfold try_catch. unfold bind at 1. unfold modify at 1.
  unfold bind at 1. unfold modify at 1. unfold bind at 1.
  destruct (File.libPages file) as [sizes|] eqn:Hsizes; [|intros H; discriminate H].
  unfold await, ret at 1. unfold bind at 1. unfold modify at 1.
  unfold bind at 1.
  match goal with
  | |- context [PdfExport.exportPagesFrom _ _ ?items ?count ?idx ?sz ?st] =>
      destruct (exportPagesFrom_pages primaryDraws fallbackDraws items count sz
                  idx st) as [pages' [s' [Hrun [Hlen Hnth]]]]
  end.
  rewrite Hrun. unfold bind at 1. unfold modify at 1. unfold bind at 1.
  destruct saveSucceeds; [|intros H; discriminate H].
  simpl. intros H. injection H as <-.
  exists file, sizes.
  split; [reflexivity|]. split; [exact Hsizes|]. split; [reflexivity|].
  split; [exact Hlen|].
  intros i page Hi. destruct (Hnth i page Hi) as [size [Hsize ->]].
  exists size. split; [exact Hsize|reflexivity].
Qed.

(** With a file and a document in the session, a readable file and a
    successful [save], export returns the pages of the new document. *)
Lemma exportPdf_returns (primaryDraws fallbackDraws : TextItem.t -> bool)
    (s : St.t) (file : File.t) (pdf : PdfDoc) (sizes : list (Q * Q)) :
  St.file s = Some file ->
  St.pdfDoc s = Some pdf ->
  File.libPages file = Some sizes ->
  exists pages,
    outcome (PdfExport.exportPdf primaryDraws fallbackDraws true) s
    = Normal (Some pages)
    /\ List.length pages = List.length sizes.
Proof.
  intros Hfile Hdoc Hsizes.
  unfold outcome, PdfExport.exportPdf. unfold bind at 1. unfold get at 1.
  rewrite Hfile, Hdoc.
  unfold try_catch. unfold bind at 1. unfold modify at 1.
  unfold bind at 1. unfold modify at 1. unfold bind at 1.
  rewrite Hsizes.
  unfold await, ret at 1. unfold bind at 1. unfold modify at 1.
  unfold bind at 1.
  match goal with
  | |- context [PdfExport.exportPagesFrom _ _ ?items ?count ?idx ?sz ?st] =>
      destruct (exportPagesFrom_pages primaryDraws fallbackDraws items count sz
                  idx st) as [pages' [s' [Hrun [Hlen Hnth]]]]
  end.
  rewrite Hrun. exists pages'. split; [reflexivity|exact Hlen].
Qed.

(** C2. In every exported document, on every page: each run of the page
    has its cover rectangle among the page's operators; every cover
    rectangle precedes every drawn text of that page, so no rectangle is
    drawn after a text; a drawn text is the text of a run of that page
    whose text is non-empty after trimming (it holds a code unit that is
    not white space); and every such run that the document builder
    accepts, with the embedded font or on the retry, is drawn. *)
Theorem export_erases_before_redrawing :
  forall (primaryDraws fallbackDraws : TextItem.t -> bool)
         (saveSucceeds : bool) (s : St.t)
         (pages : list PdfExport.LibPage.t),
    outcome (PdfExport.exportPdf primaryDraws fallbackDraws saveSucceeds) s
    = Normal (Some pages) ->
    forall (pageIndex : nat) (page : PdfExport.LibPage.t),
      nth_error pages pageIndex = Some page ->
      let runs := TextModel.itemsForPage (Z.of_nat pageIndex) (St.textItems s) in
      let ops := PdfExport.LibPage.ops page in
      let height := PdfExport.LibPage.height page in
      (forall run, In run runs -> In (PdfExport.coverRectangle height run) ops)
      /\ (forall j k opj opk,
             nth_error ops j = Some opj ->
             nth_error ops k = Some opk ->
             PdfExport.is_rectangle opj = true ->
             PdfExport.is_text opk = true ->
             (j < k)%nat)
      /\ (forall op,
             In op ops ->
             PdfExport.is_text op = true ->
             exists run font,
               In run runs
               /\ str_truthy (trim (TextItem.text run)) = true
               /\ (exists c, In c (TextItem.text run) /\ is_whitespace c = false)
               /\ op = PdfExport.textOp height font run)
      /\ (forall run,
             In run runs ->
             str_truthy (trim (TextItem.text run)) = true ->
             primaryDraws run = true \/ fallbackDraws run = true ->
             exists font, In (PdfExport.textOp height font run) ops).
Proof.
  intros primaryDraws fallbackDraws saveSucceeds s pages Hexport pageIndex page
    Hpage runs ops height.
  destruct (exportPdf_inv _ _ _ _ _ Hexport)
    as [file [sizes [_ [_ [_ [_ Hnth]]]]]].
  destruct (Hnth pageIndex page Hpage) as [size [_ Hp]].
  subst ops height runs. rewrite Hp. unfold PdfExport.exportPage. simpl.
  split.
  { intros run Hrun. unfold PdfExport.pageOps. apply in_or_app. left.
    now apply in_map. }
  split.
  { intros j k opj opk. apply pageOps_erase_then_redraw. }
  split.
  { intros op Hop Htext.
    destruct (pageOps_text_origin _ _ _ _ _ Hop Htext)
      as [run [font [Hrun [Hvis ->]]]].
    exists run, font. split; [exact Hrun|]. split; [exact Hvis|].
    split; [|reflexivity]. now apply trim_truthy_iff. }
  intros run Hrun Hvis Hok.
  now apply pageOps_draws_accepted.
Qed.

Lemma export_erases_before_redrawing_witness :
  (forall run,
      In run (TextModel.itemsForPage 0 (St.textItems SampleExport.edited)) ->
      In (PdfExport.coverRectangle
            (PdfExport.LibPage.height SampleExport.firstPage) run)
         (PdfExport.LibPage.ops SampleExport.firstPage))
  /\ (forall j k opj opk,
         nth_error (PdfExport.LibPage.ops SampleExport.firstPage) j = Some opj ->
         nth_error (PdfExport.LibPage.ops SampleExport.firstPage) k = Some opk ->
         PdfExport.is_rectangle opj = true ->
         PdfExport.is_text opk = true ->
         (j < k)%nat)
  /\ (forall op,
         In op (PdfExport.LibPage.ops SampleExport.firstPage) ->
         PdfExport.is_text op = true ->
         exists run font,
           In run (TextModel.itemsForPage 0 (St.textItems SampleExport.edited))
           /\ str_truthy (trim (TextItem.text run)) = true
           /\ (exists c, In c (TextItem.text run) /\ is_whitespace c = false)
           /\ op = PdfExport.textOp
                     (PdfExport.LibPage.height SampleExport.firstPage) font run)
  /\ (forall run,
         In run (TextModel.itemsForPage 0 (St.textItems SampleExport.edited)) ->
         str_truthy (trim (TextItem.text run)) = true ->
         SampleExport.accepts run = true \/ SampleExport.accepts run = true ->
         exists font,
           In (PdfExport.textOp
                 (PdfExport.LibPage.height SampleExport.firstPage) font run)
              (PdfExport.LibPage.ops SampleExport.firstPage)).
Proof.
  apply (export_erases_before_redrawing SampleExport.accepts SampleExport.accepts
           true SampleExport.edited SampleExport.pages
           ltac:(vm_compute; reflexivity) 0%nat SampleExport.firstPage).
  vm_compute. reflexivity.
Defined.

(* ------------------------------------------------------------------ *)
(** ** Annotation points *)

(** A gesture stores the pointer position relative to the annotation
    canvas, in pixels; neither the page size nor the scale enters. *)
Lemma handleAnnotationStart_stores_pixels (e : Annot.MouseEvent) (now : Z)
    (s : St.t) (canvas : Canvas.t) :
  St.selectedTool s <> PointerTool ->
  St.annotationCanvasRef s = Some canvas ->
  exists a : Annotation.t,
    St.currentAnnotationRef (exec (Annot.handleAnnotationStart e now) s) = Some a
    /\ Annotation.path a
       = [mkPoint (Annot.clientX e - Canvas.left canvas)
            (Annot.clientY e - Canvas.top canvas)].
Proof.
  intros Htool Hcanvas.
  unfold exec, Annot.handleAnnotationStart, bind, get. rewrite Hcanvas.
  destruct (St.selectedTool s); try contradiction;
    (eexists; split; [reflexivity|reflexivity]).
Qed.

(** Rendering the annotations touches the annotation canvas only. *)
Lemma renderAnnotations_ref (pageIndex : Z) (s : St.t) :
  St.currentAnnotationRef (exec (Annot.renderAnnotations pageIndex) s)
  = St.currentAnnotationRef s.
Proof.
  unfold exec, Annot.renderAnnotations, bind, get, modify, valueOrThrow,
    ret, throw.
  destruct (St.annotationCanvasRef s); [|reflexivity].
  destruct (St.canvasRef s); [|reflexivity]. simpl.
  destruct (Annot.annotationsForPage pageIndex (St.annotations s))
    as [[|a l]|]; reflexivity.
Qed.

(** A move appends the pointer position, again relative to the canvas
    and in pixels, to the path of the gesture in progress. *)
Lemma handleAnnotationMove_stores_pixels (e : Annot.MouseEvent) (s : St.t)
    (canvas : Canvas.t) (cur : Annotation.t) :
  St.isDrawingRef s = true ->
  St.annotationCanvasRef s = Some canvas ->
  St.currentAnnotationRef s = Some cur ->
  St.currentAnnotationRef (exec (Annot.handleAnnotationMove e) s)
  = Some (Annot.pushPoint cur (Annot.canvasPoint e canvas)).
Proof.
  intros Hd Hc Hcur.
  assert (Hmove : Annot.handleAnnotationMove e s
                  = Annot.renderAnnotations (St.currentPage s - 1)
                      (St.setCurrentAnnotation
                         (Some (Annot.pushPoint cur (Annot.canvasPoint e canvas)))
                         s)).
  { unfold Annot.handleAnnotationMove, bind, get, modify.
    rewrite Hd, Hc, Hcur. reflexivity. }
  unfold exec. rewrite Hmove.
  apply (renderAnnotations_ref (St.currentPage s - 1)).
Qed.

(** The replay hands the stored coordinates to the canvas whatever the
    size of the canvas: two sessions that hold the same annotations draw
    the same operations, however their page canvases are sized. *)
Lemma renderAnnotations_ignores_canvas_size (pageIndex : Z) (s1 s2 : St.t)
    (overlay1 overlay2 page1 page2 : Canvas.t) :
  St.annotations s1 = St.annotations s2 ->
  St.isDrawingRef s1 = St.isDrawingRef s2 ->
  St.currentAnnotationRef s1 = St.currentAnnotationRef s2 ->
  St.annotationCanvasRef s1 = Some overlay1 ->
  St.annotationCanvasRef s2 = Some overlay2 ->
  St.canvasRef s1 = Some page1 ->
  St.canvasRef s2 = Some page2 ->
  overlayOps (exec (Annot.renderAnnotations pageIndex) s1)
  = overlayOps (exec (Annot.renderAnnotations pageIndex) s2).
Proof.
  intros Ha Hd Hc Ho1 Ho2 Hp1 Hp2.
  unfold exec, Annot.renderAnnotations, bind, get, modify, valueOrThrow,
    ret, throw, overlayOps.
  rewrite Ho1, Ho2, Hp1, Hp2, Ha.
  unfold Annot.drawCurrent. rewrite Hd, Hc. simpl.
  destruct (Annot.annotationsForPage pageIndex (St.annotations s2))
    as [[|a l]|]; reflexivity.
Qed.

(** C1 on the code.  On a 200-point page at scale 1 (canvas 200 pixels
    wide) a rectangle is dragged from the centre of the page, pixel
    (100, 100), to pixel (150, 150): the path held for the gesture is
    the pair of raw pixels, not the fractions (1/2, 1/2) and
    (3/4, 3/4).  At scale 2 (canvas 400 pixels wide) the drag through
    the same places of the page holds the pixels (200, 200) and
    (300, 300): what is stored for one place of the page depends on the
    zoom. *)
Theorem annotation_path_holds_raw_pixels :
  St.scale SampleZoom.atScale1 == 1
  /\ overlayWidth SampleZoom.atScale1 = 200%Z
  /\ SampleZoom.pathInProgress SampleZoom.dragged1
     = Some [mkPoint 100 100; mkPoint 150 150]
  /\ St.scale SampleZoom.atScale2 == 2
  /\ overlayWidth SampleZoom.atScale2 = 400%Z
  /\ SampleZoom.pathInProgress SampleZoom.dragged2
     = Some [mkPoint 200 200; mkPoint 300 300]
  /\ px (SpecCoords.pixelToFraction (mkPoint 100 100) 200 200) == 1 # 2
  /\ px (SpecCoords.pixelToFraction (mkPoint 200 200) 400 400) == 1 # 2
  /\ SampleZoom.pathInProgress SampleZoom.dragged1
     <> SampleZoom.pathInProgress SampleZoom.dragged2
  /\ SampleZoom.pathInProgress SampleZoom.dragged1
     <> Some [mkPoint (1 # 2) (1 # 2); mkPoint (3 # 4) (3 # 4)].
Proof.
  split; [vm_compute; reflexivity|].
  split; [vm_compute; reflexivity|].
  split; [vm_compute; reflexivity|].
  split; [vm_compute; reflexivity|].
  split; [vm_compute; reflexivity|].
  split; [vm_compute; reflexivity|].
  split; [vm_compute; reflexivity|].
  split; [vm_compute; reflexivity|].
  split; vm_compute; discriminate.
Qed.

(* ------------------------------------------------------------------ *)
(** ** Screen conversion *)

Lemma inject_Z_nonzero (z : Z) : z <> 0%Z -> ~ inject_Z z == 0.
Proof.
  intros Hz H. apply Hz. unfold Qeq, inject_Z in H. simpl in H. lia.
Qed.

(** The conversion is the page fraction of the run scaled by the canvas
    size. *)
Lemma screenX_via_fraction (item : TextItem.t) (canvas : Canvas.t) :
  Coords.screenX item canvas
  == px (SpecCoords.fractionToPixel
           (mkPoint (TextItem.x item / TextItem.pageWidth item)
              (TextItem.y item / TextItem.pageHeight item))
           (inject_Z (Canvas.width canvas)) (inject_Z (Canvas.height canvas))).
Proof. reflexivity. Qed.

(** When the canvas is exactly [pageWidth * scale] wide, the conversion
    is the multiplication by the scale. *)
Lemma screenX_is_pointToPixel (item : TextItem.t) (canvas : Canvas.t) (scale : Q) :
  ~ TextItem.pageWidth item == 0 ->
  inject_Z (Canvas.width canvas) == TextItem.pageWidth item * scale ->
  Coords.screenX item canvas
  == px (SpecCoords.pointToPixel
           (mkPoint (TextItem.x item) (TextItem.y item)) scale).
Proof.
  intros Hw Hc. unfold Coords.screenX, SpecCoords.pointToPixel. simpl.
  rewrite Hc. field. exact Hw.
Qed.


(** *** The canvas of a rendered page is not degenerate *)





(** *** The round trip under rounding

    When every operation is rounded with relative error at most [u] (for
    binary64 round-to-nearest away from overflow and underflow,
    u = 2^-53), the round trip returns each coordinate of [p] with
    relative error at most 2u + u^2. *)

Section RoundedArithmetic.

Variable u : Q.
Variable fl : Q -> Q.
Hypothesis u_nonneg : 0 <= u.
Hypothesis fl_relative : forall x, Qabs (fl x - x) <= u * Qabs x.

Lemma rounded_round_trip_coordinate (p size fraction : Q) :
  ~ size == 0 ->
  fraction == fl (p / size) ->
  Qabs (fl (fraction * size) - p) <= (2 * u + u * u) * Qabs p.
Proof.
  intros Hsize Hfraction.
  set (a := p / size).
  assert (F1 : a * size == p) by (unfold a; field; exact Hsize).
  set (scaled := fraction * size).
  assert (D1 : Qabs (scaled - p) <= u * Qabs p).
  { assert (E : scaled - p == (fl a - a) * size).
    { unfold scaled. rewrite Hfraction. fold a. rewrite <- F1 at 1. ring. }
    rewrite E, Qabs_Qmult.
    assert (P : Qabs p == Qabs a * Qabs size).
    { rewrite <- Qabs_Qmult, F1. reflexivity. }
    rewrite P, Qmult_assoc.
    apply Qmult_le_compat_r; [apply fl_relative|apply Qabs_nonneg]. }
  assert (B : Qabs scaled <= (1 + u) * Qabs p).
  { assert (E : scaled == p + (scaled - p)) by ring.
    rewrite E at 1. eapply Qle_trans; [apply Qabs_triangle|]. lra. }
  assert (D2 : Qabs (fl scaled - scaled) <= u * ((1 + u) * Qabs p)).
  { eapply Qle_trans; [apply fl_relative|].
    rewrite (Qmult_comm u (Qabs scaled)), (Qmult_comm u ((1 + u) * Qabs p)).
    apply Qmult_le_compat_r; assumption. }
  assert (E : fl scaled - p == (fl scaled - scaled) + (scaled - p)) by ring.
  rewrite E. eapply Qle_trans; [apply Qabs_triangle|]. lra.
Qed.

Lemma rounded_conversion_error_bound (canvas : Canvas.t)
    (item : TextItem.t) (p : Point) :
  Canvas.width canvas <> 0%Z ->
  Canvas.height canvas <> 0%Z ->
  ~ TextItem.pageWidth item == 0 ->
  ~ TextItem.pageHeight item == 0 ->
  fl (TextItem.x item / TextItem.pageWidth item)
  == px (Rounded.pixelToFraction fl p (inject_Z (Canvas.width canvas))
           (inject_Z (Canvas.height canvas))) ->
  fl (TextItem.y item / TextItem.pageHeight item)
  == py (Rounded.pixelToFraction fl p (inject_Z (Canvas.width canvas))
           (inject_Z (Canvas.height canvas))) ->
  Qabs (Rounded.screenX fl item canvas - px p) <= (2 * u + u * u) * Qabs (px p)
  /\ Qabs (Rounded.screenY fl item canvas - py p)
     <= (2 * u + u * u) * Qabs (py p).
Proof.
  intros Hw Hh _ _ Hx Hy. unfold Rounded.screenX, Rounded.screenY. split.
  - apply rounded_round_trip_coordinate; [now apply inject_Z_nonzero|exact Hx].
  - apply rounded_round_trip_coordinate; [now apply inject_Z_nonzero|exact Hy].
Qed.

End RoundedArithmetic.

Lemma exact_is_a_rounding (x : Q) : Qabs (Rounded.exact x - x) <= 0 * Qabs x.
Proof.
  unfold Rounded.exact.
  assert (E : x - x == 0) by ring. rewrite E. simpl. lra.
Qed.

(** Exact arithmetic is the instance u = 0, and the rounded conversion
    is then the conversion of the component. *)
Lemma rounded_exact_screenX (item : TextItem.t) (canvas : Canvas.t) :
  Rounded.screenX Rounded.exact item canvas = Coords.screenX item canvas.
Proof. reflexivity. Qed.

Example rounded_conversion_exact_instance :
  Qabs (Rounded.screenX Rounded.exact SampleRun.hello SampleRun.canvas - 15)
  <= (2 * 0 + 0 * 0) * Qabs 15
  /\ Qabs (Rounded.screenY Rounded.exact SampleRun.hello SampleRun.canvas - 30)
     <= (2 * 0 + 0 * 0) * Qabs 30.
Proof.
  apply (rounded_conversion_error_bound 0 Rounded.exact
           ltac:(lra) exact_is_a_rounding SampleRun.canvas SampleRun.hello
           (mkPoint 15 30)).
  - vm_compute. discriminate.
  - vm_compute. discriminate.
  - intros H. vm_compute in H. discriminate H.
  - intros H. vm_compute in H. discriminate H.
  - vm_compute. reflexivity.
  - vm_compute. reflexivity.
Defined.

(* ------------------------------------------------------------------ *)
(** * Further properties of the component *)

(** ** Identifiers of extracted runs *)

Lemma lit_inj (a b : string) : lit a = lit b -> a = b.
Proof.
  unfold lit. intros H.
  rewrite <- (string_of_list_ascii_of_string a),
          <- (string_of_list_ascii_of_string b).
  f_equal.
  revert H. generalize (list_ascii_of_string a) (list_ascii_of_string b).
  intros la; induction la as [|x la IH]; intros [|y lb]; simpl;
    try discriminate; [reflexivity|].
  intros H. injection H as Hxy Hrest.
  f_equal; [|now apply IH].
  rewrite <- (ascii_N_embedding x), <- (ascii_N_embedding y). now rewrite Hxy.
Qed.

Lemma to_int_nonnil (z : Z) :
  Z.to_int z <> Decimal.Pos Decimal.Nil /\ Z.to_int z <> Decimal.Neg Decimal.Nil.
Proof.
  destruct z as [|p|p]; simpl; split; try discriminate;
    intros H; injection H as H; now apply (Unsigned.to_uint_nonnil p).
Qed.

Lemma decimal_inj (z z' : Z) : decimal z = decimal z' -> z = z'.
Proof.
  unfold decimal. intros H. apply lit_inj in H.
  apply DecimalZ.to_int_inj.
  destruct (to_int_nonnil z) as [H1 H2]. destruct (to_int_nonnil z') as [H3 H4].
  pose proof (NilZero.isi _ H1 H2) as E1.
  pose proof (NilZero.isi _ H3 H4) as E2.
  rewrite H in E1. congruence.
Qed.

Lemma string_of_uint_digits (d : Decimal.uint) :
  Forall (fun c => is_digit c = true) (lit (NilEmpty.string_of_uint d)).
Proof.
  induction d; simpl; try constructor; try reflexivity; assumption.
Qed.

Lemma decimal_digits (n : nat) :
  Forall (fun c => is_digit c = true) (decimal (Z.of_nat n)).
Proof.
  unfold decimal. destruct (Z.of_nat n) as [|p|p] eqn:E; simpl.
  - repeat constructor.
  - unfold NilZero.string_of_uint.
    destruct (Pos.to_uint p) eqn:Ep;
      try (rewrite <- Ep; apply string_of_uint_digits).
    repeat constructor.
  - lia.
Qed.

(** Two digit strings followed by the same non-digit and a rest are
    equal as soon as the wholes are. *)
Lemma split_at_separator (sep : code_unit) (a a' b b' : jsstring) :
  is_digit sep = false ->
  Forall (fun c => is_digit c = true) a ->
  Forall (fun c => is_digit c = true) a' ->
  a ++ sep :: b = a' ++ sep :: b' ->
  a = a' /\ b = b'.
Proof.
  intros Hsep Ha. revert a'.
  induction Ha as [|x a Hx Ha IH]; intros a' Ha' H.
  - destruct a' as [|y a']; simpl in H.
    + injection H as ->. now split.
    + injection H as <- _. inversion Ha'. congruence.
  - destruct a' as [|y a']; simpl in H.
    + injection H as -> _. congruence.
    + injection H as <- H. inversion Ha'; subst.
      destruct (IH a' H3 H) as [-> ->]. now split.
Qed.

Lemma itemId_inj (pageNum index pageNum' index' : nat) :
  Extract.itemId pageNum index = Extract.itemId pageNum' index' ->
  pageNum = pageNum' /\ index = index'.
Proof.
  unfold Extract.itemId. intros H.
  apply app_inv_head in H.
  change (lit "-") with [45%N] in H. simpl app in H.
  apply split_at_separator in H;
    [|reflexivity|apply decimal_digits|apply decimal_digits].
  destruct H as [Hp Hi].
  apply decimal_inj in Hp. apply decimal_inj in Hi. lia.
Qed.

Lemma extractItem_id (pageNum index : nat) (vw vh : Q) (item : RawItem.t)
    (run : TextItem.t) :
  Extract.extractItem pageNum vw vh index item = Some run ->
  TextItem.id run = Extract.itemId pageNum index
  /\ TextItem.pageIndex run = (Z.of_nat pageNum - 1)%Z.
Proof.
  unfold Extract.extractItem.
  destruct (RawItem.str item) as [str|]; [|discriminate].
  destruct (RawItem.transform item) as [transform|]; [|discriminate].
  destruct (str_truthy str); [|discriminate].
  intros H. injection H as <-. now split.
Qed.

Lemma extractItemsFrom_ids (pageNum : nat) (vw vh : Q)
    (items : list RawItem.t) :
  forall (index : nat) (run : TextItem.t),
    In run (Extract.extractItemsFrom pageNum vw vh index items) ->
    exists j, (index <= j < index + List.length items)%nat
              /\ TextItem.id run = Extract.itemId pageNum j
              /\ TextItem.pageIndex run = (Z.of_nat pageNum - 1)%Z.
Proof.
  induction items as [|item items IH]; intros index run Hin; simpl in Hin.
  - contradiction.
  - destruct (Extract.extractItem pageNum vw vh index item) as [r|] eqn:E.
    + destruct Hin as [<-|Hin].
      * exists index. destruct (extractItem_id _ _ _ _ _ _ E) as [H1 H2].
        simpl. repeat split; auto; lia.
      * destruct (IH _ _ Hin) as [j [Hj H]]. exists j. simpl. split; [lia|exact H].
    + destruct (IH _ _ Hin) as [j [Hj H]]. exists j. simpl. split; [lia|exact H].
Qed.

Lemma extractItemsFrom_NoDup (pageNum : nat) (vw vh : Q)
    (items : list RawItem.t) :
  forall index : nat,
    NoDup (runIds (Extract.extractItemsFrom pageNum vw vh index items)).
Proof.
  induction items as [|item items IH]; intros index; simpl.
  - constructor.
  - destruct (Extract.extractItem pageNum vw vh index item) as [r|] eqn:E;
      [|apply IH].
    simpl. constructor; [|apply IH].
    intros Hin. apply in_map_iff in Hin as [run [Hid Hrun]].
    destruct (extractItemsFrom_ids _ _ _ _ _ _ Hrun) as [j [Hj [Hidj _]]].
    destruct (extractItem_id _ _ _ _ _ _ E) as [Hr _].
    rewrite Hr, Hidj in Hid. apply itemId_inj in Hid. lia.
Qed.

Lemma extractPagesFrom_ids (pages : list PdfPage.t) :
  forall (pageNum : nat) (run : TextItem.t),
    In run (Extract.extractPagesFrom pageNum pages) ->
    exists q j, (pageNum <= q < pageNum + List.length pages)%nat
                /\ TextItem.id run = Extract.itemId q j
                /\ TextItem.pageIndex run = (Z.of_nat q - 1)%Z.
Proof.
  induction pages as [|page pages IH]; intros pageNum run Hin; simpl in Hin.
  - contradiction.
  - apply in_app_or in Hin as [Hin|Hin].
    + destruct (extractItemsFrom_ids _ _ _ _ _ _ Hin) as [j [_ H]].
      exists pageNum, j. simpl. split; [lia|exact H].
    + destruct (IH _ _ Hin) as [q [j [Hq H]]].
      exists q, j. simpl. split; [lia|exact H].
Qed.

Lemma NoDup_app_disjoint {A} (l1 l2 : list A) :
  NoDup l1 -> NoDup l2 -> (forall a, In a l1 -> In a l2 -> False) ->
  NoDup (l1 ++ l2).
Proof.
  induction l1 as [|a l1 IH]; intros H1 H2 Hd; simpl; [exact H2|].
  inversion H1; subst. constructor.
  - intros Hin. apply in_app_or in Hin as [Hin|Hin]; [contradiction|].
    apply (Hd a); [now left|exact Hin].
  - apply IH; auto. intros b Hb1 Hb2. apply (Hd b); [now right|exact Hb2].
Qed.

Lemma extractPagesFrom_NoDup (pages : list PdfPage.t) :
  forall pageNum : nat,
    NoDup (runIds (Extract.extractPagesFrom pageNum pages)).
Proof.
  induction pages as [|page pages IH]; intros pageNum; simpl.
  - constructor.
  - unfold runIds. rewrite map_app. apply NoDup_app_disjoint.
    + apply extractItemsFrom_NoDup.
    + apply IH.
    + intros id H1 H2.
      apply in_map_iff in H1 as [r1 [<- H1]].
      apply in_map_iff in H2 as [r2 [Hid H2]].
      destruct (extractItemsFrom_ids _ _ _ _ _ _ H1) as [j1 [_ [E1 _]]].
      destruct (extractPagesFrom_ids _ _ _ H2) as [q [j2 [Hq [E2 _]]]].
      rewrite E1, E2 in Hid. apply itemId_inj in Hid. lia.
Qed.

(** X1. The identifiers [text-<page>-<index>] given to the runs of a
    document are pairwise distinct. *)
Theorem extracted_ids_are_distinct :
  forall pdf : PdfDoc, NoDup (runIds (Extract.extractTextFromPdf pdf)).
Proof.
  intros pdf. apply extractPagesFrom_NoDup.
Qed.

(** ** Runs of a page *)

Lemma filter_all {A} (f : A -> bool) (l : list A) :
  (forall a, In a l -> f a = true) -> List.filter f l = l.
Proof.
  induction l as [|a l IH]; intros H; simpl; [reflexivity|].
  rewrite (H a (or_introl eq_refl)). f_equal. apply IH.
  intros b Hb. apply H. now right.
Qed.

Lemma filter_none {A} (f : A -> bool) (l : list A) :
  (forall a, In a l -> f a = false) -> List.filter f l = [].
Proof.
  induction l as [|a l IH]; intros H; simpl; [reflexivity|].
  rewrite (H a (or_introl eq_refl)). apply IH.
  intros b Hb. apply H. now right.
Qed.

Lemma itemsForPage_extractPagesFrom (pages : list PdfPage.t) :
  forall (pageNum i : nat),
    TextModel.itemsForPage (Z.of_nat (pageNum + i) - 1)
      (Extract.extractPagesFrom pageNum pages)
    = match nth_error pages i with
      | Some page => Extract.extractPage (pageNum + i) page
      | None => []
      end.
Proof.
  induction pages as [|page pages IH]; intros pageNum i; simpl.
  - now destruct i.
  - unfold TextModel.itemsForPage. rewrite filter_app.
    destruct i as [|i]; simpl.
    + rewrite Nat.add_0_r. rewrite filter_all, filter_none.
      * apply app_nil_r.
      * intros run Hrun.
        destruct (extractPagesFrom_ids _ _ _ Hrun) as [q [j [Hq [_ Hp]]]].
        rewrite Hp. apply Z.eqb_neq. lia.
      * intros run Hrun.
        destruct (extractItemsFrom_ids _ _ _ _ _ _ Hrun) as [j [_ [_ Hp]]].
        rewrite Hp. apply Z.eqb_refl.
    + rewrite filter_none.
      * replace (pageNum + S i)%nat with (S pageNum + i)%nat by lia.
        apply IH.
      * intros run Hrun.
        destruct (extractItemsFrom_ids _ _ _ _ _ _ Hrun) as [j [_ [_ Hp]]].
        rewrite Hp. apply Z.eqb_neq. lia.
Qed.

(** X2. After extraction, the runs of page index [i] (as
    [getTextItemsForPage] and the export loop select them) are exactly
    the runs extracted from page [i + 1] of the document, in extraction
    order; an index past the last page selects nothing. *)
Theorem runs_of_page_are_its_extraction :
  forall (pdf : PdfDoc) (i : nat),
    TextModel.itemsForPage (Z.of_nat i) (Extract.extractTextFromPdf pdf)
    = match nth_error pdf i with
      | Some page => Extract.extractPage (S i) page
      | None => []
      end.
Proof.
  intros pdf i. unfold Extract.extractTextFromPdf.
  pose proof (itemsForPage_extractPagesFrom pdf 1 i) as H.
  replace (Z.of_nat (1 + i) - 1)%Z with (Z.of_nat i) in H by lia.
  exact H.
Qed.

(** ** Colours at export *)

(** X3. Every colour channel handed to the document builder lies in
    [0, 1], whatever the run holds. *)
Theorem export_channel_in_unit_interval :
  forall v : Q, unitInterval (PdfExport.channel v).
Proof.
  intros v. unfold unitInterval, PdfExport.channel, math_min, math_max.
  split.
  - apply Q.min_glb; [lra|apply Q.le_max_l].
  - apply Q.le_min_l.
Qed.

(** ** From the placement matrix to the exported text *)

(** X5. The vertical flip of extraction and the one of export cancel:
    on a page whose height is the same for the parser and the document
    builder, the text of an extracted run is drawn at the position
    (e, f) of its placement matrix, with its extracted font size and
    its string.  The horizontal position is handed through untouched;
    the vertical one goes through two subtractions and is stated to a
    millionth of a point, for pages and positions up to a million
    points, which leaves room for the rounding of the subtractions. *)
Theorem exported_text_sits_at_matrix_origin :
  forall (item : RawItem.t) (run : TextItem.t) (pageNum index : nat)
         (vw vh : Q) (font : option jsstring),
    Extract.extractItem pageNum vw vh index item = Some run ->
    Qabs vh <= 1000000 ->
    Qabs (matrixEntry item 5) <= 1000000 ->
    exists x y : Q,
      PdfExport.textOp vh font run
      = PdfExport.DrawText (TextItem.text run) x y (TextItem.fontSize run)
          (PdfExport.textColor run) font
      /\ RawItem.str item = Some (TextItem.text run)
      /\ x == matrixEntry item 4
      /\ Qabs (y - matrixEntry item 5) <= 1 # 1000000.
Proof.
  intros item run pageNum index vw vh font Hrun _ _.
  unfold Extract.extractItem in Hrun. unfold matrixEntry.
  destruct (RawItem.str item) as [str|]; [|discriminate].
  destruct (RawItem.transform item) as [transform|]; [|discriminate].
  destruct (str_truthy str); [|discriminate].
  injection Hrun as <-. unfold PdfExport.textOp.
  cbn [TextItem.text TextItem.x TextItem.y TextItem.fontSize].
  eexists. eexists. split; [reflexivity|]. split; [reflexivity|].
  split; [apply num_or_zero|].
  assert (E : vh - (vh - num_or (index_or_zero transform 5) 0)
              - index_or_zero transform 5 == 0).
  { rewrite num_or_zero. ring. }
  rewrite E. vm_compute. discriminate.
Qed.

Lemma exported_text_sits_at_matrix_origin_witness :
  exists x y : Q,
    PdfExport.textOp 200 None SampleColour.run
    = PdfExport.DrawText (TextItem.text SampleColour.run) x y
        (TextItem.fontSize SampleColour.run)
        (PdfExport.textColor SampleColour.run) None
    /\ RawItem.str SampleColour.item = Some (TextItem.text SampleColour.run)
    /\ x == matrixEntry SampleColour.item 4
    /\ Qabs (y - matrixEntry SampleColour.item 5) <= 1 # 1000000.
Proof.
  apply (exported_text_sits_at_matrix_origin SampleColour.item SampleColour.run
           1 0 200 200 None).
  - vm_compute. reflexivity.
  - vm_compute. discriminate.
  - vm_compute. discriminate.
Defined.

(* ------------------------------------------------------------------ *)
(** ** Composition of text edits *)

Lemma updateItems_overwrite (id a b : jsstring) (items : list TextItem.t) :
  TextModel.updateItems id b (TextModel.updateItems id a items)
  = TextModel.updateItems id b items.
Proof.
  unfold TextModel.updateItems. rewrite map_map. apply map_ext.
  intros item. destruct (str_eqb (TextItem.id item) id) eqn:E; simpl.
  - rewrite E. reflexivity.
  - rewrite E. reflexivity.
Qed.

Lemma updateItems_commute (id id' a b : jsstring) (items : list TextItem.t) :
  id <> id' ->
  TextModel.updateItems id a (TextModel.updateItems id' b items)
  = TextModel.updateItems id' b (TextModel.updateItems id a items).
Proof.
  intros Hne. unfold TextModel.updateItems. rewrite !map_map. apply map_ext.
  intros item.
  destruct (str_eqb (TextItem.id item) id) eqn:E;
    destruct (str_eqb (TextItem.id item) id') eqn:E'; simpl;
    rewrite ?E, ?E'; try reflexivity.
  apply str_eqb_eq in E. apply str_eqb_eq in E'. congruence.
Qed.

(** X6. Two edits of the same run in a row leave the session as the
    second edit alone would: the last text wins and nothing of the first
    edit remains. *)
Theorem later_edit_overwrites_earlier :
  forall (id a b : jsstring) (s : St.t),
    (TextModel.updateTextItem id a ;; TextModel.updateTextItem id b) s
    = TextModel.updateTextItem id b s.
Proof.
  intros id a b s. unfold bind, TextModel.updateTextItem, modify. simpl.
  now rewrite updateItems_overwrite.
Qed.

(** X7. Edits of runs with different identifiers commute: the session
    is the same whichever edit comes first. *)
Theorem edits_of_different_runs_commute :
  forall (id id' a b : jsstring) (s : St.t),
    id <> id' ->
    (TextModel.updateTextItem id a ;; TextModel.updateTextItem id' b) s
    = (TextModel.updateTextItem id' b ;; TextModel.updateTextItem id a) s.
Proof.
  intros id id' a b s Hne. unfold bind, TextModel.updateTextItem, modify. simpl.
  now rewrite (updateItems_commute id' id b a) by congruence.
Qed.

Lemma edits_of_different_runs_commute_witness :
  (TextModel.updateTextItem (lit "text-1-0") (lit "Hi") ;;
   TextModel.updateTextItem (lit "text-2-0") (lit "Ho")) Sample.loaded
  = (TextModel.updateTextItem (lit "text-2-0") (lit "Ho") ;;
     TextModel.updateTextItem (lit "text-1-0") (lit "Hi")) Sample.loaded.
Proof.
  apply (edits_of_different_runs_commute (lit "text-1-0") (lit "text-2-0")
           (lit "Hi") (lit "Ho") Sample.loaded).
  intros H. vm_compute in H. discriminate H.
Defined.

Lemma updateItems_absent (id newText : jsstring) (items : list TextItem.t) :
  ~ In id (runIds items) -> TextModel.updateItems id newText items = items.
Proof.
  induction items as [|item items IH]; intros H; simpl; [reflexivity|].
  destruct (str_eqb (TextItem.id item) id) eqn:E.
  - apply str_eqb_eq in E. exfalso. apply H. now left.
  - f_equal. apply IH. intros Hin. apply H. now right.
Qed.

Lemma updateItems_single (newText : jsstring) (items : list TextItem.t) :
  NoDup (runIds items) ->
  forall (i : nat) (run : TextItem.t),
    nth_error items i = Some run ->
    TextModel.updateItems (TextItem.id run) newText items
    = firstn i items ++ TextItem.with_text run newText :: skipn (S i) items.
Proof.
  induction items as [|item items IH]; intros Hnd i run Hi.
  - now destruct i.
  - inversion Hnd as [|? ? Hnotin Hnd']; subst.
    destruct i as [|i]; simpl in Hi.
    + injection Hi as ->. simpl.
      rewrite (proj2 (str_eqb_eq _ _) eq_refl). f_equal.
      now apply updateItems_absent.
    + simpl. destruct (str_eqb (TextItem.id item) (TextItem.id run)) eqn:E.
      * apply str_eqb_eq in E. exfalso. apply Hnotin. rewrite E.
        apply in_map. now apply nth_error_In in Hi.
      * f_equal. now apply IH.
Qed.

(** X8. In a session whose runs have distinct identifiers (as every
    extracted document has), editing the run at position [i] replaces
    that run by itself with the new text and leaves every run before
    and after it in place. *)
Theorem edit_touches_exactly_one_run :
  forall (s : St.t) (i : nat) (run : TextItem.t) (newText : jsstring),
    NoDup (runIds (St.textItems s)) ->
    nth_error (St.textItems s) i = Some run ->
    St.textItems (exec (TextModel.updateTextItem (TextItem.id run) newText) s)
    = firstn i (St.textItems s)
      ++ TextItem.with_text run newText :: skipn (S i) (St.textItems s).
Proof.
  intros s i run newText Hnd Hi.
  unfold exec, TextModel.updateTextItem, modify. simpl.
  now apply updateItems_single.
Qed.

Lemma edit_touches_exactly_one_run_witness :
  St.textItems
    (exec (TextModel.updateTextItem (TextItem.id SampleRun.hello) (lit "Hi"))
       Sample.loaded)
  = firstn 0 (St.textItems Sample.loaded)
    ++ TextItem.with_text SampleRun.hello (lit "Hi")
       :: skipn 1 (St.textItems Sample.loaded).
Proof.
  apply (edit_touches_exactly_one_run Sample.loaded 0 SampleRun.hello (lit "Hi")).
  - vm_compute. repeat constructor; simpl; intuition discriminate.
  - vm_compute. reflexivity.
Defined.

(** X9. An edit never moves a run to another page nor reorders the runs
    of a page: selecting the runs of a page after an edit gives the
    edited selection of before. *)
Theorem edit_commutes_with_page_selection :
  forall (id newText : jsstring) (pageIndex : Z) (items : list TextItem.t),
    TextModel.itemsForPage pageIndex (TextModel.updateItems id newText items)
    = TextModel.updateItems id newText (TextModel.itemsForPage pageIndex items).
Proof.
  intros id newText pageIndex items.
  induction items as [|item items IH]; simpl; [reflexivity|].
  destruct (str_eqb (TextItem.id item) id) eqn:E; simpl;
    destruct (TextItem.pageIndex item =? pageIndex)%Z; simpl;
    rewrite ?E, IH; reflexivity.
Qed.

Lemma with_own_text (run : TextItem.t) :
  TextItem.with_text run (TextItem.text run) = run.
Proof. destruct run; reflexivity. Qed.

Lemma firstn_cons_skipn {A} (l : list A) :
  forall (i : nat) (a : A),
    nth_error l i = Some a -> firstn i l ++ a :: skipn (S i) l = l.
Proof.
  induction l as [|x l IH]; intros [|i] a Hi; simpl in *; try discriminate.
  - now injection Hi as ->.
  - f_equal. now apply IH.
Qed.

Lemma updateItems_own_text (items : list TextItem.t) (run : TextItem.t) :
  NoDup (runIds items) -> In run items ->
  TextModel.updateItems (TextItem.id run) (TextItem.text run) items = items.
Proof.
  intros Hnd Hin. apply In_nth_error in Hin as [i Hi].
  rewrite (updateItems_single _ _ Hnd i run Hi), with_own_text.
  now apply firstn_cons_skipn.
Qed.

Lemma overlay_box_origin (s : St.t) (box : Overlay.Box) :
  In box (Overlay.textOverlay s) ->
  exists (run : TextItem.t) (c : Coords.ScreenCoords),
    In run (TextModel.getTextItemsForPage s (St.currentPage s - 1))
    /\ Coords.convertPdfToScreenCoords (St.canvasRef s)
         (St.currentViewport s) run = Some c
    /\ box = Overlay.boxOf s run c.
Proof.
  unfold Overlay.textOverlay.
  destruct (St.editingMode s); try contradiction.
  destruct (St.pdfDoc s); [|contradiction].
  destruct (St.currentViewport s) eqn:Ev; [|contradiction].
  intros Hin. apply in_flat_map in Hin as [run [Hrun Hin]].
  destruct (Coords.convertPdfToScreenCoords (St.canvasRef s) (Some t) run)
    as [c|] eqn:Ec; [|contradiction].
  destruct Hin as [<-|[]]. now exists run, c.
Qed.

(** X10. Leaving an overlay box without having changed its text (the
    blur handler then writes the run's own text back) changes nothing:
    in a session whose runs have distinct identifiers, the handler
    returns with the state it found. *)
Theorem blur_without_change_is_noop :
  forall (s : St.t) (box : Overlay.Box),
    NoDup (runIds (St.textItems s)) ->
    In box (Overlay.textOverlay s) ->
    Overlay.handleBlur (Overlay.key box) (Some (Overlay.content box)) s
    = (Normal tt, s).
Proof.
  intros s box Hnd Hin.
  destruct (overlay_box_origin s box Hin) as [run [c [Hrun [_ ->]]]].
  assert (Hin' : In run (St.textItems s)).
  { unfold TextModel.getTextItemsForPage, TextModel.itemsForPage in Hrun.
    now apply filter_In in Hrun as [Hrun _]. }
  assert (Htext : opt_str_or (Some (TextItem.text run)) (lit "")
                  = TextItem.text run).
  { simpl. now destruct (TextItem.text run). }
  unfold Overlay.handleBlur.
  cbn [Overlay.key Overlay.content Overlay.boxOf].
  rewrite Htext. unfold TextModel.updateTextItem, modify.
  rewrite (updateItems_own_text _ _ Hnd Hin').
  now rewrite setTextItems_same.
Qed.

Lemma blur_without_change_is_noop_witness :
  Overlay.handleBlur (Overlay.key SampleEdit.box)
    (Some (Overlay.content SampleEdit.box)) SampleEdit.session
  = (Normal tt, SampleEdit.session).
Proof.
  apply (blur_without_change_is_noop SampleEdit.session SampleEdit.box).
  - vm_compute. repeat constructor; simpl; intuition discriminate.
  - vm_compute. left. reflexivity.
Defined.

(* ------------------------------------------------------------------ *)
(** ** Loading *)

Lemma acceptable_passes_guards (file : File.t) :
  acceptable file ->
  str_eqb (File.type file) (lit "application/pdf") = true
  /\ (File.size file >? Session.maxFileSize)%Z = false.
Proof.
  intros [Htype Hsize]. split.
  - now apply str_eqb_eq.
  - unfold Session.maxFileSize. rewrite Z.gtb_ltb. apply Z.ltb_ge. exact Hsize.
Qed.

Lemma onDrop_loaded (file : File.t) (others : list File.t) (pdf : PdfDoc)
    (s : St.t) :
  acceptable file -> File.parsed file = Some pdf ->
  Session.onDrop (file :: others) s
  = (Normal tt,
     St.pushToast
       (Toast.mk (lit "PDF loaded")
          (lit "Successfully loaded " ++ decimal (Session.numPages pdf)
             ++ lit " page(s)") Toast.Default)
       (St.setIsProcessing false
          (St.setProgress 100
             (St.setTextItems (Extract.extractTextFromPdf pdf)
                (St.setProgress 50
                   (St.setScale (3 # 2)
                      (St.setAnnotations []
                         (St.setTextItems []
                            (St.setCurrentPage 1
                               (St.setTotalPages (Session.numPages pdf)
                                  (St.setPdfDoc (Some pdf)
                                     (St.setProgress 10
                                        (St.setIsProcessing true
                                           (St.setFile (Some file) s)))))))))))))).
Proof.
  intros Hok Hparsed. destruct (acceptable_passes_guards file Hok) as [H1 H2].
  unfold Session.onDrop. rewrite H1, H2. simpl negb. cbv iota.
  unfold Session.loadPdf, try_catch, bind, modify, await,
    Session.extractTextFromPdf.
  rewrite Hparsed. reflexivity.
Qed.

Lemma onDrop_unreadable (file : File.t) (others : list File.t) (s : St.t) :
  acceptable file -> File.parsed file = None ->
  Session.onDrop (file :: others) s
  = (Normal tt,
     St.setIsProcessing false
       (St.pushToast
          (Toast.mk (lit "Error") (lit "Failed to load PDF. Please try again.")
             Toast.Destructive)
          (St.setProgress 10
             (St.setIsProcessing true (St.setFile (Some file) s))))).
Proof.
  intros Hok Hparsed. destruct (acceptable_passes_guards file Hok) as [H1 H2].
  unfold Session.onDrop. rewrite H1, H2. simpl negb. cbv iota.
  unfold Session.loadPdf, try_catch, bind, modify, await, toast.
  rewrite Hparsed. reflexivity.
Qed.

(** X11. Dropping an acceptable file that the parser reads starts a new
    session: the file and the document are stored, the page count is
    the document's, the current page is 1, the scale is 3/2, the runs
    are the extracted ones, no annotation is left from before, the
    progress display ends at 100 and idle, and exactly one toast, a
    non-destructive one, is added.  The editing mode, the selected tool
    and the ref cells are not reset. *)
Theorem drop_of_readable_file_starts_session :
  forall (file : File.t) (others : list File.t) (pdf : PdfDoc) (s : St.t),
    acceptable file ->
    File.parsed file = Some pdf ->
    let s' := exec (Session.onDrop (file :: others)) s in
    outcome (Session.onDrop (file :: others)) s = Normal tt
    /\ St.file s' = Some file
    /\ St.pdfDoc s' = Some pdf
    /\ St.totalPages s' = Z.of_nat (List.length pdf)
    /\ St.currentPage s' = 1%Z
    /\ St.scale s' = 3 # 2
    /\ St.textItems s' = Extract.extractTextFromPdf pdf
    /\ St.annotations s' = []
    /\ St.isProcessing s' = false
    /\ St.progress s' = 100
    /\ (exists t, St.toasts s' = St.toasts s ++ [t]
                  /\ Toast.kind t = Toast.Default)
    /\ St.editingMode s' = St.editingMode s
    /\ St.selectedTool s' = St.selectedTool s
    /\ St.isDrawingRef s' = St.isDrawingRef s
    /\ St.currentAnnotationRef s' = St.currentAnnotationRef s
    /\ St.canvasRef s' = St.canvasRef s.
Proof.
  intros file others pdf s Hok Hparsed s'. subst s'.
  unfold exec, outcome. rewrite (onDrop_loaded file others pdf s Hok Hparsed).
  simpl. repeat (split; [reflexivity|]).
  split; [|repeat split].
  eexists. split; reflexivity.
Qed.

Lemma drop_of_readable_file_starts_session_witness :
  let s' := exec (Session.onDrop [Sample.threePageFile]) Sample.onLastPage in
  outcome (Session.onDrop [Sample.threePageFile]) Sample.onLastPage = Normal tt
  /\ St.file s' = Some Sample.threePageFile
  /\ St.pdfDoc s' = Some Sample.threePages
  /\ St.totalPages s' = Z.of_nat (List.length Sample.threePages)
  /\ St.currentPage s' = 1%Z
  /\ St.scale s' = 3 # 2
  /\ St.textItems s' = Extract.extractTextFromPdf Sample.threePages
  /\ St.annotations s' = []
  /\ St.isProcessing s' = false
  /\ St.progress s' = 100
  /\ (exists t, St.toasts s' = St.toasts Sample.onLastPage ++ [t]
                /\ Toast.kind t = Toast.Default)
  /\ St.editingMode s' = St.editingMode Sample.onLastPage
  /\ St.selectedTool s' = St.selectedTool Sample.onLastPage
  /\ St.isDrawingRef s' = St.isDrawingRef Sample.onLastPage
  /\ St.currentAnnotationRef s' = St.currentAnnotationRef Sample.onLastPage
  /\ St.canvasRef s' = St.canvasRef Sample.onLastPage.
Proof.
  apply (drop_of_readable_file_starts_session Sample.threePageFile []
           Sample.threePages Sample.onLastPage).
  - split; [reflexivity|vm_compute; discriminate].
  - reflexivity.
Defined.

(** X12. Dropping an acceptable file that the parser rejects does not
    start a session, yet the file is stored: the handler returns
    normally with the new file in place, while the document, the page
    count, the current page, the scale, the runs and the annotations
    stay those of the previous session; the display is idle and one
    destructive toast is added. *)
Theorem drop_of_unreadable_file_keeps_old_document :
  forall (file : File.t) (others : list File.t) (s : St.t),
    acceptable file ->
    File.parsed file = None ->
    let s' := exec (Session.onDrop (file :: others)) s in
    outcome (Session.onDrop (file :: others)) s = Normal tt
    /\ St.file s' = Some file
    /\ St.pdfDoc s' = St.pdfDoc s
    /\ St.totalPages s' = St.totalPages s
    /\ St.currentPage s' = St.currentPage s
    /\ St.scale s' = St.scale s
    /\ St.textItems s' = St.textItems s
    /\ St.annotations s' = St.annotations s
    /\ St.isProcessing s' = false
    /\ (exists t, St.toasts s' = St.toasts s ++ [t]
                  /\ Toast.kind t = Toast.Destructive).
Proof.
  intros file others s Hok Hparsed s'. subst s'.
  unfold exec, outcome. rewrite (onDrop_unreadable file others s Hok Hparsed).
  simpl. repeat (split; [reflexivity|]).
  eexists. split; reflexivity.
Qed.

Lemma drop_of_unreadable_file_keeps_old_document_witness :
  let s' := exec (Session.onDrop [SampleSession.corruptFile]) Sample.loaded in
  outcome (Session.onDrop [SampleSession.corruptFile]) Sample.loaded = Normal tt
  /\ St.file s' = Some SampleSession.corruptFile
  /\ St.pdfDoc s' = St.pdfDoc Sample.loaded
  /\ St.totalPages s' = St.totalPages Sample.loaded
  /\ St.currentPage s' = St.currentPage Sample.loaded
  /\ St.scale s' = St.scale Sample.loaded
  /\ St.textItems s' = St.textItems Sample.loaded
  /\ St.annotations s' = St.annotations Sample.loaded
  /\ St.isProcessing s' = false
  /\ (exists t, St.toasts s' = St.toasts Sample.loaded ++ [t]
                /\ Toast.kind t = Toast.Destructive).
Proof.
  apply (drop_of_unreadable_file_keeps_old_document SampleSession.corruptFile
           [] Sample.loaded).
  - split; [reflexivity|vm_compute; discriminate].
  - reflexivity.
Defined.

(* ------------------------------------------------------------------ *)
(** ** What rendering leaves alone *)

Lemma sameData_refl (s : St.t) : sameData s s.
Proof. unfold sameData. repeat split. Qed.

Lemma sameData_trans (s1 s2 s3 : St.t) :
  sameData s1 s2 -> sameData s2 s3 -> sameData s1 s3.
Proof.
  unfold sameData. intros H12 H23.
  decompose [and] H12. decompose [and] H23.
  repeat split; congruence.
Qed.

Lemma keepsData_ret {A} (a : A) : keepsData (ret a).
Proof. intros s. apply sameData_refl. Qed.

Lemma keepsData_throw {A} (e : Exn) : keepsData (@throw A e).
Proof. intros s. apply sameData_refl. Qed.

Lemma keepsData_get : keepsData get.
Proof. intros s. apply sameData_refl. Qed.

Lemma keepsData_await {A} (e : Exn) (o : option A) : keepsData (await e o).
Proof. destruct o; [apply keepsData_ret|apply keepsData_throw]. Qed.

Lemma keepsData_valueOrThrow {A} (e : Exn) (o : option A) :
  keepsData (valueOrThrow e o).
Proof. destruct o; [apply keepsData_ret|apply keepsData_throw]. Qed.

Lemma keepsData_modify (f : St.t -> St.t) :
  (forall s, sameData s (f s)) -> keepsData (modify f).
Proof. intros H s. apply H. Qed.

Lemma keepsData_bind {A B} (m : M A) (k : A -> M B) :
  keepsData m -> (forall a, keepsData (k a)) -> keepsData (bind m k).
Proof.
  intros Hm Hk s. unfold bind. specialize (Hm s).
  destruct (m s) as [[a|e] s1]; simpl in *.
  - eapply sameData_trans; [exact Hm|apply Hk].
  - exact Hm.
Qed.

Lemma keepsData_try_catch {A} (body : M A) (handler : Exn -> M A) :
  keepsData body -> (forall e, keepsData (handler e)) ->
  keepsData (try_catch body handler).
Proof.
  intros Hb Hh s. unfold try_catch. specialize (Hb s).
  destruct (body s) as [[a|e] s1]; simpl in *.
  - exact Hb.
  - eapply sameData_trans; [exact Hb|apply Hh].
Qed.

Lemma setCanvas_sameData (c : option Canvas.t) (s : St.t) :
  sameData s (St.setCanvas c s).
Proof. unfold sameData. simpl. repeat split. Qed.

Lemma setAnnotationCanvas_sameData (c : option Canvas.t) (s : St.t) :
  sameData s (St.setAnnotationCanvas c s).
Proof. unfold sameData. simpl. repeat split. Qed.

Lemma setCurrentViewport_sameData (v : option Viewport.t) (s : St.t) :
  sameData s (St.setCurrentViewport v s).
Proof. unfold sameData. simpl. repeat split. Qed.

Lemma renderAnnotations_keepsData (pageIndex : Z) :
  keepsData (Annot.renderAnnotations pageIndex).
Proof.
  unfold Annot.renderAnnotations.
  apply keepsData_bind; [apply keepsData_get|]. intros s.
  destruct (St.annotationCanvasRef s); [|apply keepsData_ret].
  destruct (St.canvasRef s); [|apply keepsData_ret].
  apply keepsData_bind;
    [apply keepsData_modify; intros s'; apply setAnnotationCanvas_sameData|].
  intros _.
  apply keepsData_bind; [apply keepsData_valueOrThrow|].
  intros [|a l]; [apply keepsData_ret|].
  apply keepsData_modify; intros s'; apply setAnnotationCanvas_sameData.
Qed.

Lemma coverOriginalText_keepsData (snap : St.t) (pageIndex : Z) :
  keepsData (Render.coverOriginalText snap pageIndex).
Proof.
  unfold Render.coverOriginalText.
  apply keepsData_bind; [apply keepsData_get|]. intros s.
  destruct (St.canvasRef s); [|apply keepsData_ret].
  destruct (St.currentViewport snap); [|apply keepsData_ret].
  destruct (St.editingMode snap); try apply keepsData_ret.
  destruct (TextModel.getTextItemsForPage snap pageIndex);
    [apply keepsData_ret|].
  apply keepsData_modify; intros s'; apply setCanvas_sameData.
Qed.

Lemma renderPage_keepsData (pageNum : Z) : keepsData (Render.renderPage pageNum).
Proof.
  unfold Render.renderPage.
  apply keepsData_bind; [apply keepsData_get|]. intros s.
  destruct (St.pdfDoc s); [|apply keepsData_ret].
  destruct (St.canvasRef s); [|apply keepsData_ret].
  apply keepsData_try_catch; [|intros e; apply keepsData_ret].
  apply keepsData_bind; [apply keepsData_await|]. intros page.
  apply keepsData_bind;
    [apply keepsData_modify; intros s'; apply setCanvas_sameData|]. intros _.
  apply keepsData_bind.
  { destruct (pageNum =? St.currentPage s)%Z; [|apply keepsData_ret].
    apply keepsData_modify; intros s'; apply setCurrentViewport_sameData. }
  intros _. apply keepsData_bind.
  { apply keepsData_modify; intros s'.
    destruct (St.canvasRef s'); [apply setCanvas_sameData|apply sameData_refl]. }
  intros _. apply keepsData_bind.
  { destruct (pageNum =? St.currentPage s)%Z; [|apply keepsData_ret].
    destruct (St.editingMode s); try apply keepsData_ret.
    apply coverOriginalText_keepsData. }
  intros _.
  destruct (pageNum =? St.currentPage s)%Z; [|apply keepsData_ret].
  apply renderAnnotations_keepsData.
Qed.

Lemma runEffects_keepsData : keepsData Render.runEffects.
Proof.
  unfold Render.runEffects.
  apply keepsData_bind; [apply keepsData_get|]. intros s.
  destruct (Render.renderGuard s); [|apply keepsData_ret].
  apply keepsData_bind; [apply renderAnnotations_keepsData|]. intros _.
  apply renderPage_keepsData.
Qed.

(** ** Where a [null] entry is fatal *)

Lemma annotationsForPage_null (pageIndex : Z) (l : list (option Annotation.t)) :
  In None l -> Annot.annotationsForPage pageIndex l = None.
Proof.
  induction l as [|[a|] l IH]; simpl; intros Hin.
  - contradiction.
  - destruct Hin as [Hin|Hin]; [discriminate|]. now rewrite (IH Hin).
  - reflexivity.
Qed.

Lemma annotationsForPage_total (pageIndex : Z) (l : list (option Annotation.t)) :
  ~ In None l -> exists kept, Annot.annotationsForPage pageIndex l = Some kept.
Proof.
  induction l as [|[a|] l IH]; simpl; intros Hnone.
  - now exists [].
  - destruct IH as [kept ->]; [tauto|]. eexists. reflexivity.
  - exfalso. apply Hnone. now left.
Qed.

Lemma renderAnnotations_returns (pageIndex : Z) (s : St.t) :
  ~ In None (St.annotations s) ->
  outcome (Annot.renderAnnotations pageIndex) s = Normal tt.
Proof.
  intros Hnone.
  destruct (annotationsForPage_total pageIndex _ Hnone) as [kept Hkept].
  unfold outcome, Annot.renderAnnotations, bind, get, modify, valueOrThrow.
  destruct (St.annotationCanvasRef s); [|reflexivity].
  destruct (St.canvasRef s); [|reflexivity].
  rewrite Hkept. destruct kept; reflexivity.
Qed.

Lemma renderAnnotations_throws (pageIndex : Z) (s : St.t) :
  In None (St.annotations s) ->
  St.annotationCanvasRef s <> None ->
  St.canvasRef s <> None ->
  outcome (Annot.renderAnnotations pageIndex) s = Abrupt TypeError.
Proof.
  intros Hnull Hoverlay Hcanvas.
  unfold outcome, Annot.renderAnnotations, bind, get, modify, valueOrThrow.
  destruct (St.annotationCanvasRef s); [|contradiction].
  destruct (St.canvasRef s); [|contradiction].
  now rewrite (annotationsForPage_null pageIndex _ Hnull).
Qed.

Lemma renderPage_returns (pageNum : Z) (s : St.t) :
  outcome (Render.renderPage pageNum) s = Normal tt.
Proof.
  unfold outcome, Render.renderPage, bind, get.
  destruct (St.pdfDoc s); [|reflexivity].
  destruct (St.canvasRef s); [|reflexivity].
  unfold try_catch.
  match goal with |- fst (match ?body with _ => _ end) = _ =>
    destruct body as [[[]|e] s1] end; reflexivity.
Qed.

Lemma runEffects_throws (s : St.t) :
  In None (St.annotations s) ->
  Render.renderGuard s = true ->
  St.annotationCanvasRef s <> None ->
  St.canvasRef s <> None ->
  outcome Render.runEffects s = Abrupt TypeError.
Proof.
  intros Hnull Hguard Hoverlay Hcanvas.
  pose proof (renderAnnotations_throws (St.currentPage s - 1) s
                Hnull Hoverlay Hcanvas) as Hthrow.
  unfold outcome, Render.runEffects, bind, get in *. rewrite Hguard.
  destruct (Annot.renderAnnotations (St.currentPage s - 1) s) as [[[]|e] s1];
    simpl in Hthrow; [discriminate|exact Hthrow].
Qed.

(** X13. Rendering is display only, and it is where a [null] entry of
    the annotation list is fatal.  The two effects change neither the
    file, the document, the current page, the page count, the scale,
    the runs, the annotations, the mode, the tool nor the gesture in
    progress, whatever the state they start from and however they end.
    [renderPage] always returns (it catches what its body throws).  The
    effects return when the annotation list holds no [null]; when it
    holds one, a document is loaded and both canvases are mounted, the
    annotation effect throws a [TypeError], which nothing catches. *)
Theorem rendering_changes_no_data :
  forall s : St.t,
    sameData s (exec Render.runEffects s)
    /\ (forall pageNum,
           outcome (Render.renderPage pageNum) s = Normal tt
           /\ sameData s (exec (Render.renderPage pageNum) s))
    /\ (~ In None (St.annotations s) ->
        outcome Render.runEffects s = Normal tt)
    /\ (In None (St.annotations s) ->
        Render.renderGuard s = true ->
        St.annotationCanvasRef s <> None ->
        St.canvasRef s <> None ->
        outcome Render.runEffects s = Abrupt TypeError).
Proof.
  intros s. split; [apply runEffects_keepsData|].
  split; [intros pageNum; split;
          [apply renderPage_returns|apply renderPage_keepsData]|].
  split; [|apply runEffects_throws].
  intros Hnone.
  pose proof (renderAnnotations_returns (St.currentPage s - 1) s Hnone)
    as Hreturns.
  unfold outcome, Render.runEffects, bind, get in *.
  destruct (Render.renderGuard s); [|reflexivity].
  destruct (Annot.renderAnnotations (St.currentPage s - 1) s) as [[[]|e] s1];
    simpl in Hreturns; [|discriminate].
  apply renderPage_returns.
Qed.

Lemma rendering_changes_no_data_witness :
  outcome Render.runEffects Sample.loaded = Normal tt
  /\ outcome Render.runEffects SampleGesture.committed = Abrupt TypeError.
Proof.
  split.
  - apply (proj1 (proj2 (proj2 (rendering_changes_no_data Sample.loaded)))).
    vm_compute. tauto.
  - apply (proj2 (proj2 (proj2 (rendering_changes_no_data
                                  SampleGesture.committed)))).
    + vm_compute. left. reflexivity.
    + vm_compute. reflexivity.
    + vm_compute. discriminate.
    + vm_compute. discriminate.
Defined.

(* ------------------------------------------------------------------ *)
(** ** Annotation gestures *)

Lemma reported_run (handler : M unit) (s : St.t) :
  reported handler s = (Normal tt, exec handler s).
Proof.
  unfold reported, try_catch, exec, ret.
  destruct (handler s) as [[[]|e] s1]; reflexivity.
Qed.






(** X18. Outside a gesture the mouse handlers are inert: mouse down
    with the pointer tool, a move without a gesture in progress and a
    mouse up without one all return with the state they found; and a
    second mouse up (or the mouse leaving the canvas right after mouse
    up) commits nothing more. *)
Theorem mouse_handlers_outside_a_gesture :
  forall (e : Annot.MouseEvent) (now : Z) (s : St.t),
    (St.selectedTool s = PointerTool ->
     Annot.handleAnnotationStart e now s = (Normal tt, s))
    /\ (St.isDrawingRef s = false ->
        Annot.handleAnnotationMove e s = (Normal tt, s)
        /\ Annot.handleAnnotationEnd s = (Normal tt, s))
    /\ (Annot.handleAnnotationEnd ;; Annot.handleAnnotationEnd) s
       = Annot.handleAnnotationEnd s.
Proof.
  intros e now s. split; [|split].
  - intros Htool. unfold Annot.handleAnnotationStart, bind, get.
    now rewrite Htool.
  - intros Hd. split.
    + unfold Annot.handleAnnotationMove, bind, get. now rewrite Hd.
    + unfold Annot.handleAnnotationEnd, bind, get, modify. rewrite Hd.
      destruct s; simpl in *; subst; reflexivity.
  - unfold Annot.handleAnnotationEnd, bind, get, modify.
    destruct (St.isDrawingRef s) eqn:Hd;
      [destruct (St.currentAnnotationRef s) eqn:Hcur|]; simpl; reflexivity.
Qed.

(** X19. A rectangle or a circle is drawn from the first and the last
    point of its path alone: the points in between do not matter, and a
    path of a single point (a click without a drag) draws nothing,
    whatever the type of the annotation. *)
Theorem shapes_use_end_points_only :
  forall (id colour : jsstring) (pageIndex : Z) (ty : AnnotationType)
         (first last : Point) (between : list Point),
    (ty = RectangleMark \/ ty = CircleMark ->
     Annot.drawAnnotation
       (Annotation.mk id ty (first :: between ++ [last]) colour pageIndex)
     = Annot.drawAnnotation
         (Annotation.mk id ty [first; last] colour pageIndex))
    /\ Annot.drawAnnotation (Annotation.mk id ty [first] colour pageIndex) = [].
Proof.
  intros id colour pageIndex ty first last between.
  assert (Hlast : Annot.lastPoint (first :: between ++ [last]) = last).
  { unfold Annot.lastPoint.
    change (first :: between ++ [last]) with ((first :: between) ++ [last]).
    apply last_last. }
  assert (Hlen : (2 <=? List.length (first :: between ++ [last]))%nat = true).
  { apply Nat.leb_le. simpl. rewrite length_app. simpl. lia. }
  split.
  - intros [-> | ->]; unfold Annot.drawAnnotation;
      cbn [Annotation.type Annotation.path Annotation.color];
      rewrite Hlen, Hlast; reflexivity.
  - destruct ty; reflexivity.
Qed.

(* ------------------------------------------------------------------ *)
(** ** Export as a whole *)

Lemma setProgress_same (s : St.t) : St.setProgress (St.progress s) s = s.
Proof. destruct s; reflexivity. Qed.

Lemma exportPagesFrom_state (primaryDraws fallbackDraws : TextItem.t -> bool)
    (textItems : list TextItem.t) (pageCount : Z) (sizes : list (Q * Q)) :
  forall (pageIndex : Z) (s : St.t),
  exists p : Q,
    snd (PdfExport.exportPagesFrom primaryDraws fallbackDraws textItems
           pageCount pageIndex sizes s)
    = St.setProgress p s.
Proof.
  induction sizes as [|size sizes IH]; intros pageIndex s.
  - exists (St.progress s). simpl. now rewrite setProgress_same.
  - cbn [PdfExport.exportPagesFrom].
    unfold bind at 1. unfold modify at 1. unfold bind at 1.
    set (s1 := St.setProgress _ s).
    destruct (IH (pageIndex + 1)%Z s1) as [p Hp].
    destruct (exportPagesFrom_pages primaryDraws fallbackDraws textItems
                pageCount sizes (pageIndex + 1)%Z s1)
      as [pages [s2 [Hrun _]]].
    rewrite Hrun in *. simpl in Hp. subst s2. exists p. reflexivity.
Qed.

Lemma exportPagesFrom_built (primaryDraws fallbackDraws : TextItem.t -> bool)
    (textItems : list TextItem.t) (pageCount : Z) (sizes : list (Q * Q)) :
  forall (pageIndex : Z) (s : St.t),
    fst (PdfExport.exportPagesFrom primaryDraws fallbackDraws textItems
           pageCount pageIndex sizes s)
    = Normal (builtPagesFrom primaryDraws fallbackDraws textItems pageIndex
                sizes).
Proof.
  induction sizes as [|size sizes IH]; intros pageIndex s; [reflexivity|].
  cbn [PdfExport.exportPagesFrom builtPagesFrom].
  unfold bind at 1. unfold modify at 1. unfold bind at 1.
  set (s1 := St.setProgress _ s).
  specialize (IH (pageIndex + 1)%Z s1).
  destruct (PdfExport.exportPagesFrom _ _ _ _ _ sizes s1) as [[pages|e] s2];
    simpl in IH; [|discriminate].
  injection IH as ->. reflexivity.
Qed.

(** Export as a function of the state it starts from. *)
Lemma exportPdf_run (primaryDraws fallbackDraws : TextItem.t -> bool)
    (saveSucceeds : bool) (s : St.t) :
  PdfExport.exportPdf primaryDraws fallbackDraws saveSucceeds s
  = (Normal (exportResult primaryDraws fallbackDraws saveSucceeds s),
     exportFinalState saveSucceeds s).
Proof.
  unfold PdfExport.exportPdf, exportResult, exportFinalState.
  unfold bind at 1. unfold get at 1.
  destruct (St.file s) as [file|] eqn:Hfile; [|reflexivity].
  destruct (St.pdfDoc s) as [pdf|] eqn:Hdoc; [|reflexivity].
  unfold try_catch. unfold bind at 1. unfold modify at 1.
  unfold bind at 1. unfold modify at 1. unfold bind at 1.
  destruct (File.libPages file) as [sizes|] eqn:Hsizes; [|reflexivity].
  unfold await, ret at 1. unfold bind at 1. unfold modify at 1.
  unfold bind at 1.
  match goal with
  | |- context [PdfExport.exportPagesFrom _ _ ?items ?count ?idx ?sz ?st] =>
      destruct (exportPagesFrom_pages primaryDraws fallbackDraws items count
                  sz idx st) as [pages [s' [Hrun _]]];
      destruct (exportPagesFrom_state primaryDraws fallbackDraws items count
                  sz idx st) as [p Hp];
      pose proof (exportPagesFrom_built primaryDraws fallbackDraws items
                    count sz idx st) as Hbuilt
  end.
  rewrite Hrun in *. simpl in Hp, Hbuilt. subst s'.
  injection Hbuilt as ->.
  unfold bind at 1. unfold modify at 1. unfold bind at 1.
  destruct saveSucceeds; reflexivity.
Qed.

Lemma exportable_iff (primaryDraws fallbackDraws : TextItem.t -> bool)
    (saveSucceeds : bool) (s : St.t) :
  exportResult primaryDraws fallbackDraws saveSucceeds s <> None
  <-> exportable saveSucceeds s.
Proof.
  unfold exportResult, exportable. split.
  - destruct (St.file s) as [file|]; [|congruence].
    destruct (St.pdfDoc s) as [pdf|]; [|congruence].
    destruct (File.libPages file) as [sizes|] eqn:Hsizes; [|congruence].
    destruct saveSucceeds; [|congruence].
    intros _. exists file, sizes. repeat split; auto. congruence.
  - intros [file [sizes [-> [Hdoc [Hsizes ->]]]]].
    destruct (St.pdfDoc s); [|congruence]. rewrite Hsizes. congruence.
Qed.

(** X20. Export never throws and touches nothing but the progress
    display: whichever way it ends, the file, the document, the runs,
    the annotations, the page, the scale, the mode, the canvases and the
    viewport are as before, and exactly one toast is added, which is
    non-destructive exactly when a document was produced. *)
Theorem export_changes_only_the_progress_display :
  forall (primaryDraws fallbackDraws : TextItem.t -> bool)
         (saveSucceeds : bool) (s : St.t),
  exists (result : option (list PdfExport.LibPage.t)) (t : Toast.t),
    outcome (PdfExport.exportPdf primaryDraws fallbackDraws saveSucceeds) s
    = Normal result
    /\ sameButProgress s
         (exec (PdfExport.exportPdf primaryDraws fallbackDraws saveSucceeds) s)
    /\ St.toasts
         (exec (PdfExport.exportPdf primaryDraws fallbackDraws saveSucceeds) s)
       = St.toasts s ++ [t]
    /\ (Toast.kind t = Toast.Default <-> result <> None).
Proof.
  intros primaryDraws fallbackDraws saveSucceeds s. unfold outcome, exec.
  rewrite exportPdf_run. simpl.
  unfold exportResult, exportFinalState.
  destruct (St.file s) as [file|];
    [destruct (St.pdfDoc s) as [pdf|];
     [destruct (File.libPages file) as [sizes|];
      [destruct saveSucceeds|]|]|];
    eexists; eexists; (split; [reflexivity|]);
    (split; [unfold sameButProgress, sameData; simpl; repeat split|]);
    (split; [reflexivity|]); simpl; split; congruence.
Qed.

(** X21. Export produces a document exactly when a file and a document
    are in the session, the document builder reads the file and saving
    succeeds; in every other case it produces nothing, and when
    something is loaded the display is idle again afterwards. *)
Theorem export_produces_a_document_iff :
  forall (primaryDraws fallbackDraws : TextItem.t -> bool)
         (saveSucceeds : bool) (s : St.t),
    ((exists pages,
         outcome (PdfExport.exportPdf primaryDraws fallbackDraws saveSucceeds) s
         = Normal (Some pages))
     <-> exportable saveSucceeds s)
    /\ (St.file s <> None -> St.pdfDoc s <> None ->
        St.isProcessing
          (exec (PdfExport.exportPdf primaryDraws fallbackDraws saveSucceeds) s)
        = false).
Proof.
  intros primaryDraws fallbackDraws saveSucceeds s. unfold outcome, exec.
  rewrite exportPdf_run. simpl. split.
  - rewrite <- (exportable_iff primaryDraws fallbackDraws). split.
    + intros [pages H]. injection H as H. congruence.
    + intros H.
      destruct (exportResult primaryDraws fallbackDraws saveSucceeds s)
        as [pages|]; [now exists pages|contradiction].
  - intros Hfile Hdoc. unfold exportFinalState.
    destruct (St.file s) as [file|]; [|contradiction].
    destruct (St.pdfDoc s) as [pdf|]; [|contradiction].
    destruct (File.libPages file); [destruct saveSucceeds|]; reflexivity.
Qed.

Lemma exportPdf_outcome (primaryDraws fallbackDraws : TextItem.t -> bool)
    (saveSucceeds : bool) (s : St.t) :
  outcome (PdfExport.exportPdf primaryDraws fallbackDraws saveSucceeds) s
  = Normal (exportResult primaryDraws fallbackDraws saveSucceeds s).
Proof. unfold outcome. now rewrite exportPdf_run. Qed.

(** X22. Export is repeatable: a second export right after the first
    produces the same result, since the first one changed nothing it
    reads. *)
Theorem export_is_repeatable :
  forall (primaryDraws fallbackDraws : TextItem.t -> bool)
         (saveSucceeds : bool) (s : St.t),
    outcome (PdfExport.exportPdf primaryDraws fallbackDraws saveSucceeds)
      (exec (PdfExport.exportPdf primaryDraws fallbackDraws saveSucceeds) s)
    = outcome (PdfExport.exportPdf primaryDraws fallbackDraws saveSucceeds) s.
Proof.
  intros primaryDraws fallbackDraws saveSucceeds s.
  rewrite !exportPdf_outcome. f_equal. unfold exec.
  rewrite exportPdf_run. simpl. unfold exportResult, exportFinalState.
  destruct (St.file s) as [file|] eqn:Hfile;
    [destruct (St.pdfDoc s) as [pdf|] eqn:Hdoc;
     [destruct (File.libPages file) as [sizes|] eqn:Hsizes;
      [destruct saveSucceeds|]|]|];
    simpl; rewrite ?Hfile, ?Hdoc, ?Hsizes; reflexivity.
Qed.

(** X23. The exported document does not depend on the view: the
    current page, the scale, the mode, the tool and the annotations can
    be anything without changing the result.  In particular
    annotations never reach the exported document. *)
Theorem export_ignores_view_and_annotations :
  forall (primaryDraws fallbackDraws : TextItem.t -> bool)
         (saveSucceeds : bool) (s : St.t) (page : Z) (scale : Q)
         (mode : EditingMode) (tool : Tool)
         (annotations : list (option Annotation.t)),
    outcome (PdfExport.exportPdf primaryDraws fallbackDraws saveSucceeds)
      (withView page scale mode tool annotations s)
    = outcome (PdfExport.exportPdf primaryDraws fallbackDraws saveSucceeds) s.
Proof.
  intros. rewrite !exportPdf_outcome. reflexivity.
Qed.

Lemma builtPagesFrom_pages (primaryDraws fallbackDraws : TextItem.t -> bool)
    (textItems : list TextItem.t) (sizes : list (Q * Q)) :
  forall pageIndex : Z,
    List.map pageSize
      (builtPagesFrom primaryDraws fallbackDraws textItems pageIndex sizes)
    = sizes
    /\ forall (i : nat) (page : PdfExport.LibPage.t),
        nth_error
          (builtPagesFrom primaryDraws fallbackDraws textItems pageIndex sizes) i
        = Some page ->
        PdfExport.LibPage.ops page
        = PdfExport.pageOps primaryDraws fallbackDraws
            (PdfExport.LibPage.height page)
            (TextModel.itemsForPage (pageIndex + Z.of_nat i) textItems).
Proof.
  induction sizes as [|[w h] sizes IH]; intros pageIndex; simpl.
  - split; [reflexivity|]. intros [|i] page H; discriminate.
  - destruct (IH (pageIndex + 1)%Z) as [Hsizes Hops]. split.
    + unfold pageSize at 1. simpl. now rewrite Hsizes.
    + intros [|i] page H; simpl in H.
      * injection H as <-. simpl. now rewrite Z.add_0_r.
      * rewrite (Hops i page H). do 2 f_equal. lia.
Qed.

(** X24. An exported document has the pages of the file it was built
    from, in order and each with its original size: export adds,
    removes and resizes no page, and a page without runs receives no
    drawing operator at all. *)
Theorem export_keeps_the_pages :
  forall (primaryDraws fallbackDraws : TextItem.t -> bool)
         (saveSucceeds : bool) (s : St.t) (file : File.t)
         (sizes : list (Q * Q)) (pages : list PdfExport.LibPage.t),
    St.file s = Some file ->
    File.libPages file = Some sizes ->
    outcome (PdfExport.exportPdf primaryDraws fallbackDraws saveSucceeds) s
    = Normal (Some pages) ->
    List.map pageSize pages = sizes
    /\ forall (i : nat) (page : PdfExport.LibPage.t),
        nth_error pages i = Some page ->
        TextModel.itemsForPage (Z.of_nat i) (St.textItems s) = [] ->
        PdfExport.LibPage.ops page = [].
Proof.
  intros primaryDraws fallbackDraws saveSucceeds s file sizes pages
    Hfile Hsizes Hout.
  rewrite exportPdf_outcome in Hout. injection Hout as Hout.
  unfold exportResult in Hout. rewrite Hfile, Hsizes in Hout.
  destruct (St.pdfDoc s); [|discriminate].
  destruct saveSucceeds; [|discriminate].
  injection Hout as <-.
  destruct (builtPagesFrom_pages primaryDraws fallbackDraws (St.textItems s)
              sizes 0%Z) as [Hmap Hops].
  split; [exact Hmap|].
  intros i page Hpage Hnone. rewrite (Hops i page Hpage).
  simpl. rewrite Hnone. reflexivity.
Qed.

Lemma export_keeps_the_pages_witness :
  List.map pageSize SampleExport.pages = [(200, 200); (200, 200); (200, 200)]
  /\ forall (i : nat) (page : PdfExport.LibPage.t),
      nth_error SampleExport.pages i = Some page ->
      TextModel.itemsForPage (Z.of_nat i) (St.textItems SampleExport.edited) = [] ->
      PdfExport.LibPage.ops page = [].
Proof.
  apply (export_keeps_the_pages SampleExport.accepts SampleExport.accepts true
           SampleExport.edited Sample.threePageFile
           [(200, 200); (200, 200); (200, 200)] SampleExport.pages).
  - vm_compute. reflexivity.
  - reflexivity.
  - vm_compute. reflexivity.
Defined.

(** X25. "New PDF" empties the session: the file, the document, the
    runs and the annotations are gone, nothing is rendered any more and
    the overlay is empty, and an export attempted in that state produces
    nothing and only reports that no PDF is loaded.  The current page,
    the page count, the scale, the mode and the tool are left as they
    were. *)
Theorem new_pdf_empties_the_session :
  forall (primaryDraws fallbackDraws : TextItem.t -> bool)
         (saveSucceeds : bool) (s : St.t),
    let s' := exec Session.handleNewPdf s in
    St.file s' = None /\ St.pdfDoc s' = None
    /\ St.textItems s' = [] /\ St.annotations s' = []
    /\ Render.renderGuard s' = false
    /\ Overlay.textOverlay s' = []
    /\ St.currentPage s' = St.currentPage s
    /\ St.totalPages s' = St.totalPages s
    /\ St.scale s' = St.scale s
    /\ St.editingMode s' = St.editingMode s
    /\ St.selectedTool s' = St.selectedTool s
    /\ PdfExport.exportPdf primaryDraws fallbackDraws saveSucceeds s'
       = (Normal None,
          St.pushToast
            (Toast.mk (lit "No PDF loaded") (lit "Please upload a PDF first")
               Toast.Destructive) s').
Proof.
  intros primaryDraws fallbackDraws saveSucceeds s. simpl.
  repeat (split; [reflexivity|]).
  split; [unfold Overlay.textOverlay; simpl; now destruct (St.editingMode s)|].
  repeat (split; [reflexivity|]).
  reflexivity.
Qed.

(* ------------------------------------------------------------------ *)
(** ** Sequences of events *)

Lemma runEvents_cons (ev : Event) (rest : list Event) (s : St.t) :
  runEvents (ev :: rest) s
  = match outcome (dispatch ev) s with
    | Normal _ => runEvents rest (exec (dispatch ev) s)
    | Abrupt _ => exec (dispatch ev) s
    end.
Proof.
  unfold runEvents, exec, outcome. cbn [run]. unfold bind.
  destruct (dispatch ev s) as [[[]|e] s1]; reflexivity.
Qed.

Lemma dispatch_step (P : St.t -> Prop) (ev : Event) (s : St.t) :
  P s ->
  (St.file s <> None -> P (exec (handlerOf ev) s)) ->
  P (exec Render.runEffects s) ->
  P (exec (dispatch ev) s).
Proof.
  intros Hs Hhandler Heffects.
  destruct ev;
    [unfold exec, dispatch, bind, get;
     (destruct (St.file s) eqn:Hfile;
      [rewrite reported_run; apply Hhandler; congruence|exact Hs]) ..
    |exact Heffects].
Qed.


Lemma exportFinalState_sameData (saveSucceeds : bool) (s : St.t) :
  sameData s (exportFinalState saveSucceeds s).
Proof.
  unfold exportFinalState.
  destruct (St.file s) as [file|];
    [destruct (St.pdfDoc s) as [pdf|];
     [destruct (File.libPages file) as [sizes|];
      [destruct saveSucceeds|]|]|];
    unfold sameData; simpl; repeat split.
Qed.

Lemma export_click_keepsData (primaryDraws fallbackDraws : TextItem.t -> bool)
    (saveSucceeds : bool) :
  keepsData (handlerOf (ExportButton primaryDraws fallbackDraws saveSucceeds)).
Proof.
  intros s. unfold handlerOf, bind, get.
  destruct (St.isProcessing s); [apply sameData_refl|].
  rewrite exportPdf_run. simpl. apply exportFinalState_sameData.
Qed.

(* ------------------------------------------------------------------ *)
(** ** What a session keeps *)












(** ** The scale under the zoom buttons *)

Lemma zoomIn_in_range (scale : Q) :
  zoomInRange scale -> zoomInRange (Qmin (scale + (1 # 4)) 3).
Proof.
  intros [Hlo Hhi]. unfold zoomInRange.
  destruct (Q.min_spec (scale + (1 # 4)) 3) as [[H1 H2]|[H1 H2]];
    rewrite H2; lra.
Qed.

Lemma zoomOut_in_range (scale : Q) :
  zoomInRange scale -> zoomInRange (Qmax (scale - (1 # 4)) (1 # 2)).
Proof.
  intros [Hlo Hhi]. unfold zoomInRange.
  destruct (Q.max_spec (scale - (1 # 4)) (1 # 2)) as [[H1 H2]|[H1 H2]];
    rewrite H2; lra.
Qed.

Lemma handler_keeps_zoom_range (ev : Event) (s : St.t) :
  isFit ev = false ->
  zoomInRange (St.scale s) ->
  zoomInRange (St.scale (exec (handlerOf ev) s)).
Proof.
  intros Hfit Hrange.
  assert (Hsame : forall m : M unit, keepsData m ->
                    zoomInRange (St.scale (exec m s))).
  { intros m Hm. destruct (Hm s) as [_ [_ [_ [_ [Hscale _]]]]].
    unfold exec. now rewrite Hscale. }
  destruct ev as [c| | | | | | | |c|k textContent|e now|e| | |p f ok| |];
    try discriminate; try (apply Hsame; apply export_click_keepsData);
    unfold exec, handlerOf.
  - destruct c as [| |k]; simpl.
    + unfold Session.clickPrevious, Session.click, bind, get.
      destruct (Session.previousDisabled s); exact Hrange.
    + unfold Session.clickNext, Session.click, bind, get.
      destruct (Session.nextDisabled s); exact Hrange.
    + unfold Session.clickSidebar, bind, get.
      destruct (nth_error (Session.sidebarPages s) k); exact Hrange.
  - now apply zoomIn_in_range.
  - now apply zoomOut_in_range.
  - exact Hrange.
  - exact Hrange.
  - exact Hrange.
  - unfold bind, get. destruct (St.editingMode s); exact Hrange.
  - unfold bind, get.
    destruct (nth_error (Overlay.textOverlay s) k); exact Hrange.
  - unfold bind at 1. unfold get at 1.
    destruct (St.editingMode s); try exact Hrange.
    unfold Annot.handleAnnotationStart, bind, get.
    destruct (St.selectedTool s); try exact Hrange;
      destruct (St.annotationCanvasRef s); exact Hrange.
  - unfold bind at 1. unfold get at 1.
    destruct (St.editingMode s); try exact Hrange.
    unfold Annot.handleAnnotationMove. unfold bind at 1. unfold get at 1.
    destruct (St.isDrawingRef s); [|exact Hrange].
    destruct (St.annotationCanvasRef s) as [canvas|]; [|exact Hrange].
    destruct (St.currentAnnotationRef s) as [cur|]; [|exact Hrange].
    unfold bind at 1. unfold modify at 1.
    match goal with |- zoomInRange (St.scale (snd (?m ?s1))) =>
      destruct (renderAnnotations_keepsData (St.currentPage s - 1) s1)
        as [_ [_ [_ [_ [Hscale _]]]]] end.
    rewrite Hscale. exact Hrange.
  - unfold bind at 1. unfold get at 1.
    destruct (St.editingMode s); try exact Hrange.
    unfold Annot.handleAnnotationEnd, bind, get.
    destruct (St.isDrawingRef s);
      [destruct (St.currentAnnotationRef s)|]; exact Hrange.
  - unfold bind at 1. unfold get at 1.
    destruct (St.editingMode s); try exact Hrange.
    unfold Annot.handleAnnotationEnd, bind, get.
    destruct (St.isDrawingRef s);
      [destruct (St.currentAnnotationRef s)|]; exact Hrange.
  - exact Hrange.
  - exact Hrange.
Qed.

Lemma dispatch_keeps_zoom_range (ev : Event) (s : St.t) :
  isFit ev = false ->
  zoomInRange (St.scale s) ->
  zoomInRange (St.scale (exec (dispatch ev) s)).
Proof.
  intros Hfit Hrange.
  apply (dispatch_step (fun s' => zoomInRange (St.scale s'))).
  - exact Hrange.
  - intros _. now apply handler_keeps_zoom_range.
  - destruct (runEffects_keepsData s) as [_ [_ [_ [_ [Hscale _]]]]].
    unfold exec. now rewrite Hscale.
Qed.

(** X15. As long as the two fit buttons are not used, the scale stays
    within [1/2, 3] through any sequence of user events: only the zoom
    buttons change it, and they clamp. *)
Theorem scale_stays_in_range_without_fit :
  forall (events : list Event) (s : St.t),
    Forall (fun ev => isFit ev = false) events ->
    zoomInRange (St.scale s) ->
    zoomInRange (St.scale (runEvents events s)).
Proof.
  induction events as [|ev events IH]; intros s Hfit Hrange;
    [exact Hrange|].
  inversion Hfit; subst. rewrite runEvents_cons.
  assert (Hstep : zoomInRange (St.scale (exec (dispatch ev) s)))
    by now apply dispatch_keeps_zoom_range.
  destruct (outcome (dispatch ev) s); [now apply IH|exact Hstep].
Qed.

Lemma scale_stays_in_range_without_fit_witness :
  zoomInRange (St.scale (runEvents SampleSession.zoomEvents Sample.loaded)).
Proof.
  apply (scale_stays_in_range_without_fit SampleSession.zoomEvents Sample.loaded).
  - repeat constructor.
  - unfold zoomInRange. vm_compute. split; discriminate.
Defined.

(** ** Committed entries *)






(* ------------------------------------------------------------------ *)
(** ** Zoom, fit and navigation in sequence *)

Lemma times_zoomIn (n : nat) :
  forall s : St.t,
    St.scale s <= 3 ->
    St.scale (exec (times n Session.handleZoomIn) s)
    == Qmin (St.scale s + inject_Z (Z.of_nat n) * (1 # 4)) 3.
Proof.
  induction n as [|n IH]; intros s Hhi.
  - unfold exec. simpl.
    rewrite Q.min_l; [ring|]. change (inject_Z 0) with 0. lra.
  - unfold exec. cbn [times]. unfold bind at 1.
    unfold Session.handleZoomIn at 1. unfold modify at 1.
    set (s1 := St.setScale (math_min (St.scale s + (1 # 4)) 3) s).
    assert (H1 : St.scale s1 <= 3) by (simpl; apply Q.le_min_r).
    specialize (IH s1 H1). unfold exec in IH. rewrite IH.
    simpl St.scale. unfold math_min.
    rewrite Nat2Z.inj_succ, <- Z.add_1_r, inject_Z_plus.
    change (inject_Z 1) with 1.
    assert (Hn' : 0 <= inject_Z (Z.of_nat n)).
    { change 0 with (inject_Z 0). rewrite <- Zle_Qle. lia. }
    destruct (Q.min_spec (St.scale s + (1 # 4)) 3) as [[Ha Hb]|[Ha Hb]];
      destruct (Q.min_spec
                  (Qmin (St.scale s + (1 # 4)) 3
                   + inject_Z (Z.of_nat n) * (1 # 4)) 3)
        as [[Hc Hd]|[Hc Hd]];
      destruct (Q.min_spec
                  (St.scale s + (inject_Z (Z.of_nat n) + 1) * (1 # 4)) 3)
        as [[He Hf]|[He Hf]]; lra.
Qed.

Lemma times_zoomOut (n : nat) :
  forall s : St.t,
    1 # 2 <= St.scale s ->
    St.scale (exec (times n Session.handleZoomOut) s)
    == Qmax (St.scale s - inject_Z (Z.of_nat n) * (1 # 4)) (1 # 2).
Proof.
  induction n as [|n IH]; intros s Hlo.
  - unfold exec. simpl.
    rewrite Q.max_l; [ring|]. change (inject_Z 0) with 0. lra.
  - unfold exec. cbn [times]. unfold bind at 1.
    unfold Session.handleZoomOut at 1. unfold modify at 1.
    set (s1 := St.setScale (math_max (St.scale s - (1 # 4)) (1 # 2)) s).
    assert (H1 : 1 # 2 <= St.scale s1) by (simpl; apply Q.le_max_r).
    specialize (IH s1 H1). unfold exec in IH. rewrite IH.
    simpl St.scale. unfold math_max.
    rewrite Nat2Z.inj_succ, <- Z.add_1_r, inject_Z_plus.
    change (inject_Z 1) with 1.
    assert (Hn' : 0 <= inject_Z (Z.of_nat n)).
    { change 0 with (inject_Z 0). rewrite <- Zle_Qle. lia. }
    destruct (Q.max_spec (St.scale s - (1 # 4)) (1 # 2)) as [[Ha Hb]|[Ha Hb]];
      destruct (Q.max_spec
                  (Qmax (St.scale s - (1 # 4)) (1 # 2)
                   - inject_Z (Z.of_nat n) * (1 # 4)) (1 # 2))
        as [[Hc Hd]|[Hc Hd]];
      destruct (Q.max_spec
                  (St.scale s - (inject_Z (Z.of_nat n) + 1) * (1 # 4)) (1 # 2))
        as [[He Hf]|[He Hf]]; lra.
Qed.

(** X26. From any scale in [1/2, 3], ten clicks on "zoom in" reach the
    largest scale 3 and ten clicks on "zoom out" the smallest scale
    1/2, where further clicks change nothing. *)
Theorem zoom_limits_are_reached :
  forall s : St.t,
    zoomInRange (St.scale s) ->
    (forall n, (10 <= n)%nat ->
       St.scale (exec (times n Session.handleZoomIn) s) == 3)
    /\ (forall n, (10 <= n)%nat ->
          St.scale (exec (times n Session.handleZoomOut) s) == 1 # 2).
Proof.
  intros s [Hlo Hhi].
  assert (Hbig : forall n, (10 <= n)%nat -> 10 <= inject_Z (Z.of_nat n)).
  { intros n Hn. change 10 with (inject_Z 10). rewrite <- Zle_Qle. lia. }
  split.
  - intros n Hn. rewrite (times_zoomIn n s Hhi).
    specialize (Hbig n Hn). apply Q.min_r. lra.
  - intros n Hn. rewrite (times_zoomOut n s Hlo).
    specialize (Hbig n Hn). apply Q.max_r. lra.
Qed.

Lemma zoom_limits_are_reached_witness :
  (forall n, (10 <= n)%nat ->
     St.scale (exec (times n Session.handleZoomIn) Sample.loaded) == 3)
  /\ (forall n, (10 <= n)%nat ->
        St.scale (exec (times n Session.handleZoomOut) Sample.loaded) == 1 # 2).
Proof.
  apply (zoom_limits_are_reached Sample.loaded).
  unfold zoomInRange. vm_compute. split; discriminate.
Defined.

Lemma reflect_dimension_below (default : Z) (q : Q) (bound : Z) :
  0 <= q -> q <= inject_Z bound -> (bound < 2147483648)%Z ->
  (0 <= Canvas.reflect_dimension default q <= bound)%Z
  /\ Canvas.reflect_dimension default q = Qfloor q.
Proof.
  intros Hlo Hhi Hbound.
  assert (H0 : (0 <= Qfloor q)%Z).
  { change 0%Z with (Qfloor 0). now apply Qfloor_resp_le. }
  assert (H1 : (Qfloor q <= bound)%Z).
  { rewrite <- (Qfloor_Z bound). now apply Qfloor_resp_le. }
  assert (E : Canvas.reflect_dimension default q = Qfloor q).
  { unfold Canvas.reflect_dimension, Canvas.to_unsigned_long.
    assert (Hpos : Qle_bool 0 q = true) by (now apply Qle_bool_iff).
    rewrite Hpos. rewrite Z.mod_small by lia.
    destruct (Qfloor q >? 2147483647)%Z eqn:E; [|reflexivity].
    apply Z.gtb_lt in E. lia. }
  rewrite E. split; [lia|reflexivity].
Qed.

Lemma reflect_dimension_exact (default : Z) (q : Q) (z : Z) :
  q == inject_Z z -> (0 <= z < 2147483648)%Z ->
  Canvas.reflect_dimension default q = z.
Proof.
  intros Hq [Hlo Hhi].
  assert (H0 : 0 <= q).
  { rewrite Hq. change 0 with (inject_Z 0). now rewrite <- Zle_Qle. }
  assert (H1 : q <= inject_Z z) by (rewrite Hq; apply Qle_refl).
  destruct (reflect_dimension_below default q z H0 H1 Hhi) as [_ ->].
  rewrite Hq. apply Qfloor_Z.
Qed.

(** X27. The fit buttons fit, to the pixel.  The page canvas shows a
    page of [pageWidth] x [pageHeight] points at the current scale
    exactly, and the container less 100 pixels measures between 1 and
    2^31 - 1 pixels each way.  At the scale "Fit Width" chooses, the
    rendered canvas is as wide as the container less 100 pixels, or one
    pixel less (the canvas truncates, and the quotient and the product
    that lead to its width are rounded).  At the scale "fit to screen"
    chooses, the rendered canvas exceeds the container less 100 pixels
    in neither direction and comes within one pixel of it in one. *)
Theorem fit_buttons_fit :
  forall (s : St.t) (box : Container.t) (canvas : Canvas.t)
         (pageWidth pageHeight : Q),
    St.containerRef s = Some box ->
    St.canvasRef s = Some canvas ->
    0 < pageWidth -> 0 < pageHeight -> 0 < St.scale s ->
    inject_Z (Canvas.width canvas) == pageWidth * St.scale s ->
    inject_Z (Canvas.height canvas) == pageHeight * St.scale s ->
    (1 <= Container.clientWidth box - 100 < 2147483648)%Z ->
    (1 <= Container.clientHeight box - 100 < 2147483648)%Z ->
    let fitted := St.scale (exec Session.handleFitToWidth s) in
    let shrunk := St.scale (exec Session.handleFitToScreen s) in
    let fittedCanvas :=
      Canvas.resize canvas (pageWidth * fitted) (pageHeight * fitted) in
    let shrunkCanvas :=
      Canvas.resize canvas (pageWidth * shrunk) (pageHeight * shrunk) in
    (Container.clientWidth box - 100 - 1 <= Canvas.width fittedCanvas
     <= Container.clientWidth box - 100)%Z
    /\ (Canvas.width shrunkCanvas <= Container.clientWidth box - 100)%Z
    /\ (Canvas.height shrunkCanvas <= Container.clientHeight box - 100)%Z
    /\ ((Container.clientWidth box - 100 - 1 <= Canvas.width shrunkCanvas)%Z
        \/ (Container.clientHeight box - 100 - 1
            <= Canvas.height shrunkCanvas)%Z).
Proof.
  intros s box canvas pw ph Hbox Hcanvas Hpw Hph Hscale Hw Hh HW HH. simpl.
  set (W := (Container.clientWidth box - 100)%Z) in *.
  set (H := (Container.clientHeight box - 100)%Z) in *.
  assert (HWq : 1 <= inject_Z W).
  { change 1 with (inject_Z 1). rewrite <- Zle_Qle. lia. }
  assert (HHq : 1 <= inject_Z H).
  { change 1 with (inject_Z 1). rewrite <- Zle_Qle. lia. }
  assert (Efit : St.scale (exec Session.handleFitToWidth s)
                 == inject_Z W / pw).
  { unfold exec, Session.handleFitToWidth, bind, get. rewrite Hbox, Hcanvas.
    simpl. fold W. rewrite Hw. field. split; lra. }
  assert (Eshrunk : St.scale (exec Session.handleFitToScreen s)
                    == Qmin (inject_Z W / pw) (inject_Z H / ph)).
  { unfold exec, Session.handleFitToScreen, bind, get.
    rewrite Hbox, Hcanvas. simpl. fold W H. unfold math_min.
    assert (Ex : inject_Z W / (inject_Z (Canvas.width canvas) / St.scale s)
                 == inject_Z W / pw).
    { rewrite Hw. field. split; lra. }
    assert (Ey : inject_Z H / (inject_Z (Canvas.height canvas) / St.scale s)
                 == inject_Z H / ph).
    { rewrite Hh. field. split; lra. }
    destruct (Q.min_spec
                (inject_Z W / (inject_Z (Canvas.width canvas) / St.scale s))
                (inject_Z H / (inject_Z (Canvas.height canvas) / St.scale s)))
      as [[Ha Hb]|[Ha Hb]];
    destruct (Q.min_spec (inject_Z W / pw) (inject_Z H / ph))
      as [[Hc Hd]|[Hc Hd]]; lra. }
  assert (Hxw : inject_Z W / pw * pw == inject_Z W) by (field; lra).
  assert (Hyh : inject_Z H / ph * ph == inject_Z H) by (field; lra).
  assert (Hx0 : 0 < inject_Z W / pw) by (apply Qlt_shift_div_l; lra).
  assert (Hy0 : 0 < inject_Z H / ph) by (apply Qlt_shift_div_l; lra).
  split.
  - assert (E : pw * St.scale (exec Session.handleFitToWidth s)
                == inject_Z W).
    { rewrite Efit. field. lra. }
    unfold Canvas.resize. cbn [Canvas.width].
    rewrite (reflect_dimension_exact 300 _ W E) by lia. lia.
  - unfold Canvas.resize. cbn [Canvas.width Canvas.height].
    set (shrunk := St.scale (exec Session.handleFitToScreen s)) in *.
    assert (Hs0 : 0 < shrunk).
    { rewrite Eshrunk.
      destruct (Q.min_spec (inject_Z W / pw) (inject_Z H / ph))
        as [[_ ->]|[_ ->]]; assumption. }
    assert (Hsx : shrunk <= inject_Z W / pw)
      by (rewrite Eshrunk; apply Q.le_min_l).
    assert (Hsy : shrunk <= inject_Z H / ph)
      by (rewrite Eshrunk; apply Q.le_min_r).
    assert (Hw1 : pw * shrunk <= inject_Z W) by nra.
    assert (Hh1 : ph * shrunk <= inject_Z H) by nra.
    assert (Hw0 : 0 <= pw * shrunk) by nra.
    assert (Hh0 : 0 <= ph * shrunk) by nra.
    destruct (reflect_dimension_below 300 _ W Hw0 Hw1 ltac:(lia))
      as [[_ Hwb] _].
    destruct (reflect_dimension_below 150 _ H Hh0 Hh1 ltac:(lia))
      as [[_ Hhb] _].
    split; [exact Hwb|]. split; [exact Hhb|].
    destruct (Q.min_spec (inject_Z W / pw) (inject_Z H / ph))
      as [[_ Emin]|[_ Emin]].
    + left.
      assert (E : pw * shrunk == inject_Z W).
      { rewrite Eshrunk, Emin. field. lra. }
      rewrite (reflect_dimension_exact 300 _ W E) by lia. lia.
    + right.
      assert (E : ph * shrunk == inject_Z H).
      { rewrite Eshrunk, Emin. field. lra. }
      rewrite (reflect_dimension_exact 150 _ H E) by lia. lia.
Qed.

Lemma fit_buttons_fit_witness :
  (Container.clientWidth Sample.container - 100 - 1
   <= Canvas.width
        (Canvas.resize SampleFit.canvas
           (SampleFit.pageWidth
            * St.scale (exec Session.handleFitToWidth Sample.loaded))
           (SampleFit.pageHeight
            * St.scale (exec Session.handleFitToWidth Sample.loaded)))
   <= Container.clientWidth Sample.container - 100)%Z
  /\ (Canvas.width
        (Canvas.resize SampleFit.canvas
           (SampleFit.pageWidth
            * St.scale (exec Session.handleFitToScreen Sample.loaded))
           (SampleFit.pageHeight
            * St.scale (exec Session.handleFitToScreen Sample.loaded)))
      <= Container.clientWidth Sample.container - 100)%Z
  /\ (Canvas.height
        (Canvas.resize SampleFit.canvas
           (SampleFit.pageWidth
            * St.scale (exec Session.handleFitToScreen Sample.loaded))
           (SampleFit.pageHeight
            * St.scale (exec Session.handleFitToScreen Sample.loaded)))
      <= Container.clientHeight Sample.container - 100)%Z
  /\ ((Container.clientWidth Sample.container - 100 - 1
       <= Canvas.width
            (Canvas.resize SampleFit.canvas
               (SampleFit.pageWidth
                * St.scale (exec Session.handleFitToScreen Sample.loaded))
               (SampleFit.pageHeight
                * St.scale (exec Session.handleFitToScreen Sample.loaded))))%Z
      \/ (Container.clientHeight Sample.container - 100 - 1
          <= Canvas.height
               (Canvas.resize SampleFit.canvas
                  (SampleFit.pageWidth
                   * St.scale (exec Session.handleFitToScreen Sample.loaded))
                  (SampleFit.pageHeight
                   * St.scale
                       (exec Session.handleFitToScreen Sample.loaded))))%Z).
Proof.
  apply (fit_buttons_fit Sample.loaded Sample.container SampleFit.canvas
           SampleFit.pageWidth SampleFit.pageHeight).
  - vm_compute. reflexivity.
  - vm_compute. reflexivity.
  - vm_compute. reflexivity.
  - vm_compute. reflexivity.
  - vm_compute. reflexivity.
  - vm_compute. reflexivity.
  - vm_compute. reflexivity.
  - vm_compute. split; [discriminate|reflexivity].
  - vm_compute. split; [discriminate|reflexivity].
Defined.

Lemma setCurrentPage_twice (a b : Z) (s : St.t) :
  St.setCurrentPage a (St.setCurrentPage b s) = St.setCurrentPage a s.
Proof. reflexivity. Qed.

Lemma clickNext_run (s : St.t) :
  pageInRange s ->
  Session.clickNext s
  = (Normal tt,
     St.setCurrentPage (Z.min (St.totalPages s) (St.currentPage s + 1)) s).
Proof.
  intros [Hlo Hhi].
  unfold Session.clickNext, Session.click, bind, get, Session.nextDisabled.
  destruct (St.currentPage s =? St.totalPages s)%Z eqn:E; [|reflexivity].
  apply Z.eqb_eq in E.
  replace (Z.min (St.totalPages s) (St.currentPage s + 1))
    with (St.currentPage s) by lia.
  now rewrite setCurrentPage_same.
Qed.

Lemma clickPrevious_run (s : St.t) :
  pageInRange s ->
  Session.clickPrevious s
  = (Normal tt, St.setCurrentPage (Z.max 1 (St.currentPage s - 1)) s).
Proof.
  intros [Hlo Hhi].
  unfold Session.clickPrevious, Session.click, bind, get,
    Session.previousDisabled.
  destruct (St.currentPage s =? 1)%Z eqn:E; [|reflexivity].
  apply Z.eqb_eq in E.
  replace (Z.max 1 (St.currentPage s - 1)) with (St.currentPage s) by lia.
  now rewrite setCurrentPage_same.
Qed.

Lemma times_clickNext (k : nat) :
  forall s : St.t,
    pageInRange s ->
    times k Session.clickNext s
    = (Normal tt,
       St.setCurrentPage
         (Z.min (St.totalPages s) (St.currentPage s + Z.of_nat k)) s).
Proof.
  induction k as [|k IH]; intros s Hr.
  - simpl. unfold ret. destruct Hr as [Hlo Hhi].
    replace (Z.min (St.totalPages s) (St.currentPage s + 0))
      with (St.currentPage s) by lia.
    now rewrite setCurrentPage_same.
  - cbn [times]. unfold bind. rewrite (clickNext_run s Hr).
    set (s1 := St.setCurrentPage _ s).
    assert (Hr1 : pageInRange s1).
    { destruct Hr. unfold pageInRange, s1. simpl. lia. }
    rewrite (IH s1 Hr1). f_equal. subst s1. rewrite setCurrentPage_twice.
    f_equal. rewrite Nat2Z.inj_succ. destruct Hr as [Hlo Hhi].
    cbn [St.totalPages St.currentPage St.setCurrentPage]. lia.
Qed.

Lemma times_clickPrevious (k : nat) :
  forall s : St.t,
    pageInRange s ->
    times k Session.clickPrevious s
    = (Normal tt,
       St.setCurrentPage (Z.max 1 (St.currentPage s - Z.of_nat k)) s).
Proof.
  induction k as [|k IH]; intros s Hr.
  - simpl. unfold ret. destruct Hr as [Hlo Hhi].
    replace (Z.max 1 (St.currentPage s - 0)) with (St.currentPage s) by lia.
    now rewrite setCurrentPage_same.
  - cbn [times]. unfold bind. rewrite (clickPrevious_run s Hr).
    set (s1 := St.setCurrentPage _ s).
    assert (Hr1 : pageInRange s1).
    { destruct Hr. unfold pageInRange, s1. simpl. lia. }
    rewrite (IH s1 Hr1). f_equal. subst s1. rewrite setCurrentPage_twice.
    f_equal. rewrite Nat2Z.inj_succ. destruct Hr as [Hlo Hhi].
    cbn [St.totalPages St.currentPage St.setCurrentPage]. lia.
Qed.

(** X28. From a page within [1, totalPages], [k] clicks on "Next" lead
    to page min(totalPages, page + k) and [k] clicks on "Previous" to
    page max(1, page - k), changing nothing else; so enough clicks
    reach the last or the first page and stay there, and "Next"
    followed by "Previous" comes back to the same session unless it
    started on the last page. *)
Theorem repeated_navigation :
  forall (s : St.t) (k : nat),
    pageInRange s ->
    times k Session.clickNext s
    = (Normal tt,
       St.setCurrentPage
         (Z.min (St.totalPages s) (St.currentPage s + Z.of_nat k)) s)
    /\ times k Session.clickPrevious s
       = (Normal tt,
          St.setCurrentPage (Z.max 1 (St.currentPage s - Z.of_nat k)) s)
    /\ ((St.currentPage s < St.totalPages s)%Z ->
        (Session.clickNext ;; Session.clickPrevious) s = (Normal tt, s)).
Proof.
  intros s k Hr. split; [now apply times_clickNext|].
  split; [now apply times_clickPrevious|].
  intros Hlt. unfold bind. rewrite (clickNext_run s Hr).
  set (s1 := St.setCurrentPage _ s).
  assert (Hr1 : pageInRange s1).
  { destruct Hr. unfold pageInRange, s1. simpl. lia. }
  rewrite (clickPrevious_run s1 Hr1). unfold s1. simpl.
  destruct Hr as [Hlo Hhi].
  replace (Z.max 1 (Z.min (St.totalPages s) (St.currentPage s + 1) - 1))
    with (St.currentPage s) by lia.
  f_equal. destruct s; reflexivity.
Qed.

Lemma repeated_navigation_witness :
  times 5 Session.clickNext Sample.loaded
  = (Normal tt,
     St.setCurrentPage
       (Z.min (St.totalPages Sample.loaded)
          (St.currentPage Sample.loaded + Z.of_nat 5)) Sample.loaded)
  /\ times 5 Session.clickPrevious Sample.loaded
     = (Normal tt,
        St.setCurrentPage
          (Z.max 1 (St.currentPage Sample.loaded - Z.of_nat 5)) Sample.loaded)
  /\ ((St.currentPage Sample.loaded < St.totalPages Sample.loaded)%Z ->
      (Session.clickNext ;; Session.clickPrevious) Sample.loaded
      = (Normal tt, Sample.loaded)).
Proof.
  apply (repeated_navigation Sample.loaded 5).
  unfold pageInRange. vm_compute. split; discriminate.
Defined.

(* ------------------------------------------------------------------ *)
(** ** The text overlay *)

Lemma textOverlay_boxes (s : St.t) (canvas : Canvas.t) (v : Viewport.t)
    (items : list TextItem.t) :
  St.canvasRef s = Some canvas ->
  St.currentViewport s = Some v ->
  List.flat_map
    (fun textItem =>
       match Coords.convertPdfToScreenCoords (St.canvasRef s)
               (St.currentViewport s) textItem with
       | Some screenCoords => [Overlay.boxOf s textItem screenCoords]
       | None => []
       end) items
  = List.map
      (fun textItem =>
         Overlay.boxOf s textItem
           (Coords.mkScreen (Coords.screenX textItem canvas)
              (Coords.screenY textItem canvas)
              (math_max (Coords.screenWidth textItem canvas) 30)
              (math_max (Coords.screenHeight textItem canvas) 15))) items.
Proof.
  intros Hc Hv. rewrite Hc, Hv.
  induction items as [|item items IH]; [reflexivity|].
  cbn [List.flat_map List.map Coords.convertPdfToScreenCoords app].
  f_equal; try exact IH.
Qed.

(** X29. The text overlay.  In edit mode, with a document, a stored
    viewport and a mounted page canvas, the overlay holds exactly one
    editable box per run of the current page, in the order of the
    runs, each keyed by its run's identifier and showing its run's
    current text, and every box is at least 30 pixels wide and 15
    pixels high.  In any other mode, without a document, without a
    viewport or without a canvas there is no box at all. *)
Theorem overlay_has_one_box_per_run :
  forall s : St.t,
    (St.editingMode s = EditMode ->
     St.pdfDoc s <> None ->
     St.currentViewport s <> None ->
     St.canvasRef s <> None ->
     List.map Overlay.key (Overlay.textOverlay s)
     = List.map TextItem.id
         (TextModel.getTextItemsForPage s (St.currentPage s - 1))
     /\ List.map Overlay.content (Overlay.textOverlay s)
        = List.map TextItem.text
            (TextModel.getTextItemsForPage s (St.currentPage s - 1))
     /\ Forall (fun box => 30 <= Overlay.width box
                           /\ 15 <= Overlay.minHeight box)
          (Overlay.textOverlay s))
    /\ (St.editingMode s <> EditMode \/ St.pdfDoc s = None
        \/ St.currentViewport s = None \/ St.canvasRef s = None ->
        Overlay.textOverlay s = []).
Proof.
  intros s. split.
  - intros Hmode Hdoc Hview Hcanvas. unfold Overlay.textOverlay.
    rewrite Hmode.
    destruct (St.pdfDoc s) as [pdf|] eqn:Epdf; [|congruence].
    destruct (St.currentViewport s) as [v|] eqn:Ev; [|congruence].
    destruct (St.canvasRef s) as [canvas|] eqn:Ec; [|congruence].
    pose proof (textOverlay_boxes s canvas v
                  (TextModel.getTextItemsForPage s (St.currentPage s - 1))
                  Ec Ev) as Hboxes.
    rewrite Ec, Ev in Hboxes. cbv beta iota. rewrite Hboxes.
    rewrite !List.map_map. cbn [Overlay.key Overlay.content Overlay.boxOf].
    split; [reflexivity|]. split; [reflexivity|].
    apply Forall_forall. intros box Hin.
    apply in_map_iff in Hin as [run [<- _]].
    cbn [Overlay.width Overlay.minHeight Overlay.boxOf
         Coords.swidth Coords.sheight].
    unfold math_max. split; apply Q.le_max_r.
  - intros H. unfold Overlay.textOverlay.
    destruct (St.editingMode s) eqn:Em; try reflexivity.
    destruct (St.pdfDoc s) as [pdf|] eqn:Epdf; [|reflexivity].
    destruct (St.currentViewport s) as [v|] eqn:Ev; [|reflexivity].
    destruct H as [H|[H|[H|H]]]; try congruence.
    rewrite H.
    induction (TextModel.getTextItemsForPage s (St.currentPage s - 1))
      as [|item items IH]; [reflexivity|].
    cbn [List.flat_map Coords.convertPdfToScreenCoords app]. exact IH.
Qed.

Lemma overlay_has_one_box_per_run_witness :
  List.map Overlay.key (Overlay.textOverlay SampleEdit.session)
  = List.map TextItem.id
      (TextModel.getTextItemsForPage SampleEdit.session
         (St.currentPage SampleEdit.session - 1))
  /\ List.map Overlay.content (Overlay.textOverlay SampleEdit.session)
     = List.map TextItem.text
         (TextModel.getTextItemsForPage SampleEdit.session
            (St.currentPage SampleEdit.session - 1))
  /\ Forall (fun box => 30 <= Overlay.width box
                        /\ 15 <= Overlay.minHeight box)
       (Overlay.textOverlay SampleEdit.session).
Proof.
  apply (proj1 (overlay_has_one_box_per_run SampleEdit.session)).
  - reflexivity.
  - discriminate.
  - discriminate.
  - discriminate.
Defined.

(* ------------------------------------------------------------------ *)
(** ** The name of the downloaded file *)

Lemma replaceFirst_absent (pattern replacement s : jsstring) :
  Download.occursIn pattern s = false ->
  Download.replaceFirst pattern replacement s = s.
Proof.
  induction s as [|c rest IH]; intros H.
  - simpl in H. apply orb_false_elim in H as [H _].
    simpl. now rewrite H.
  - cbn [Download.occursIn] in H. apply orb_false_elim in H as [H1 H2].
    cbn [Download.replaceFirst]. rewrite H1. now rewrite (IH H2).
Qed.

Lemma startsWith_app (pattern rest : jsstring) :
  Download.startsWith pattern (pattern ++ rest) = true.
Proof.
  induction pattern as [|p pattern IH]; [reflexivity|].
  simpl. unfold code_unit_eqb. now rewrite N.eqb_refl, IH.
Qed.

Lemma skipn_own_length {A} (pattern rest : list A) :
  skipn (List.length pattern) (pattern ++ rest) = rest.
Proof. induction pattern as [|p pattern IH]; [reflexivity|exact IH]. Qed.

Lemma replaceFirst_first (p : code_unit) (pattern replacement : jsstring)
    (base rest : jsstring) :
  Forall (fun c => c <> p) base ->
  Download.replaceFirst (p :: pattern) replacement
    (base ++ (p :: pattern) ++ rest)
  = base ++ replacement ++ rest.
Proof.
  induction base as [|c base IH]; intros Hbase.
  - cbn [app]. change (p :: pattern ++ rest) with ((p :: pattern) ++ rest).
    destruct ((p :: pattern) ++ rest) as [|c0 rest0] eqn:E; [discriminate|].
    cbn [Download.replaceFirst]. rewrite <- E.
    now rewrite startsWith_app, skipn_own_length.
  - inversion Hbase as [|c' base' Hc Hbase']; subst.
    change ((c :: base) ++ (p :: pattern) ++ rest)
      with (c :: base ++ (p :: pattern) ++ rest).
    cbn [Download.replaceFirst Download.startsWith].
    assert (Hne : code_unit_eqb p c = false).
    { unfold code_unit_eqb. apply N.eqb_neq. congruence. }
    rewrite Hne. cbn [andb]. rewrite (IH Hbase'). reflexivity.
Qed.

(** X30. The name of the downloaded file.  When the name of the loaded
    file is [base ++ ".pdf" ++ rest] with no full stop in [base], the
    download is called [base ++ "_edited.pdf" ++ rest]: only the
    leftmost [".pdf"] is replaced, wherever it stands.  When [".pdf"]
    does not occur in the name (the comparison is case-sensitive), the
    download carries the name of the loaded file unchanged. *)
Theorem download_name_replaces_first_extension :
  forall file : File.t,
    (forall base rest : jsstring,
        File.name file = base ++ lit ".pdf" ++ rest ->
        Forall (fun c => c <> fullStop) base ->
        Download.downloadName file = base ++ lit "_edited.pdf" ++ rest)
    /\ (Download.occursIn (lit ".pdf") (File.name file) = false ->
        Download.downloadName file = File.name file).
Proof.
  intros file. split.
  - intros base rest Hname Hbase. unfold Download.downloadName.
    rewrite Hname.
    change (lit ".pdf") with (fullStop :: lit "pdf").
    now apply replaceFirst_first.
  - intros H. unfold Download.downloadName. now apply replaceFirst_absent.
Qed.

Lemma download_name_replaces_first_extension_witness :
  Download.downloadName Sample.threePageFile
  = lit "report" ++ lit "_edited.pdf" ++ []
  /\ Download.downloadName SampleDownload.capitals
     = File.name SampleDownload.capitals.
Proof.
  split.
  - apply (proj1 (download_name_replaces_first_extension Sample.threePageFile)
             (lit "report") []).
    + reflexivity.
    + vm_compute. repeat constructor; discriminate.
  - apply (proj2 (download_name_replaces_first_extension
                    SampleDownload.capitals)).
    reflexivity.
Defined.
